(** * Shape and state model of [Model.py]: the U-Net generator and the patch critic

    [Model.py] composes layers of the tensor library (PyTorch, [torch.nn]).
    The library is not part of the repository, so its layers are modelled
    here after their documented behaviour: every operation checks the shape of its argument as the library
    does, raises the library's exception when the check fails, and otherwise
    returns a tensor whose shape is computed by the library's formula.  The
    floating-point contents of a tensor are not computed; a tensor carries
    instead the expression (over the library's functional operations) that
    produced it, so that two tensors with the same expression have the same
    contents under any deterministic reading of the operations.

    Stored tensors (parameters and buffers) live in a heap, and the module
    objects hold their locations: in-place updates of a stored tensor are
    updates of the heap, visible through every reference to the module. *)

From Stdlib Require Import ZArith List String QArith Lia.
From stdpp Require Import base list.

Set Warnings "-register-all".

Open Scope Z_scope.

(** ** Exceptions and outcomes *)

Inductive exn : Type :=
| RuntimeError (msg : string)
| ValueError (msg : string)
| IndexError (msg : string).

Inductive outcome (A : Type) : Type :=
| Returned (a : A)
| Raised (e : exn).

Arguments Returned {A} a.
Arguments Raised {A} e.

(** ** Tensors *)

(** A stored tensor is named by its position in the heap. *)
Abbreviation loc := nat (only parsing).

(** The contents of an activation tensor, as the expression that computed it.
    The constructors are the functional operations of the library that the
    layers of [Model.py] call; stored tensors are read through their
    location. *)
Inductive expr : Type :=
| Input (name : string)
| F_conv2d (input : expr) (weight : loc) (bias : option loc) (stride padding : Z * Z)
| F_conv_transpose2d (input : expr) (weight : loc) (bias : option loc)
    (stride padding : Z * Z)
| F_batch_norm (input : expr) (running_mean running_var weight bias : loc)
    (training : bool)
| F_instance_norm (input : expr)
| F_relu (input : expr)
| F_leaky_relu (input : expr) (negative_slope : Q)
| F_max_pool2d (input : expr) (kernel_size stride : Z * Z)
| torch_cat (tensors : list expr) (dim : nat).

Record Tensor : Type := mkTensor {
  shape : list Z;
  value : expr
}.

(** ** The heap of stored tensors *)

(** An in-place write to a stored tensor.  The first four are the fillers used
    by the library's own [reset_parameters]; [normal_] is [init.normal_];
    [add_] is the in-place integer addition used for the batch counter;
    [momentum_update_] is the running-statistics update of batch
    normalization in training mode. *)
Inductive write : Type :=
| kaiming_uniform_
| uniform_
| ones_
| zeros_
| normal_ (mean std : Q)
| add_ (k : Z)
| momentum_update_ (batch : expr).

Inductive cell_kind : Type := nn_Parameter | nn_Buffer.

(** A stored tensor: its shape, whether it is a learned parameter or a
    buffer, and the writes it has received, oldest first. *)
Record cell : Type := mkCell {
  c_kind : cell_kind;
  c_shape : list Z;
  c_writes : list write
}.

Abbreviation heap := (list cell) (only parsing).

Definition push_write (w : write) (c : cell) : cell :=
  mkCell (c_kind c) (c_shape c) (c_writes c ++ [w]).

(** The value of an integer scalar tensor after its writes. *)
Fixpoint int_of_writes (ws : list write) (acc : Z) : Z :=
  match ws with
  | [] => acc
  | zeros_ :: ws' => int_of_writes ws' 0
  | ones_ :: ws' => int_of_writes ws' 1
  | add_ k :: ws' => int_of_writes ws' (acc + k)
  | _ :: ws' => int_of_writes ws' acc
  end.

Definition int_value (c : cell) : Z := int_of_writes (c_writes c) 0.

(** ** Computations over the heap that may raise *)

Definition M (A : Type) : Type := heap -> heap * outcome A.

Definition ret {A} (a : A) : M A := fun h => (h, Returned a).

Definition raise {A} (e : exn) : M A := fun h => (h, Raised e).

Definition bind {A B} (m : M A) (k : A -> M B) : M B :=
  fun h =>
    match m h with
    | (h', Returned a) => k a h'
    | (h', Raised e) => (h', Raised e)
    end.

Declare Scope torch_scope.
Delimit Scope torch_scope with torch.
Notation "x <- m ;; k" := (bind m (fun x => k))
  (at level 100, m at next level, right associativity) : torch_scope.
Notation "m ;;; k" := (bind m (fun _ => k))
  (at level 100, right associativity) : torch_scope.
Open Scope torch_scope.

(** [torch.empty(shape)] wrapped as a parameter or registered as a buffer,
    followed by the writes of the layer's default initialization.  A negative
    size is refused by the library. *)
Definition new_tensor (k : cell_kind) (sh : list Z) (init : list write) : M loc :=
  fun h =>
    if forallb (fun d => 0 <=? d) sh
    then (h ++ [mkCell k sh init], Returned (length h))
    else (h, Raised (RuntimeError "Trying to create tensor with negative dimension")).

(** An in-place write to the stored tensor at [l].  The locations held by a
    constructed module are allocated; at any other location the write does
    nothing. *)
Definition write_ (l : loc) (w : write) : M unit :=
  fun h => (alter (push_write w) l h, Returned tt).

Definition is_parameter (c : cell) : bool :=
  match c_kind c with nn_Parameter => true | nn_Buffer => false end.

(** The learned parameters of a heap, each at its location; the buffers are
    masked. *)
Definition parameters_of (h : heap) : list (option cell) :=
  map (fun c => if is_parameter c then Some c else None) h.

(** ** Shapes *)

Definition prod_Z (l : list Z) : Z := fold_right Z.mul 1 l.

(** Splits the shape of a 2-D layer's argument: [(N, C, H, W)] is a batch,
    [(C, H, W)] a single unbatched sample. *)
Definition split_nchw (sh : list Z) : option (option Z * Z * Z * Z) :=
  match sh with
  | [n; c; h; w] => Some (Some n, c, h, w)
  | [c; h; w] => Some (None, c, h, w)
  | _ => None
  end.

Definition join_nchw (n : option Z) (c h w : Z) : list Z :=
  match n with
  | Some n => [n; c; h; w]
  | None => [c; h; w]
  end.

(** ** The layers of the tensor library used by [Model.py]

    Each layer is a record of its configuration and of the locations of its
    stored tensors, with [init] for its constructor and [forward] for its
    call.  Constructor arguments that [Model.py] leaves out take the
    library's defaults, named [default_*] here. *)

Module Conv2d.

Record t : Type := mk {
  in_channels : Z;
  out_channels : Z;
  kernel_size : Z * Z;
  stride : Z * Z;
  padding : Z * Z;
  weight : loc;
  bias : option loc
}.

Definition default_stride : Z := 1.
Definition default_padding : Z := 0.
Definition default_bias : bool := true.

(** [nn.Conv2d(in_channels, out_channels, kernel_size, stride, padding,
    bias)]: the weight of shape [(out, in, k, k)] is allocated and filled
    by the default initializer, then the bias of shape [(out)] when
    asked for. *)
Definition init (in_channels out_channels kernel_size stride padding : Z)
    (bias : bool) : M t :=
  w <- new_tensor nn_Parameter
         [out_channels; in_channels; kernel_size; kernel_size]
         [kaiming_uniform_] ;;
  b <- (if bias
        then l <- new_tensor nn_Parameter [out_channels] [uniform_] ;;
             ret (Some l)
        else ret None) ;;
  ret (mk in_channels out_channels (kernel_size, kernel_size)
         (stride, stride) (padding, padding) w b).

(** Spatial output size of a convolution (dilation 1). *)
Definition out_size (i k s p : Z) : Z := (i + 2 * p - k) / s + 1.

Definition forward (self : t) (input : Tensor) : M Tensor :=
  match split_nchw (shape input) with
  | None =>
      raise (RuntimeError
               "Expected 3D (unbatched) or 4D (batched) input to conv2d")
  | Some (n, c, h, w) =>
      if negb (c =? in_channels self)
      then raise (RuntimeError
                    "Given groups=1, expected input to have in_channels channels")
      else if (h + 2 * fst (padding self) <? fst (kernel_size self))
              || (w + 2 * snd (padding self) <? snd (kernel_size self))
      then raise (RuntimeError
                    "Kernel size can't be greater than actual input size")
      else
        ret (mkTensor
               (join_nchw n (out_channels self)
                  (out_size h (fst (kernel_size self)) (fst (stride self))
                     (fst (padding self)))
                  (out_size w (snd (kernel_size self)) (snd (stride self))
                     (snd (padding self))))
               (F_conv2d (value input) (weight self) (bias self)
                  (stride self) (padding self)))
  end.

End Conv2d.

Module ConvTranspose2d.

Record t : Type := mk {
  in_channels : Z;
  out_channels : Z;
  kernel_size : Z * Z;
  stride : Z * Z;
  padding : Z * Z;
  output_padding : Z * Z;
  weight : loc;
  bias : option loc
}.

Definition default_output_padding : Z := 0.
Definition default_bias : bool := true.

(** [nn.ConvTranspose2d(in_channels, out_channels, kernel_size, stride,
    padding)]: the weight has shape [(in, out, k, k)]. *)
Definition init (in_channels out_channels kernel_size stride padding : Z)
    (bias : bool) : M t :=
  w <- new_tensor nn_Parameter
         [in_channels; out_channels; kernel_size; kernel_size]
         [kaiming_uniform_] ;;
  b <- (if bias
        then l <- new_tensor nn_Parameter [out_channels] [uniform_] ;;
             ret (Some l)
        else ret None) ;;
  ret (mk in_channels out_channels (kernel_size, kernel_size)
         (stride, stride) (padding, padding)
         (default_output_padding, default_output_padding) w b).

(** Spatial output size of a transposed convolution (dilation 1). *)
Definition out_size (i k s p op : Z) : Z :=
  (i - 1) * s - 2 * p + (k - 1) + op + 1.

Definition forward (self : t) (input : Tensor) : M Tensor :=
  match split_nchw (shape input) with
  | None =>
      raise (RuntimeError
               "Expected 3D (unbatched) or 4D (batched) input to conv_transpose2d")
  | Some (n, c, h, w) =>
      if negb (c =? in_channels self)
      then raise (RuntimeError
                    "Given transposed=1, expected input to have in_channels channels")
      else
        ret (mkTensor
               (join_nchw n (out_channels self)
                  (out_size h (fst (kernel_size self)) (fst (stride self))
                     (fst (padding self)) (fst (output_padding self)))
                  (out_size w (snd (kernel_size self)) (snd (stride self))
                     (snd (padding self)) (snd (output_padding self))))
               (F_conv_transpose2d (value input) (weight self) (bias self)
                  (stride self) (padding self)))
  end.

End ConvTranspose2d.

Module BatchNorm2d.

Record t : Type := mk {
  num_features : Z;
  weight : loc;
  bias : loc;
  running_mean : loc;
  running_var : loc;
  num_batches_tracked : loc;
  training : bool
}.

(** [nn.BatchNorm2d(num_features)], with the defaults [affine=True] and
    [track_running_stats=True]: scale and shift are parameters, the running
    statistics and the batch counter are buffers.  A new module is in
    training mode. *)
Definition init (num_features : Z) : M t :=
  w <- new_tensor nn_Parameter [num_features] [ones_] ;;
  b <- new_tensor nn_Parameter [num_features] [zeros_] ;;
  rm <- new_tensor nn_Buffer [num_features] [zeros_] ;;
  rv <- new_tensor nn_Buffer [num_features] [ones_] ;;
  nbt <- new_tensor nn_Buffer [] [zeros_] ;;
  ret (mk num_features w b rm rv nbt true).

(** Number of values per channel: the batch size times the spatial
    sizes. *)
Definition values_per_channel (sh : list Z) : Z :=
  match sh with
  | n :: _ :: spatial => n * prod_Z spatial
  | _ => prod_Z sh
  end.

(** In training mode the batch counter is incremented first; then the
    batch must hold more than one value per channel; then the running
    statistics are updated from the batch.  In evaluation mode nothing is
    written. *)
Definition forward (self : t) (input : Tensor) : M Tensor :=
  if negb (length (shape input) =? 4)%nat
  then raise (ValueError "expected 4D input")
  else
    (if training self
     then write_ (num_batches_tracked self) (add_ 1)
     else ret tt) ;;;
    if training self && (values_per_channel (shape input) =? 1)
    then raise (ValueError
                  "Expected more than 1 value per channel when training")
    else if negb (nth 1 (shape input) 0 =? num_features self)
    then raise (RuntimeError
                  "running_mean should contain as many elements as the input has channels")
    else
      (if training self
       then write_ (running_mean self) (momentum_update_ (value input)) ;;;
            write_ (running_var self) (momentum_update_ (value input))
       else ret tt) ;;;
      ret (mkTensor (shape input)
             (F_batch_norm (value input) (running_mean self)
                (running_var self) (weight self) (bias self)
                (training self))).

(** [train(mode)] of the module. *)
Definition train (mode : bool) (self : t) : t :=
  mk (num_features self) (weight self) (bias self) (running_mean self)
     (running_var self) (num_batches_tracked self) mode.

End BatchNorm2d.

Module InstanceNorm2d.

(** [nn.InstanceNorm2d(num_features)], with the defaults [affine=False]
    and [track_running_stats=False]: the layer stores no tensor. *)
Record t : Type := mk {
  num_features : Z
}.

Definition init (num_features : Z) : M t := ret (mk num_features).

(** Statistics are always taken from the input, so each sample needs more
    than one spatial element.  Without affine parameters a channel count
    other than [num_features] only gives a warning. *)
Definition forward (self : t) (input : Tensor) : M Tensor :=
  match split_nchw (shape input) with
  | None => raise (ValueError "expected 3D or 4D input")
  | Some (_, _, h, w) =>
      if h * w =? 1
      then raise (ValueError
                    "Expected more than 1 spatial element when training")
      else ret (mkTensor (shape input) (F_instance_norm (value input)))
  end.

End InstanceNorm2d.

Module ReLU.

Record t : Type := mk {
  inplace : bool
}.

Definition init (inplace : bool) : M t := ret (mk inplace).

(** With [inplace=True] the result overwrites the argument, an activation
    that nothing else refers to in [Model.py]; the result is the same
    tensor either way. *)
Definition forward (self : t) (input : Tensor) : M Tensor :=
  ret (mkTensor (shape input) (F_relu (value input))).

End ReLU.

Module LeakyReLU.

Record t : Type := mk {
  negative_slope : Q
}.

Definition init (negative_slope : Q) : M t := ret (mk negative_slope).

Definition forward (self : t) (input : Tensor) : M Tensor :=
  ret (mkTensor (shape input)
         (F_leaky_relu (value input) (negative_slope self))).

End LeakyReLU.

Module MaxPool2d.

Record t : Type := mk {
  kernel_size : Z * Z;
  stride : Z * Z;
  padding : Z * Z
}.

Definition default_padding : Z := 0.

(** [nn.MaxPool2d(kernel_size)]: the stride defaults to the kernel
    size. *)
Definition init (kernel_size : Z * Z) : M t :=
  ret (mk kernel_size kernel_size (default_padding, default_padding)).

(** Spatial output size of a pooling window (dilation 1, floor mode). *)
Definition out_size (i k s p : Z) : Z := (i + 2 * p - k) / s + 1.

Definition forward (self : t) (input : Tensor) : M Tensor :=
  match split_nchw (shape input) with
  | None => raise (RuntimeError "Expected 3D or 4D input to max_pool2d")
  | Some (n, c, h, w) =>
      let oh := out_size h (fst (kernel_size self)) (fst (stride self))
                  (fst (padding self)) in
      let ow := out_size w (snd (kernel_size self)) (snd (stride self))
                  (snd (padding self)) in
      if (c =? 0) || (h =? 0) || (w =? 0)
      then raise (RuntimeError "Expected input with non-zero non-batch dimensions")
      else if (oh <? 1) || (ow <? 1)
      then raise (RuntimeError "Output size is too small")
      else ret (mkTensor (join_nchw n c oh ow)
                  (F_max_pool2d (value input) (kernel_size self)
                     (stride self)))
  end.

End MaxPool2d.

(** ** [torch.cat] *)

(** Whether two shapes agree everywhere but at position [dim]; [i] is the
    position of the heads of [a] and [b]. *)
Fixpoint sizes_match_from (i dim : nat) (a b : list Z) : bool :=
  match a, b with
  | [], [] => true
  | x :: a', y :: b' =>
      ((i =? dim)%nat || (x =? y)) && sizes_match_from (S i) dim a' b'
  | _, _ => false
  end.

Definition sizes_match_except (dim : nat) (a b : list Z) : bool :=
  sizes_match_from 0 dim a b.

(** The check made on each tensor after the first: same number of
    dimensions, then same sizes except along [dim]. *)
Definition check_cat_shape_except_dim (first second : Tensor) (dim : nat)
    : option exn :=
  if negb (length (shape first) =? length (shape second))%nat
  then Some (RuntimeError "Tensors must have same number of dimensions")
  else if negb (sizes_match_except dim (shape first) (shape second))
  then Some (RuntimeError "Sizes of tensors must match except in the cat dimension")
  else None.

Fixpoint check_cat_shapes (first : Tensor) (rest : list Tensor) (dim : nat)
    : option exn :=
  match rest with
  | [] => None
  | t :: rest' =>
      match check_cat_shape_except_dim first t dim with
      | Some e => Some e
      | None => check_cat_shapes first rest' dim
      end
  end.

(** One-dimensional empty tensors are skipped by [torch.cat]. *)
Definition cat_skipped (t : Tensor) : bool :=
  match shape t with
  | [d] => d =? 0
  | _ => false
  end.

(** Total size along [dim] of the tensors that are concatenated. *)
Definition cat_dim_size (tensors : list Tensor) (dim : nat) : Z :=
  fold_right (fun t acc => nth dim (shape t) 0 + acc) 0 tensors.

(** [torch.cat(tensors, dim)] for a non-negative [dim]: the result takes the
    tensors in the order of the list, its size along [dim] is the sum of
    theirs. *)
Definition cat (tensors : list Tensor) (dim : nat) : M Tensor :=
  match tensors with
  | [] => raise (RuntimeError "torch.cat(): expected a non-empty list of Tensors")
  | _ =>
      match List.filter (fun t => negb (cat_skipped t)) tensors with
      | [] => ret (mkTensor [0] (torch_cat (map value tensors) dim))
      | first :: rest =>
          if (length (shape first) <=? dim)%nat
          then raise (IndexError "Dimension out of range")
          else
            match check_cat_shapes first rest dim with
            | Some e => raise e
            | None =>
                ret (mkTensor
                       (<[dim := cat_dim_size (first :: rest) dim]> (shape first))
                       (torch_cat (map value tensors) dim))
            end
      end
  end.

(** For a channel [c] of the concatenation of [tensors] along dimension 1,
    the position in [tensors] of the tensor it is taken from and its channel
    there. *)
Fixpoint cat_channel_source (tensors : list Tensor) (c : Z) : option (nat * Z) :=
  match tensors with
  | [] => None
  | t :: rest =>
      let n := nth 1 (shape t) 0 in
      if (0 <=? c) && (c <? n) then Some (O, c)
      else match cat_channel_source rest (c - n) with
           | Some (i, c') => Some (S i, c')
           | None => None
           end
  end.

(** ** [nn.Sequential] *)

Inductive layer : Type :=
| L_Conv2d (m : Conv2d.t)
| L_ConvTranspose2d (m : ConvTranspose2d.t)
| L_BatchNorm2d (m : BatchNorm2d.t)
| L_InstanceNorm2d (m : InstanceNorm2d.t)
| L_ReLU (m : ReLU.t)
| L_LeakyReLU (m : LeakyReLU.t)
| L_MaxPool2d (m : MaxPool2d.t).

Definition layer_forward (l : layer) (input : Tensor) : M Tensor :=
  match l with
  | L_Conv2d m => Conv2d.forward m input
  | L_ConvTranspose2d m => ConvTranspose2d.forward m input
  | L_BatchNorm2d m => BatchNorm2d.forward m input
  | L_InstanceNorm2d m => InstanceNorm2d.forward m input
  | L_ReLU m => ReLU.forward m input
  | L_LeakyReLU m => LeakyReLU.forward m input
  | L_MaxPool2d m => MaxPool2d.forward m input
  end.

Definition layer_train (mode : bool) (l : layer) : layer :=
  match l with
  | L_BatchNorm2d m => L_BatchNorm2d (BatchNorm2d.train mode m)
  | _ => l
  end.

Module Sequential.

Definition t : Type := list layer.

Definition init (layers : list layer) : M t := ret layers.

(** Each layer is applied to the result of the one before. *)
Fixpoint forward (self : t) (input : Tensor) : M Tensor :=
  match self with
  | [] => ret input
  | l :: rest => out <- layer_forward l input ;; forward rest out
  end.

Definition train (mode : bool) (self : t) : t := map (layer_train mode) self.

End Sequential.

(** ** The classes of [Model.py] *)

Module double_conv_block.

Record t : Type := mk {
  sequence : Sequential.t
}.

Definition init (in_channels out_channels : Z) : M t :=
  c1 <- Conv2d.init in_channels out_channels 3 Conv2d.default_stride 1 false ;;
  n1 <- BatchNorm2d.init out_channels ;;
  r1 <- ReLU.init true ;;
  c2 <- Conv2d.init out_channels out_channels 3 Conv2d.default_stride 1 false ;;
  n2 <- BatchNorm2d.init out_channels ;;
  r2 <- ReLU.init true ;;
  s <- Sequential.init
         [L_Conv2d c1; L_BatchNorm2d n1; L_ReLU r1;
          L_Conv2d c2; L_BatchNorm2d n2; L_ReLU r2] ;;
  ret (mk s).

Definition forward (self : t) (inputs : Tensor) : M Tensor :=
  Sequential.forward (sequence self) inputs.

Definition train (mode : bool) (self : t) : t :=
  mk (Sequential.train mode (sequence self)).

End double_conv_block.

Module encoder_block.

Record t : Type := mk {
  conv : double_conv_block.t;
  maxpool : MaxPool2d.t
}.

Definition init (in_channels out_channels : Z) : M t :=
  c <- double_conv_block.init in_channels out_channels ;;
  p <- MaxPool2d.init (2, 2) ;;
  ret (mk c p).

Definition forward (self : t) (inputs : Tensor) : M (Tensor * Tensor) :=
  out <- double_conv_block.forward (conv self) inputs ;;
  p <- MaxPool2d.forward (maxpool self) out ;;
  ret (out, p).

Definition train (mode : bool) (self : t) : t :=
  mk (double_conv_block.train mode (conv self)) (maxpool self).

End encoder_block.

Module decoder_block.

Record t : Type := mk {
  up : ConvTranspose2d.t;
  conv : double_conv_block.t
}.

Definition init (in_channels out_channels : Z) : M t :=
  u <- ConvTranspose2d.init in_channels out_channels 2 2 0
         ConvTranspose2d.default_bias ;;
  c <- double_conv_block.init (2 * out_channels) out_channels ;;
  ret (mk u c).

Definition forward (self : t) (inputs skip : Tensor) : M Tensor :=
  out <- ConvTranspose2d.forward (up self) inputs ;;
  out <- cat [out; skip] 1 ;;
  out <- double_conv_block.forward (conv self) out ;;
  ret out.

Definition train (mode : bool) (self : t) : t :=
  mk (up self) (double_conv_block.train mode (conv self)).

End decoder_block.

Module Generator.

Record t : Type := mk {
  e1 : encoder_block.t;
  e2 : encoder_block.t;
  e3 : encoder_block.t;
  e4 : encoder_block.t;
  b : double_conv_block.t;
  d1 : decoder_block.t;
  d2 : decoder_block.t;
  d3 : decoder_block.t;
  d4 : decoder_block.t;
  outputs : Conv2d.t
}.

Definition init : M t :=
  e1 <- encoder_block.init 1 64 ;;
  e2 <- encoder_block.init 64 128 ;;
  e3 <- encoder_block.init 128 256 ;;
  e4 <- encoder_block.init 256 512 ;;
  b <- double_conv_block.init 512 1024 ;;
  d1 <- decoder_block.init 1024 512 ;;
  d2 <- decoder_block.init 512 256 ;;
  d3 <- decoder_block.init 256 128 ;;
  d4 <- decoder_block.init 128 64 ;;
  outputs <- Conv2d.init 64 2 1 Conv2d.default_stride 0 Conv2d.default_bias ;;
  ret (mk e1 e2 e3 e4 b d1 d2 d3 d4 outputs).

Definition forward (self : t) (inputs : Tensor) : M Tensor :=
  sp1 <- encoder_block.forward (e1 self) inputs ;;
  let '(s1, p1) := sp1 in
  sp2 <- encoder_block.forward (e2 self) p1 ;;
  let '(s2, p2) := sp2 in
  sp3 <- encoder_block.forward (e3 self) p2 ;;
  let '(s3, p3) := sp3 in
  sp4 <- encoder_block.forward (e4 self) p3 ;;
  let '(s4, p4) := sp4 in
  b <- double_conv_block.forward (b self) p4 ;;
  d1 <- decoder_block.forward (d1 self) b s4 ;;
  d2 <- decoder_block.forward (d2 self) d1 s3 ;;
  d3 <- decoder_block.forward (d3 self) d2 s2 ;;
  d4 <- decoder_block.forward (d4 self) d3 s1 ;;
  outputs <- Conv2d.forward (outputs self) d4 ;;
  ret outputs.

Definition train (mode : bool) (self : t) : t :=
  mk (encoder_block.train mode (e1 self)) (encoder_block.train mode (e2 self))
     (encoder_block.train mode (e3 self)) (encoder_block.train mode (e4 self))
     (double_conv_block.train mode (b self))
     (decoder_block.train mode (d1 self)) (decoder_block.train mode (d2 self))
     (decoder_block.train mode (d3 self)) (decoder_block.train mode (d4 self))
     (outputs self).

(** [eval()] is [train(False)]. *)
Definition eval (self : t) : t := train false self.

End Generator.

Module conv_block.

Record t : Type := mk {
  conv : Conv2d.t;
  ins_norm : InstanceNorm2d.t;
  lrelu : LeakyReLU.t;
  norm : bool
}.

Definition init (in_channels out_channels : Z) (norm : bool) : M t :=
  c <- Conv2d.init in_channels out_channels 4 2 1 false ;;
  n <- InstanceNorm2d.init out_channels ;;
  a <- LeakyReLU.init 0.2%Q ;;
  ret (mk c n a norm).

Definition forward (self : t) (inputs : Tensor) : M Tensor :=
  if norm self
  then
    x <- Conv2d.forward (conv self) inputs ;;
    x <- InstanceNorm2d.forward (ins_norm self) x ;;
    LeakyReLU.forward (lrelu self) x
  else
    x <- Conv2d.forward (conv self) inputs ;;
    LeakyReLU.forward (lrelu self) x.

End conv_block.

Module Critic.

Record t : Type := mk {
  block1 : conv_block.t;
  block2 : conv_block.t;
  block3 : conv_block.t;
  block4 : conv_block.t;
  block5 : conv_block.t;
  output : Conv2d.t
}.

(** The module objects that a traversal of the critic meets. *)
Inductive module : Type :=
| Mod_Critic (m : t)
| Mod_conv_block (m : conv_block.t)
| Mod_Conv2d (m : Conv2d.t)
| Mod_InstanceNorm2d (m : InstanceNorm2d.t)
| Mod_LeakyReLU (m : LeakyReLU.t).

(** [isinstance(m, nn.Conv2d)], giving the convolution when it holds. *)
Definition as_Conv2d (m : module) : option Conv2d.t :=
  match m with
  | Mod_Conv2d c => Some c
  | _ => None
  end.

(** [modules()] of a [conv_block]: the block itself, then its submodules
    in the order in which its constructor assigned them. *)
Definition conv_block_modules (m : conv_block.t) : list module :=
  [Mod_conv_block m;
   Mod_Conv2d (conv_block.conv m);
   Mod_InstanceNorm2d (conv_block.ins_norm m);
   Mod_LeakyReLU (conv_block.lrelu m)].

(** [self.modules()]: the critic, then each submodule with its own
    submodules, in the order of assignment. *)
Definition modules (self : t) : list module :=
  Mod_Critic self
    :: conv_block_modules (block1 self)
    ++ conv_block_modules (block2 self)
    ++ conv_block_modules (block3 self)
    ++ conv_block_modules (block4 self)
    ++ conv_block_modules (block5 self)
    ++ [Mod_Conv2d (output self)].

(** [init.normal_(tensor, mean, std)]. *)
Definition init_normal_ (tensor : loc) (mean std : Q) : M unit :=
  write_ tensor (normal_ mean std).

(** The initialization loop, over the modules in traversal order. *)
Fixpoint init_loop (ms : list module) : M unit :=
  match ms with
  | [] => ret tt
  | m :: rest =>
      (match as_Conv2d m with
       | Some c => init_normal_ (Conv2d.weight c) 0%Q 0.02%Q
       | None => ret tt
       end) ;;;
      init_loop rest
  end.

(** The submodules built by the constructor, before the loop. *)
Definition init_submodules : M t :=
  block1 <- conv_block.init 3 32 false ;;
  block2 <- conv_block.init 32 64 true ;;
  block3 <- conv_block.init 64 128 true ;;
  block4 <- conv_block.init 128 256 true ;;
  block5 <- conv_block.init 256 512 true ;;
  output <- Conv2d.init 512 1 4 Conv2d.default_stride Conv2d.default_padding
              false ;;
  ret (mk block1 block2 block3 block4 block5 output).

Definition init : M t :=
  self <- init_submodules ;;
  init_loop (modules self) ;;;
  ret self.

Definition forward (self : t) (input : Tensor) : M Tensor :=
  x <- conv_block.forward (block1 self) input ;;
  x <- conv_block.forward (block2 self) x ;;
  x <- conv_block.forward (block3 self) x ;;
  x <- conv_block.forward (block4 self) x ;;
  x <- conv_block.forward (block5 self) x ;;
  output <- Conv2d.forward (output self) x ;;
  ret output.

End Critic.

(** ** Objects as the constructors lay them out

    A constructor run in a heap of [l] cells allocates its tensors at [l],
    [l + 1], ... in the order of its statements.  For each class, [*_at]
    is the object built at [l] and [*_cells] the cells appended to the
    heap; the lemmas [*_init_inv] and [*_init_returns] below relate them to
    the constructors. *)

Definition Conv2d_at (ic oc k s p : Z) (bias : bool) (l : loc) : Conv2d.t :=
  Conv2d.mk ic oc (k, k) (s, s) (p, p) l (if bias then Some (S l) else None).

Definition Conv2d_cells (ic oc k : Z) (bias : bool) : list cell :=
  mkCell nn_Parameter [oc; ic; k; k] [kaiming_uniform_]
    :: (if bias then [mkCell nn_Parameter [oc] [uniform_]] else []).

Definition ConvTranspose2d_at (ic oc k s p : Z) (bias : bool) (l : loc)
    : ConvTranspose2d.t :=
  ConvTranspose2d.mk ic oc (k, k) (s, s) (p, p) (0, 0) l
    (if bias then Some (S l) else None).

Definition ConvTranspose2d_cells (ic oc k : Z) (bias : bool) : list cell :=
  mkCell nn_Parameter [ic; oc; k; k] [kaiming_uniform_]
    :: (if bias then [mkCell nn_Parameter [oc] [uniform_]] else []).

Definition BatchNorm2d_at (nf : Z) (mode : bool) (l : loc) : BatchNorm2d.t :=
  BatchNorm2d.mk nf l (1 + l)%nat (2 + l)%nat (3 + l)%nat (4 + l)%nat mode.

Definition BatchNorm2d_cells (nf : Z) : list cell :=
  [mkCell nn_Parameter [nf] [ones_];
   mkCell nn_Parameter [nf] [zeros_];
   mkCell nn_Buffer [nf] [zeros_];
   mkCell nn_Buffer [nf] [ones_];
   mkCell nn_Buffer [] [zeros_]].

Definition double_conv_block_at (ic oc : Z) (mode : bool) (l : loc)
    : double_conv_block.t :=
  double_conv_block.mk
    [L_Conv2d (Conv2d_at ic oc 3 1 1 false l);
     L_BatchNorm2d (BatchNorm2d_at oc mode (1 + l)%nat);
     L_ReLU (ReLU.mk true);
     L_Conv2d (Conv2d_at oc oc 3 1 1 false (6 + l)%nat);
     L_BatchNorm2d (BatchNorm2d_at oc mode (7 + l)%nat);
     L_ReLU (ReLU.mk true)].

Definition double_conv_block_cells (ic oc : Z) : list cell :=
  Conv2d_cells ic oc 3 false ++ BatchNorm2d_cells oc
    ++ Conv2d_cells oc oc 3 false ++ BatchNorm2d_cells oc.

Definition encoder_block_at (ic oc : Z) (mode : bool) (l : loc)
    : encoder_block.t :=
  encoder_block.mk (double_conv_block_at ic oc mode l)
    (MaxPool2d.mk (2, 2) (2, 2) (0, 0)).

Definition decoder_block_at (ic oc : Z) (mode : bool) (l : loc)
    : decoder_block.t :=
  decoder_block.mk (ConvTranspose2d_at ic oc 2 2 0 true l)
    (double_conv_block_at (2 * oc) oc mode (2 + l)%nat).

Definition decoder_block_cells (ic oc : Z) : list cell :=
  ConvTranspose2d_cells ic oc 2 true ++ double_conv_block_cells (2 * oc) oc.

Definition Generator_at (mode : bool) (l : loc) : Generator.t :=
  Generator.mk
    (encoder_block_at 1 64 mode l)
    (encoder_block_at 64 128 mode (12 + l)%nat)
    (encoder_block_at 128 256 mode (24 + l)%nat)
    (encoder_block_at 256 512 mode (36 + l)%nat)
    (double_conv_block_at 512 1024 mode (48 + l)%nat)
    (decoder_block_at 1024 512 mode (60 + l)%nat)
    (decoder_block_at 512 256 mode (74 + l)%nat)
    (decoder_block_at 256 128 mode (88 + l)%nat)
    (decoder_block_at 128 64 mode (102 + l)%nat)
    (Conv2d_at 64 2 1 1 0 true (116 + l)%nat).

Definition Generator_cells : list cell :=
  double_conv_block_cells 1 64 ++ double_conv_block_cells 64 128
    ++ double_conv_block_cells 128 256 ++ double_conv_block_cells 256 512
    ++ double_conv_block_cells 512 1024
    ++ decoder_block_cells 1024 512 ++ decoder_block_cells 512 256
    ++ decoder_block_cells 256 128 ++ decoder_block_cells 128 64
    ++ Conv2d_cells 64 2 1 true.

Definition conv_block_at (ic oc : Z) (norm : bool) (l : loc) : conv_block.t :=
  conv_block.mk (Conv2d_at ic oc 4 2 1 false l) (InstanceNorm2d.mk oc)
    (LeakyReLU.mk 0.2%Q) norm.

Definition Critic_at (l : loc) : Critic.t :=
  Critic.mk
    (conv_block_at 3 32 false l)
    (conv_block_at 32 64 true (1 + l)%nat)
    (conv_block_at 64 128 true (2 + l)%nat)
    (conv_block_at 128 256 true (3 + l)%nat)
    (conv_block_at 256 512 true (4 + l)%nat)
    (Conv2d_at 512 1 4 1 0 false (5 + l)%nat).

(** The cell of a convolution weight of the critic once the constructor has
    finished. *)
Definition critic_weight_cell (ic oc : Z) : cell :=
  mkCell nn_Parameter [oc; ic; 4; 4] [kaiming_uniform_; normal_ 0%Q 0.02%Q].

Definition Critic_cells : list cell :=
  [critic_weight_cell 3 32; critic_weight_cell 32 64;
   critic_weight_cell 64 128; critic_weight_cell 128 256;
   critic_weight_cell 256 512; critic_weight_cell 512 1].

(** The heap after a batch-normalization call that returns. *)
Definition BatchNorm2d_writes (bn : BatchNorm2d.t) (v : expr) (hp : heap) : heap :=
  if BatchNorm2d.training bn
  then alter (push_write (momentum_update_ v)) (BatchNorm2d.running_var bn)
         (alter (push_write (momentum_update_ v)) (BatchNorm2d.running_mean bn)
            (alter (push_write (add_ 1)) (BatchNorm2d.num_batches_tracked bn)
               hp))
  else hp.

(** ** Effects of a computation on the heap *)

(** Which cells are parameters and which are buffers. *)
Definition kinds (h : heap) : list cell_kind := map c_kind h.

(** A computation that writes to no stored tensor, whether it returns or
    raises. *)
Definition leaves_heap {A} (m : M A) : Prop := forall h, fst (m h) = h.

(** A computation that, in heaps whose cells have the kinds [K], changes no
    parameter and no kind: it may only write to buffers. *)
Definition keeps_parameters {A} (K : list cell_kind) (m : M A) : Prop :=
  forall h, kinds h = K ->
    kinds (fst (m h)) = K /\ parameters_of (fst (m h)) = parameters_of h.

(** The cells [cells] of an object built at [l] are still in place, with the
    kinds they were allocated with. *)
Definition laid_out (K : list cell_kind) (l : loc) (cells : list cell) : Prop :=
  forall k c, kinds cells !! k = Some c -> K !! (k + l)%nat = Some c.

(** The three buffers of a batch-normalization layer are buffers of the
    heap. *)
Definition buffers_in_place (K : list cell_kind) (bn : BatchNorm2d.t) : Prop :=
  K !! BatchNorm2d.running_mean bn = Some nn_Buffer
  /\ K !! BatchNorm2d.running_var bn = Some nn_Buffer
  /\ K !! BatchNorm2d.num_batches_tracked bn = Some nn_Buffer.

Definition layer_buffers_in_place (K : list cell_kind) (l : layer) : Prop :=
  match l with
  | L_BatchNorm2d bn => buffers_in_place K bn
  | _ => True
  end.

(** The value of the batch counter of a batch-normalization layer. *)
Definition batches_tracked (bn : BatchNorm2d.t) (h : heap) : option Z :=
  int_value <$> h !! BatchNorm2d.num_batches_tracked bn.

(** ** The block of the critic with the normalization step removed

    What the specification describes for [normalize=False]: the strided
    convolution followed by the leaky activation, and nothing between
    them. *)
Definition conv_then_leaky_relu (conv : Conv2d.t) (lrelu : LeakyReLU.t)
    (inputs : Tensor) : M Tensor :=
  x <- Conv2d.forward conv inputs ;;
  LeakyReLU.forward lrelu x.

(** Whether an expression applies instance normalization somewhere. *)
Fixpoint uses_instance_norm (e : expr) : bool :=
  match e with
  | Input _ => false
  | F_conv2d x _ _ _ _ => uses_instance_norm x
  | F_conv_transpose2d x _ _ _ _ => uses_instance_norm x
  | F_batch_norm x _ _ _ _ _ => uses_instance_norm x
  | F_instance_norm _ => true
  | F_relu x => uses_instance_norm x
  | F_leaky_relu x _ => uses_instance_norm x
  | F_max_pool2d x _ _ => uses_instance_norm x
  | torch_cat xs _ => existsb uses_instance_norm xs
  end.

(** ** Running a fresh model

    [Generator()(x)] and [Critic()(x)] in an empty heap, for an input [x] of
    the given shape: the heap after construction, the heap after the call and
    the outcome of the call. *)
Definition fresh_Generator_call (sh : list Z) : heap * heap * outcome Tensor :=
  match Generator.init [] with
  | (h1, Returned g) =>
      let (h2, r) := Generator.forward g (mkTensor sh (Input "x")) h1 in
      (h1, h2, r)
  | (h1, Raised e) => (h1, h1, Raised e)
  end.

Definition fresh_Critic_call (sh : list Z) : heap * heap * outcome Tensor :=
  match Critic.init [] with
  | (h1, Returned c) =>
      let (h2, r) := Critic.forward c (mkTensor sh (Input "x")) h1 in
      (h1, h2, r)
  | (h1, Raised e) => (h1, h1, Raised e)
  end.

(** The shape of the tensor a computation returned. *)
Definition returned_shape (r : outcome Tensor) : option (list Z) :=
  match r with
  | Returned t => Some (shape t)
  | Raised _ => None
  end.

(** ** Enumerating the layers of the generator *)

Definition as_L_Conv2d (l : layer) : option Conv2d.t :=
  match l with
  | L_Conv2d c => Some c
  | _ => None
  end.

Definition as_L_BatchNorm2d (l : layer) : option BatchNorm2d.t :=
  match l with
  | L_BatchNorm2d bn => Some bn
  | _ => None
  end.

(** The convolutions of a [double_conv_block], in order. *)
Definition double_conv_block_convs (d : double_conv_block.t) : list Conv2d.t :=
  omap as_L_Conv2d (double_conv_block.sequence d).

(** The batch normalizations of a [double_conv_block], in order. *)
Definition double_conv_block_norms (d : double_conv_block.t)
    : list BatchNorm2d.t :=
  omap as_L_BatchNorm2d (double_conv_block.sequence d).

(** The nine [double_conv_block]s of the generator. *)
Definition Generator_double_conv_blocks (g : Generator.t)
    : list double_conv_block.t :=
  [encoder_block.conv (Generator.e1 g); encoder_block.conv (Generator.e2 g);
   encoder_block.conv (Generator.e3 g); encoder_block.conv (Generator.e4 g);
   Generator.b g;
   decoder_block.conv (Generator.d1 g); decoder_block.conv (Generator.d2 g);
   decoder_block.conv (Generator.d3 g); decoder_block.conv (Generator.d4 g)].

(** The four decoder stages of the generator. *)
Definition Generator_decoder_blocks (g : Generator.t) : list decoder_block.t :=
  [Generator.d1 g; Generator.d2 g; Generator.d3 g; Generator.d4 g].

(** The [(mean, std)] of the [normal_] writes a stored tensor has received,
    oldest first. *)
Definition normal_writes (c : cell) : list (Q * Q) :=
  omap (fun w => match w with
                 | normal_ mean std => Some (mean, std)
                 | _ => None
                 end)
       (c_writes c).

(** The integer values of the cells of a heap. *)
Definition int_values (h : heap) : list Z := map int_value h.

(** [xs] with the entries at the locations [L] incremented, one increment
    for each occurrence in [L]. *)
Definition bump (L : list loc) (xs : list Z) : list Z :=
  fold_left (fun ys l => alter Z.succ l ys) L xs.

(** A computation that, when it returns, has incremented the integer cells
    at [L] and changed the integer value of no other cell. *)
Definition returns_bump {A} (L : list loc) (m : M A) : Prop :=
  forall h h' a, m h = (h', Returned a) ->
    int_values h' = bump L (int_values h).

(** The locations of the batch counters that a layer in training mode
    increments. *)
Definition layer_counters (l : layer) : list loc :=
  match l with
  | L_BatchNorm2d bn =>
      if BatchNorm2d.training bn
      then [BatchNorm2d.num_batches_tracked bn]
      else []
  | _ => []
  end.

(** The eighteen batch normalizations of the generator, in the order in
    which [forward] calls them. *)
Definition Generator_norms (g : Generator.t) : list BatchNorm2d.t :=
  concat (map double_conv_block_norms (Generator_double_conv_blocks g)).

(** ** Stored tensors of a module *)

(** The locations of the stored tensors of a layer, in the order in which
    its constructor allocates them. *)
Definition layer_locs (l : layer) : list loc :=
  match l with
  | L_Conv2d c =>
      Conv2d.weight c
        :: match Conv2d.bias c with Some b => [b] | None => [] end
  | L_ConvTranspose2d c =>
      ConvTranspose2d.weight c
        :: match ConvTranspose2d.bias c with Some b => [b] | None => [] end
  | L_BatchNorm2d bn =>
      [BatchNorm2d.weight bn; BatchNorm2d.bias bn;
       BatchNorm2d.running_mean bn; BatchNorm2d.running_var bn;
       BatchNorm2d.num_batches_tracked bn]
  | _ => []
  end.

(** The layers of the generator that store tensors, in the order of the
    constructor. *)
Definition Generator_layers (g : Generator.t) : list layer :=
  double_conv_block.sequence (encoder_block.conv (Generator.e1 g))
    ++ double_conv_block.sequence (encoder_block.conv (Generator.e2 g))
    ++ double_conv_block.sequence (encoder_block.conv (Generator.e3 g))
    ++ double_conv_block.sequence (encoder_block.conv (Generator.e4 g))
    ++ double_conv_block.sequence (Generator.b g)
    ++ L_ConvTranspose2d (decoder_block.up (Generator.d1 g))
       :: double_conv_block.sequence (decoder_block.conv (Generator.d1 g))
    ++ L_ConvTranspose2d (decoder_block.up (Generator.d2 g))
       :: double_conv_block.sequence (decoder_block.conv (Generator.d2 g))
    ++ L_ConvTranspose2d (decoder_block.up (Generator.d3 g))
       :: double_conv_block.sequence (decoder_block.conv (Generator.d3 g))
    ++ L_ConvTranspose2d (decoder_block.up (Generator.d4 g))
       :: double_conv_block.sequence (decoder_block.conv (Generator.d4 g))
    ++ [L_Conv2d (Generator.outputs g)].

Definition Generator_locs (g : Generator.t) : list loc :=
  concat (map layer_locs (Generator_layers g)).

(** The heap holds at [l] a tensor of kind [k] and shape [sh]. *)
Definition stored (h : heap) (l : loc) (k : cell_kind) (sh : list Z) : Prop :=
  exists c, h !! l = Some c /\ c_kind c = k /\ c_shape c = sh.

(** The tensors of a layer are in the heap, each with the kind and the shape
    that the configuration of the layer calls for. *)
Definition layer_stored (h : heap) (l : layer) : Prop :=
  match l with
  | L_Conv2d c =>
      stored h (Conv2d.weight c) nn_Parameter
        [Conv2d.out_channels c; Conv2d.in_channels c;
         fst (Conv2d.kernel_size c); snd (Conv2d.kernel_size c)]
      /\ (forall b, Conv2d.bias c = Some b ->
                    stored h b nn_Parameter [Conv2d.out_channels c])
  | L_ConvTranspose2d c =>
      stored h (ConvTranspose2d.weight c) nn_Parameter
        [ConvTranspose2d.in_channels c; ConvTranspose2d.out_channels c;
         fst (ConvTranspose2d.kernel_size c);
         snd (ConvTranspose2d.kernel_size c)]
      /\ (forall b, ConvTranspose2d.bias c = Some b ->
                    stored h b nn_Parameter [ConvTranspose2d.out_channels c])
  | L_BatchNorm2d bn =>
      stored h (BatchNorm2d.weight bn) nn_Parameter
        [BatchNorm2d.num_features bn]
      /\ stored h (BatchNorm2d.bias bn) nn_Parameter
           [BatchNorm2d.num_features bn]
      /\ stored h (BatchNorm2d.running_mean bn) nn_Buffer
           [BatchNorm2d.num_features bn]
      /\ stored h (BatchNorm2d.running_var bn) nn_Buffer
           [BatchNorm2d.num_features bn]
      /\ stored h (BatchNorm2d.num_batches_tracked bn) nn_Buffer []
  | _ => True
  end.




(** A computation that, when it raises, has incremented the integer cells of
    some first part of [L] and changed the integer value of no other
    cell. *)
Definition raises_bump_prefix {A} (L : list loc) (m : M A) : Prop :=
  forall h h' e, m h = (h', Raised e) ->
    exists L', L' `prefix_of` L /\ int_values h' = bump L' (int_values h).

(** ** Reading the results of computations *)

Lemma bind_Returned {A B} (m : M A) (k : A -> M B) h h' a :
  m h = (h', Returned a) -> bind m k h = k a h'.
Proof. intros E. unfold bind. now rewrite E. Qed.

Lemma bind_Raised {A B} (m : M A) (k : A -> M B) h h' e :
  m h = (h', Raised e) -> bind m k h = (h', Raised e).
Proof. intros E. unfold bind. now rewrite E. Qed.

(** Comparisons decided from the arithmetic context. *)
Ltac decide_tests :=
  repeat match goal with
    | |- context [?a =? ?b] =>
        first [ rewrite (proj2 (Z.eqb_eq a b)) by lia
              | rewrite (proj2 (Z.eqb_neq a b)) by lia ]
    | |- context [?a <? ?b] =>
        first [ rewrite (proj2 (Z.ltb_lt a b)) by lia
              | rewrite (proj2 (Z.ltb_ge a b)) by lia ]
    | |- context [?a <=? ?b] =>
        first [ rewrite (proj2 (Z.leb_le a b)) by lia
              | rewrite (proj2 (Z.leb_gt a b)) by lia ]
    end.

(** ** Size arithmetic of the layers *)

Lemma conv3x3_same_size h : Conv2d.out_size h 3 1 1 = h.
Proof. unfold Conv2d.out_size. rewrite Z.div_1_r. lia. Qed.

Lemma conv1x1_same_size h : Conv2d.out_size h 1 1 0 = h.
Proof. unfold Conv2d.out_size. rewrite Z.div_1_r. lia. Qed.

Lemma conv4x4_stride2_halves h : Conv2d.out_size h 4 2 1 = h / 2.
Proof.
  unfold Conv2d.out_size.
  replace (h + 2 * 1 - 4) with (h + (-1) * 2) by lia.
  rewrite Z.div_add by lia. lia.
Qed.

Lemma conv4x4_unpadded h : Conv2d.out_size h 4 1 0 = h - 3.
Proof. unfold Conv2d.out_size. rewrite Z.div_1_r. lia. Qed.

Lemma pool2x2_halves h : MaxPool2d.out_size h 2 2 0 = h / 2.
Proof.
  unfold MaxPool2d.out_size.
  replace (h + 2 * 0 - 2) with (h + (-1) * 2) by lia.
  rewrite Z.div_add by lia. lia.
Qed.

Lemma up2x2_doubles h : ConvTranspose2d.out_size h 2 2 0 0 = 2 * h.
Proof. unfold ConvTranspose2d.out_size. lia. Qed.

(** ** The layers on a batch of the expected shape *)

Lemma Conv2d_forward_batch (c : Conv2d.t) n ch h w v hp :
  ch = Conv2d.in_channels c ->
  fst (Conv2d.kernel_size c) <= h + 2 * fst (Conv2d.padding c) ->
  snd (Conv2d.kernel_size c) <= w + 2 * snd (Conv2d.padding c) ->
  Conv2d.forward c (mkTensor [n; ch; h; w] v) hp =
  (hp, Returned
         (mkTensor
            [n; Conv2d.out_channels c;
             Conv2d.out_size h (fst (Conv2d.kernel_size c))
               (fst (Conv2d.stride c)) (fst (Conv2d.padding c));
             Conv2d.out_size w (snd (Conv2d.kernel_size c))
               (snd (Conv2d.stride c)) (snd (Conv2d.padding c))]
            (F_conv2d v (Conv2d.weight c) (Conv2d.bias c) (Conv2d.stride c)
               (Conv2d.padding c)))).
Proof.
  intros -> Hh Hw. unfold Conv2d.forward. cbn [shape split_nchw value].
  decide_tests. reflexivity.
Qed.

Lemma ConvTranspose2d_forward_batch (c : ConvTranspose2d.t) n ch h w v hp :
  ch = ConvTranspose2d.in_channels c ->
  ConvTranspose2d.forward c (mkTensor [n; ch; h; w] v) hp =
  (hp, Returned
         (mkTensor
            [n; ConvTranspose2d.out_channels c;
             ConvTranspose2d.out_size h (fst (ConvTranspose2d.kernel_size c))
               (fst (ConvTranspose2d.stride c))
               (fst (ConvTranspose2d.padding c))
               (fst (ConvTranspose2d.output_padding c));
             ConvTranspose2d.out_size w (snd (ConvTranspose2d.kernel_size c))
               (snd (ConvTranspose2d.stride c))
               (snd (ConvTranspose2d.padding c))
               (snd (ConvTranspose2d.output_padding c))]
            (F_conv_transpose2d v (ConvTranspose2d.weight c)
               (ConvTranspose2d.bias c) (ConvTranspose2d.stride c)
               (ConvTranspose2d.padding c)))).
Proof.
  intros ->. unfold ConvTranspose2d.forward. cbn [shape split_nchw value].
  decide_tests. reflexivity.
Qed.

Lemma BatchNorm2d_forward_batch (bn : BatchNorm2d.t) n c h w v hp :
  c = BatchNorm2d.num_features bn ->
  (BatchNorm2d.training bn = true -> n * (h * w) <> 1) ->
  BatchNorm2d.forward bn (mkTensor [n; c; h; w] v) hp =
  (BatchNorm2d_writes bn v hp,
   Returned
     (mkTensor [n; c; h; w]
        (F_batch_norm v (BatchNorm2d.running_mean bn)
           (BatchNorm2d.running_var bn) (BatchNorm2d.weight bn)
           (BatchNorm2d.bias bn) (BatchNorm2d.training bn)))).
Proof.
  intros -> Hn.
  unfold BatchNorm2d.forward, BatchNorm2d_writes, bind, write_, ret, raise.
  cbn [shape value length Nat.eqb negb nth BatchNorm2d.values_per_channel
       prod_Z fold_right].
  rewrite Z.mul_1_r, Z.eqb_refl. cbn [negb].
  destruct (BatchNorm2d.training bn); cbn [andb].
  - rewrite (proj2 (Z.eqb_neq _ _)) by auto. reflexivity.
  - reflexivity.
Qed.

Lemma MaxPool2d_forward_batch (p : MaxPool2d.t) n c h w v hp :
  c <> 0 -> h <> 0 -> w <> 0 ->
  1 <= MaxPool2d.out_size h (fst (MaxPool2d.kernel_size p))
         (fst (MaxPool2d.stride p)) (fst (MaxPool2d.padding p)) ->
  1 <= MaxPool2d.out_size w (snd (MaxPool2d.kernel_size p))
         (snd (MaxPool2d.stride p)) (snd (MaxPool2d.padding p)) ->
  MaxPool2d.forward p (mkTensor [n; c; h; w] v) hp =
  (hp, Returned
         (mkTensor
            [n; c;
             MaxPool2d.out_size h (fst (MaxPool2d.kernel_size p))
               (fst (MaxPool2d.stride p)) (fst (MaxPool2d.padding p));
             MaxPool2d.out_size w (snd (MaxPool2d.kernel_size p))
               (snd (MaxPool2d.stride p)) (snd (MaxPool2d.padding p))]
            (F_max_pool2d v (MaxPool2d.kernel_size p) (MaxPool2d.stride p)))).
Proof.
  intros Hc Hh Hw Hoh How. unfold MaxPool2d.forward.
  cbn [shape split_nchw value]. cbv zeta.
  decide_tests. reflexivity.
Qed.

Lemma InstanceNorm2d_forward_batch (m : InstanceNorm2d.t) n c h w v hp :
  h * w <> 1 ->
  InstanceNorm2d.forward m (mkTensor [n; c; h; w] v) hp =
  (hp, Returned (mkTensor [n; c; h; w] (F_instance_norm v))).
Proof.
  intros Hs. unfold InstanceNorm2d.forward. cbn [shape split_nchw value].
  decide_tests. reflexivity.
Qed.

(** ** What the constructors build *)

Lemma bind_inv {A B} (m : M A) (k : A -> M B) h h' b :
  bind m k h = (h', Returned b) ->
  exists a h'', m h = (h'', Returned a) /\ k a h'' = (h', Returned b).
Proof.
  unfold bind. destruct (m h) as [h'' [a | e]]; intros E.
  - exists a, h''. auto.
  - discriminate.
Qed.

Lemma ret_inv {A} (a b : A) h h' :
  ret a h = (h', Returned b) -> h' = h /\ b = a.
Proof. unfold ret. intros [= <- <-]. auto. Qed.

Lemma new_tensor_inv k sh ws h h' l :
  new_tensor k sh ws h = (h', Returned l) ->
  l = length h /\ h' = h ++ [mkCell k sh ws].
Proof.
  unfold new_tensor. destruct (forallb _ sh); intros [= <- <-]; auto.
Qed.

Lemma new_tensor_returns k sh ws h :
  Forall (fun d => 0 <= d) sh ->
  new_tensor k sh ws h = (h ++ [mkCell k sh ws], Returned (length h)).
Proof.
  intros Hsh. unfold new_tensor.
  replace (forallb (fun d => 0 <=? d) sh) with true; [reflexivity|].
  symmetry. apply forallb_forall. intros d Hd.
  rewrite Forall_forall in Hsh. apply Z.leb_le, Hsh.
  now apply list_elem_of_In.
Qed.

(** Takes an equation [c h = (h', Returned x)] on a constructor apart, down
    to the allocations. *)
Ltac invert_init H :=
  repeat match type of H with
    | bind _ _ _ = (_, Returned _) =>
        let a := fresh "a" in
        let h := fresh "h" in
        let H1 := fresh "Hm" in
        apply bind_inv in H; destruct H as (a & h & H1 & H);
        invert_init H1
    | ret _ _ = (_, Returned _) =>
        apply ret_inv in H; destruct H as [? ?]; subst
    | new_tensor _ _ _ _ = (_, Returned _) =>
        apply new_tensor_inv in H; destruct H as [? ?]; subst
    | (if ?b then _ else _) _ = (_, Returned _) => destruct b
    end.

Ltac norm_length :=
  repeat rewrite length_app; cbn [length];
  repeat rewrite <- app_assoc; cbn [app];
  repeat rewrite Nat.add_succ_r; repeat rewrite Nat.add_0_r.

Lemma Conv2d_init_inv ic oc k s p b h h' c :
  Conv2d.init ic oc k s p b h = (h', Returned c) ->
  c = Conv2d_at ic oc k s p b (length h) /\ h' = h ++ Conv2d_cells ic oc k b.
Proof.
  unfold Conv2d.init. intros H. destruct b; invert_init H;
    norm_length; unfold Conv2d_at, Conv2d_cells; auto.
Qed.

Lemma ConvTranspose2d_init_inv ic oc k s p b h h' c :
  ConvTranspose2d.init ic oc k s p b h = (h', Returned c) ->
  c = ConvTranspose2d_at ic oc k s p b (length h)
  /\ h' = h ++ ConvTranspose2d_cells ic oc k b.
Proof.
  unfold ConvTranspose2d.init. intros H. destruct b; invert_init H;
    norm_length; unfold ConvTranspose2d_at, ConvTranspose2d_cells; auto.
Qed.

Lemma BatchNorm2d_init_inv nf h h' bn :
  BatchNorm2d.init nf h = (h', Returned bn) ->
  bn = BatchNorm2d_at nf true (length h) /\ h' = h ++ BatchNorm2d_cells nf.
Proof.
  unfold BatchNorm2d.init. intros H. invert_init H.
  norm_length. unfold BatchNorm2d_at, BatchNorm2d_cells. auto.
Qed.

(** Takes the constructor of a class of [Model.py] apart, down to the
    constructors of the library's layers. *)
Ltac invert_ctor H :=
  repeat match type of H with
    | bind _ _ _ = (_, Returned _) =>
        let a := fresh "a" in
        let h := fresh "h" in
        let H1 := fresh "Hm" in
        apply bind_inv in H; destruct H as (a & h & H1 & H);
        invert_ctor H1
    | ret _ _ = (_, Returned _) =>
        apply ret_inv in H; destruct H as [? ?]; subst
    | Conv2d.init _ _ _ _ _ _ _ = (_, Returned _) =>
        apply Conv2d_init_inv in H; destruct H as [? ?]; subst
    | ConvTranspose2d.init _ _ _ _ _ _ _ = (_, Returned _) =>
        apply ConvTranspose2d_init_inv in H; destruct H as [? ?]; subst
    | BatchNorm2d.init _ _ = (_, Returned _) =>
        apply BatchNorm2d_init_inv in H; destruct H as [? ?]; subst
    | ReLU.init _ _ = (_, Returned _) =>
        unfold ReLU.init in H
    | LeakyReLU.init _ _ = (_, Returned _) =>
        unfold LeakyReLU.init in H
    | InstanceNorm2d.init _ _ = (_, Returned _) =>
        unfold InstanceNorm2d.init in H
    | MaxPool2d.init _ _ = (_, Returned _) =>
        unfold MaxPool2d.init in H
    | Sequential.init _ _ = (_, Returned _) =>
        unfold Sequential.init in H
    end.

Lemma double_conv_block_init_inv ic oc h h' d :
  double_conv_block.init ic oc h = (h', Returned d) ->
  d = double_conv_block_at ic oc true (length h)
  /\ h' = h ++ double_conv_block_cells ic oc.
Proof.
  unfold double_conv_block.init. intros H. invert_ctor H.
  unfold double_conv_block_cells, Conv2d_cells, BatchNorm2d_cells.
  norm_length. unfold double_conv_block_at. auto.
Qed.

Lemma encoder_block_init_inv ic oc h h' e :
  encoder_block.init ic oc h = (h', Returned e) ->
  e = encoder_block_at ic oc true (length h)
  /\ h' = h ++ double_conv_block_cells ic oc.
Proof.
  unfold encoder_block.init. intros H. invert_ctor H.
  match goal with
  | E : double_conv_block.init _ _ _ = _ |- _ =>
      apply double_conv_block_init_inv in E as [-> ->]
  end.
  unfold encoder_block_at. auto.
Qed.

Lemma decoder_block_init_inv ic oc h h' d :
  decoder_block.init ic oc h = (h', Returned d) ->
  d = decoder_block_at ic oc true (length h)
  /\ h' = h ++ decoder_block_cells ic oc.
Proof.
  unfold decoder_block.init. intros H. invert_ctor H.
  match goal with
  | E : double_conv_block.init _ _ _ = _ |- _ =>
      apply double_conv_block_init_inv in E as [-> ->]
  end.
  unfold decoder_block_cells, ConvTranspose2d_cells,
    ConvTranspose2d.default_bias.
  norm_length. unfold decoder_block_at. auto.
Qed.


Lemma length_double_conv_block_cells ic oc :
  length (double_conv_block_cells ic oc) = 12%nat.
Proof. reflexivity. Qed.

Lemma length_decoder_block_cells ic oc :
  length (decoder_block_cells ic oc) = 14%nat.
Proof. reflexivity. Qed.

Lemma Generator_init_inv h h' g :
  Generator.init h = (h', Returned g) ->
  g = Generator_at true (length h) /\ h' = h ++ Generator_cells.
Proof.
  unfold Generator.init. intros H.
  repeat (apply bind_inv in H;
          let a := fresh "a" in
          let h := fresh "h" in
          let Hm := fresh "Hm" in
          destruct H as (a & h & Hm & H);
          first [ apply encoder_block_init_inv in Hm as [-> ->]
                | apply decoder_block_init_inv in Hm as [-> ->]
                | apply double_conv_block_init_inv in Hm as [-> ->]
                | apply Conv2d_init_inv in Hm as [-> ->] ]).
  apply ret_inv in H as [-> ->].
  repeat rewrite length_app.
  repeat rewrite length_double_conv_block_cells.
  repeat rewrite length_decoder_block_cells.
  unfold Generator_cells. repeat rewrite <- app_assoc.
  split; [|reflexivity].
  unfold Generator_at, Conv2d.default_stride, Conv2d.default_bias.
  f_equal; try reflexivity; f_equal; lia.
Qed.

(** ** The constructors return *)

Lemma Conv2d_init_returns ic oc k s p b h :
  0 <= ic -> 0 <= oc -> 0 <= k ->
  Conv2d.init ic oc k s p b h =
  (h ++ Conv2d_cells ic oc k b, Returned (Conv2d_at ic oc k s p b (length h))).
Proof.
  intros Hic Hoc Hk. unfold Conv2d.init.
  erewrite bind_Returned; [|apply new_tensor_returns; repeat constructor; lia].
  destruct b.
  - erewrite bind_Returned;
      [|erewrite bind_Returned;
          [|apply new_tensor_returns; repeat constructor; lia];
        reflexivity].
    unfold ret, Conv2d_cells, Conv2d_at. norm_length. reflexivity.
  - erewrite bind_Returned; [|reflexivity].
    unfold ret, Conv2d_cells, Conv2d_at. reflexivity.
Qed.

Lemma ConvTranspose2d_init_returns ic oc k s p b h :
  0 <= ic -> 0 <= oc -> 0 <= k ->
  ConvTranspose2d.init ic oc k s p b h =
  (h ++ ConvTranspose2d_cells ic oc k b,
   Returned (ConvTranspose2d_at ic oc k s p b (length h))).
Proof.
  intros Hic Hoc Hk. unfold ConvTranspose2d.init.
  erewrite bind_Returned; [|apply new_tensor_returns; repeat constructor; lia].
  destruct b.
  - erewrite bind_Returned;
      [|erewrite bind_Returned;
          [|apply new_tensor_returns; repeat constructor; lia];
        reflexivity].
    unfold ret, ConvTranspose2d_cells, ConvTranspose2d_at. norm_length.
    reflexivity.
  - erewrite bind_Returned; [|reflexivity].
    unfold ret, ConvTranspose2d_cells, ConvTranspose2d_at. reflexivity.
Qed.

Lemma BatchNorm2d_init_returns nf h :
  0 <= nf ->
  BatchNorm2d.init nf h =
  (h ++ BatchNorm2d_cells nf, Returned (BatchNorm2d_at nf true (length h))).
Proof.
  intros Hnf. unfold BatchNorm2d.init.
  do 5 (erewrite bind_Returned;
        [|apply new_tensor_returns; repeat constructor; lia]).
  unfold ret, BatchNorm2d_cells, BatchNorm2d_at. norm_length. reflexivity.
Qed.

(** Runs the statements of a constructor one after the other. *)
Ltac run_ctor :=
  repeat (erewrite bind_Returned;
          [|first [ apply Conv2d_init_returns; lia
                  | apply ConvTranspose2d_init_returns; lia
                  | apply BatchNorm2d_init_returns; lia
                  | reflexivity ]]).

Lemma double_conv_block_init_returns ic oc h :
  0 <= ic -> 0 <= oc ->
  double_conv_block.init ic oc h =
  (h ++ double_conv_block_cells ic oc,
   Returned (double_conv_block_at ic oc true (length h))).
Proof.
  intros Hic Hoc. unfold double_conv_block.init. run_ctor.
  unfold ret, double_conv_block_cells, Conv2d_cells, BatchNorm2d_cells,
    double_conv_block_at.
  norm_length. reflexivity.
Qed.

Lemma encoder_block_init_returns ic oc h :
  0 <= ic -> 0 <= oc ->
  encoder_block.init ic oc h =
  (h ++ double_conv_block_cells ic oc,
   Returned (encoder_block_at ic oc true (length h))).
Proof.
  intros Hic Hoc. unfold encoder_block.init.
  erewrite bind_Returned by (apply double_conv_block_init_returns; lia).
  reflexivity.
Qed.

Lemma decoder_block_init_returns ic oc h :
  0 <= ic -> 0 <= oc ->
  decoder_block.init ic oc h =
  (h ++ decoder_block_cells ic oc,
   Returned (decoder_block_at ic oc true (length h))).
Proof.
  intros Hic Hoc. unfold decoder_block.init. run_ctor.
  erewrite bind_Returned by (apply double_conv_block_init_returns; lia).
  unfold ret, decoder_block_cells, decoder_block_at, ConvTranspose2d_cells,
    ConvTranspose2d.default_bias.
  norm_length. reflexivity.
Qed.

Lemma conv_block_init_returns ic oc norm h :
  0 <= ic -> 0 <= oc ->
  conv_block.init ic oc norm h =
  (h ++ Conv2d_cells ic oc 4 false,
   Returned (conv_block_at ic oc norm (length h))).
Proof.
  intros Hic Hoc. unfold conv_block.init. run_ctor. reflexivity.
Qed.

Lemma Generator_init_returns h :
  Generator.init h = (h ++ Generator_cells, Returned (Generator_at true (length h))).
Proof.
  unfold Generator.init.
  repeat (erewrite bind_Returned;
          [|first [ apply encoder_block_init_returns; lia
                  | apply decoder_block_init_returns; lia
                  | apply double_conv_block_init_returns; lia
                  | apply Conv2d_init_returns; lia ]]).
  unfold ret. f_equal.
  - unfold Generator_cells. repeat rewrite <- app_assoc. reflexivity.
  - repeat rewrite length_app.
    repeat rewrite length_double_conv_block_cells.
    repeat rewrite length_decoder_block_cells.
    unfold Generator_at, Conv2d.default_stride, Conv2d.default_bias.
    f_equal. f_equal; try reflexivity; f_equal; lia.
Qed.

(** ** Forward shapes, layer by layer, on the constructed objects *)

Lemma Conv2d_3x3_forward ic oc b l n ch h w v hp :
  ch = ic -> 1 <= h -> 1 <= w ->
  Conv2d.forward (Conv2d_at ic oc 3 1 1 b l) (mkTensor [n; ch; h; w] v) hp =
  (hp, Returned
         (mkTensor [n; oc; h; w]
            (F_conv2d v l (if b then Some (S l) else None) (1, 1) (1, 1)))).
Proof.
  intros -> Hh Hw. rewrite Conv2d_forward_batch; cbn; try lia.
  now rewrite !conv3x3_same_size.
Qed.

Lemma Conv2d_1x1_forward ic oc b l n ch h w v hp :
  ch = ic -> 1 <= h -> 1 <= w ->
  Conv2d.forward (Conv2d_at ic oc 1 1 0 b l) (mkTensor [n; ch; h; w] v) hp =
  (hp, Returned
         (mkTensor [n; oc; h; w]
            (F_conv2d v l (if b then Some (S l) else None) (1, 1) (0, 0)))).
Proof.
  intros -> Hh Hw. rewrite Conv2d_forward_batch; cbn; try lia.
  now rewrite !conv1x1_same_size.
Qed.

Lemma Conv2d_4x4_stride2_forward ic oc b l n ch h w v hp :
  ch = ic -> 2 <= h -> 2 <= w ->
  Conv2d.forward (Conv2d_at ic oc 4 2 1 b l) (mkTensor [n; ch; h; w] v) hp =
  (hp, Returned
         (mkTensor [n; oc; h / 2; w / 2]
            (F_conv2d v l (if b then Some (S l) else None) (2, 2) (1, 1)))).
Proof.
  intros -> Hh Hw. rewrite Conv2d_forward_batch; cbn; try lia.
  now rewrite !conv4x4_stride2_halves.
Qed.

Lemma Conv2d_4x4_forward ic oc b l n ch h w v hp :
  ch = ic -> 4 <= h -> 4 <= w ->
  Conv2d.forward (Conv2d_at ic oc 4 1 0 b l) (mkTensor [n; ch; h; w] v) hp =
  (hp, Returned
         (mkTensor [n; oc; h - 3; w - 3]
            (F_conv2d v l (if b then Some (S l) else None) (1, 1) (0, 0)))).
Proof.
  intros -> Hh Hw. rewrite Conv2d_forward_batch; cbn; try lia.
  now rewrite !conv4x4_unpadded.
Qed.

Lemma ConvTranspose2d_2x2_forward ic oc b l n ch h w v hp :
  ch = ic ->
  ConvTranspose2d.forward (ConvTranspose2d_at ic oc 2 2 0 b l)
    (mkTensor [n; ch; h; w] v) hp =
  (hp, Returned
         (mkTensor [n; oc; 2 * h; 2 * w]
            (F_conv_transpose2d v l (if b then Some (S l) else None)
               (2, 2) (0, 0)))).
Proof.
  intros ->. rewrite ConvTranspose2d_forward_batch; cbn; try lia.
  now rewrite !up2x2_doubles.
Qed.

Lemma MaxPool2d_2x2_forward n c h w v hp :
  1 <= c -> 1 <= h -> 1 <= w ->
  MaxPool2d.forward (MaxPool2d.mk (2, 2) (2, 2) (0, 0))
    (mkTensor [n; c; 2 * h; 2 * w] v) hp =
  (hp, Returned (mkTensor [n; c; h; w] (F_max_pool2d v (2, 2) (2, 2)))).
Proof.
  intros Hc Hh Hw.
  assert (Eh : MaxPool2d.out_size (2 * h) 2 2 0 = h)
    by (rewrite pool2x2_halves, Z.mul_comm; apply Z.div_mul; lia).
  assert (Ew : MaxPool2d.out_size (2 * w) 2 2 0 = w)
    by (rewrite pool2x2_halves, Z.mul_comm; apply Z.div_mul; lia).
  rewrite MaxPool2d_forward_batch; cbn [MaxPool2d.kernel_size MaxPool2d.stride
    MaxPool2d.padding fst snd]; rewrite ?Eh, ?Ew; try lia.
  reflexivity.
Qed.

Lemma cat_two_batches n c1 c2 h w v1 v2 hp :
  cat [mkTensor [n; c1; h; w] v1; mkTensor [n; c2; h; w] v2] 1 hp =
  (hp, Returned (mkTensor [n; c1 + c2; h; w] (torch_cat [v1; v2] 1))).
Proof.
  unfold cat, check_cat_shapes, check_cat_shape_except_dim,
    sizes_match_except, cat_dim_size.
  cbn. rewrite !Z.eqb_refl. cbn. rewrite Z.add_0_r. reflexivity.
Qed.

Lemma double_conv_block_forward_at ic oc mode l n ch h w v hp :
  ch = ic -> 1 <= h -> 1 <= w -> (mode = true -> n * (h * w) <> 1) ->
  exists hp' e,
    double_conv_block.forward (double_conv_block_at ic oc mode l)
      (mkTensor [n; ch; h; w] v) hp =
    (hp', Returned (mkTensor [n; oc; h; w] e)).
Proof.
  intros -> Hh Hw Hn. eexists _, _.
  unfold double_conv_block.forward, double_conv_block_at.
  cbn [double_conv_block.sequence Sequential.forward layer_forward].
  erewrite bind_Returned by (apply Conv2d_3x3_forward; auto).
  erewrite bind_Returned by (apply BatchNorm2d_forward_batch; auto).
  erewrite bind_Returned by reflexivity.
  erewrite bind_Returned by (apply Conv2d_3x3_forward; auto).
  erewrite bind_Returned by (apply BatchNorm2d_forward_batch; auto).
  erewrite bind_Returned by reflexivity.
  reflexivity.
Qed.

Lemma encoder_block_forward_at ic oc mode l n ch h w v hp :
  ch = ic -> 1 <= oc -> 1 <= n -> 1 <= h -> 1 <= w ->
  exists hp' es ep,
    encoder_block.forward (encoder_block_at ic oc mode l)
      (mkTensor [n; ch; 2 * h; 2 * w] v) hp =
    (hp', Returned (mkTensor [n; oc; 2 * h; 2 * w] es,
                    mkTensor [n; oc; h; w] ep)).
Proof.
  intros -> Hoc Hn Hh Hw.
  destruct (double_conv_block_forward_at ic oc mode l n ic (2 * h) (2 * w) v hp)
    as (hp' & es & E); [reflexivity | lia | lia | nia |].
  exists hp', es, (F_max_pool2d es (2, 2) (2, 2)).
  unfold encoder_block.forward, encoder_block_at.
  cbn [encoder_block.conv encoder_block.maxpool].
  erewrite bind_Returned by exact E.
  erewrite bind_Returned by (apply MaxPool2d_2x2_forward; lia).
  reflexivity.
Qed.

Lemma decoder_block_forward_at ic oc mode l n ch h w vx vs hp :
  ch = ic -> 1 <= n -> 1 <= h -> 1 <= w ->
  exists hp' e,
    decoder_block.forward (decoder_block_at ic oc mode l)
      (mkTensor [n; ch; h; w] vx) (mkTensor [n; oc; 2 * h; 2 * w] vs) hp =
    (hp', Returned (mkTensor [n; oc; 2 * h; 2 * w] e)).
Proof.
  intros -> Hn Hh Hw.
  edestruct (double_conv_block_forward_at (2 * oc) oc mode (2 + l)%nat n
               (oc + oc) (2 * h) (2 * w)) as (hp' & e & E);
    [lia | lia | lia | nia |].
  exists hp', e.
  unfold decoder_block.forward, decoder_block_at.
  cbn [decoder_block.up decoder_block.conv].
  erewrite bind_Returned by (apply ConvTranspose2d_2x2_forward; reflexivity).
  erewrite bind_Returned by apply cat_two_batches.
  erewrite bind_Returned by exact E.
  reflexivity.
Qed.

Lemma Generator_forward_at mode l n a b v hp :
  1 <= n -> 1 <= a -> 1 <= b -> (mode = true -> n * (a * b) <> 1) ->
  exists hp' e,
    Generator.forward (Generator_at mode l)
      (mkTensor [n; 1; 2 * (2 * (2 * (2 * a))); 2 * (2 * (2 * (2 * b)))] v) hp =
    (hp', Returned
            (mkTensor [n; 2; 2 * (2 * (2 * (2 * a))); 2 * (2 * (2 * (2 * b)))]
               e)).
Proof.
  intros Hn Ha Hb Hm.
  unfold Generator.forward, Generator_at.
  cbn [Generator.e1 Generator.e2 Generator.e3 Generator.e4 Generator.b
       Generator.d1 Generator.d2 Generator.d3 Generator.d4 Generator.outputs].
  edestruct (encoder_block_forward_at 1 64 mode l n 1
               (2 * (2 * (2 * a))) (2 * (2 * (2 * b))) v hp)
    as (h1 & s1 & p1 & E1); [reflexivity | lia..|].
  erewrite bind_Returned by exact E1. clear E1.
  edestruct (encoder_block_forward_at 64 128 mode (12 + l)%nat n 64
               (2 * (2 * a)) (2 * (2 * b)) p1 h1)
    as (h2 & s2 & p2 & E2); [reflexivity | lia..|].
  erewrite bind_Returned by exact E2. clear E2.
  edestruct (encoder_block_forward_at 128 256 mode (24 + l)%nat n 128
               (2 * a) (2 * b) p2 h2)
    as (h3 & s3 & p3 & E3); [reflexivity | lia..|].
  erewrite bind_Returned by exact E3. clear E3.
  edestruct (encoder_block_forward_at 256 512 mode (36 + l)%nat n 256
               a b p3 h3)
    as (h4 & s4 & p4 & E4); [reflexivity | lia..|].
  erewrite bind_Returned by exact E4. clear E4.
  edestruct (double_conv_block_forward_at 512 1024 mode (48 + l)%nat n 512
               a b p4 h4)
    as (h5 & vb & E5); [reflexivity | lia | lia | exact Hm |].
  erewrite bind_Returned by exact E5. clear E5.
  edestruct (decoder_block_forward_at 1024 512 mode (60 + l)%nat n 1024
               a b vb s4 h5)
    as (h6 & v1 & E6); [reflexivity | lia..|].
  erewrite bind_Returned by exact E6. clear E6.
  edestruct (decoder_block_forward_at 512 256 mode (74 + l)%nat n 512
               (2 * a) (2 * b) v1 s3 h6)
    as (h7 & v2 & E7); [reflexivity | lia..|].
  erewrite bind_Returned by exact E7. clear E7.
  edestruct (decoder_block_forward_at 256 128 mode (88 + l)%nat n 256
               (2 * (2 * a)) (2 * (2 * b)) v2 s2 h7)
    as (h8 & v3 & E8); [reflexivity | lia..|].
  erewrite bind_Returned by exact E8. clear E8.
  edestruct (decoder_block_forward_at 128 64 mode (102 + l)%nat n 128
               (2 * (2 * (2 * a))) (2 * (2 * (2 * b))) v3 s1 h8)
    as (h9 & v4 & E9); [reflexivity | lia..|].
  erewrite bind_Returned by exact E9. clear E9.
  erewrite bind_Returned by (apply Conv2d_1x1_forward; [reflexivity | lia..]).
  eexists _, _. reflexivity.
Qed.

Lemma half_lower_bound x k : 2 * k <= x -> k <= x / 2.
Proof. intros Hx. apply Z.div_le_lower_bound; lia. Qed.

Lemma conv_block_forward_at ic oc norm l n ch h w v hp :
  ch = ic -> 2 <= h -> 2 <= w -> (norm = true -> 2 <= h / 2 /\ 2 <= w / 2) ->
  conv_block.forward (conv_block_at ic oc norm l) (mkTensor [n; ch; h; w] v) hp =
  (hp, Returned
         (mkTensor [n; oc; h / 2; w / 2]
            (F_leaky_relu
               (if norm
                then F_instance_norm (F_conv2d v l None (2, 2) (1, 1))
                else F_conv2d v l None (2, 2) (1, 1))
               0.2%Q))).
Proof.
  intros -> Hh Hw Hn. unfold conv_block.forward, conv_block_at.
  cbn [conv_block.norm conv_block.conv conv_block.ins_norm conv_block.lrelu].
  destruct norm.
  - destruct Hn as [Hh2 Hw2]; [reflexivity|].
    erewrite bind_Returned by (apply Conv2d_4x4_stride2_forward; auto).
    erewrite bind_Returned by (apply InstanceNorm2d_forward_batch; nia).
    reflexivity.
  - erewrite bind_Returned by (apply Conv2d_4x4_stride2_forward; auto).
    reflexivity.
Qed.

Lemma Critic_forward_at l n h w v hp :
  128 <= h -> 128 <= w ->
  exists e,
    Critic.forward (Critic_at l) (mkTensor [n; 3; h; w] v) hp =
    (hp, Returned (mkTensor [n; 1; h / 32 - 3; w / 32 - 3] e)).
Proof.
  intros Hh Hw.
  assert (H1 : 64 <= h / 2 /\ 64 <= w / 2)
    by (split; apply half_lower_bound; lia).
  assert (H2 : 32 <= h / 2 / 2 /\ 32 <= w / 2 / 2)
    by (split; apply half_lower_bound; lia).
  assert (H3 : 16 <= h / 2 / 2 / 2 /\ 16 <= w / 2 / 2 / 2)
    by (split; apply half_lower_bound; lia).
  assert (H4 : 8 <= h / 2 / 2 / 2 / 2 /\ 8 <= w / 2 / 2 / 2 / 2)
    by (split; apply half_lower_bound; lia).
  assert (H5 : 4 <= h / 2 / 2 / 2 / 2 / 2 /\ 4 <= w / 2 / 2 / 2 / 2 / 2)
    by (split; apply half_lower_bound; lia).
  assert (E32 : forall x, x / 2 / 2 / 2 / 2 / 2 = x / 32)
    by (intros x; rewrite !Z.div_div by lia; reflexivity).
  eexists. unfold Critic.forward, Critic_at.
  cbn [Critic.block1 Critic.block2 Critic.block3 Critic.block4 Critic.block5
       Critic.output].
  erewrite bind_Returned
    by (apply conv_block_forward_at; [reflexivity | lia | lia | discriminate]).
  do 4 erewrite bind_Returned
    by (apply conv_block_forward_at; [reflexivity | lia | lia | intros _; lia]).
  erewrite bind_Returned
    by (apply Conv2d_4x4_forward; [reflexivity | lia | lia]).
  rewrite !E32. reflexivity.
Qed.

(** ** The constructor of the critic *)

Lemma Critic_init_submodules_returns h :
  Critic.init_submodules h =
  (h ++ [mkCell nn_Parameter [32; 3; 4; 4] [kaiming_uniform_];
         mkCell nn_Parameter [64; 32; 4; 4] [kaiming_uniform_];
         mkCell nn_Parameter [128; 64; 4; 4] [kaiming_uniform_];
         mkCell nn_Parameter [256; 128; 4; 4] [kaiming_uniform_];
         mkCell nn_Parameter [512; 256; 4; 4] [kaiming_uniform_];
         mkCell nn_Parameter [1; 512; 4; 4] [kaiming_uniform_]],
   Returned (Critic_at (length h))).
Proof.
  unfold Critic.init_submodules.
  repeat (erewrite bind_Returned;
          [|first [ apply conv_block_init_returns; lia
                  | apply Conv2d_init_returns; lia ]]).
  unfold ret, Conv2d_cells. f_equal.
  - repeat rewrite <- app_assoc. reflexivity.
  - repeat rewrite length_app. cbn [length].
    unfold Critic_at, Conv2d.default_stride, Conv2d.default_padding.
    f_equal. f_equal; try reflexivity; f_equal; lia.
Qed.

(** The loop writes [normal_(0, 0.02)] to the weight of each convolution of
    the traversal, in order, and to nothing else. *)
Lemma init_loop_writes ms h :
  Critic.init_loop ms h =
  (fold_left
     (fun hp c => alter (push_write (normal_ 0%Q 0.02%Q)) (Conv2d.weight c) hp)
     (omap Critic.as_Conv2d ms) h,
   Returned tt).
Proof.
  revert h. induction ms as [|m ms IH]; intros h; [reflexivity|].
  cbn [Critic.init_loop]. destruct m; cbn [Critic.as_Conv2d omap list_omap];
    unfold bind; cbn; apply IH.
Qed.

Lemma alter_appended {A} (f : A -> A) (k : nat) (l1 l2 : list A) :
  alter f (k + length l1)%nat (l1 ++ l2) = l1 ++ alter f k l2.
Proof. rewrite Nat.add_comm. apply alter_app_r. Qed.

Lemma lookup_appended {A} (l1 l2 : list A) (k : nat) :
  (l1 ++ l2) !! (k + length l1)%nat = l2 !! k.
Proof.
  rewrite lookup_app_r by lia. f_equal. lia.
Qed.

Lemma Critic_init_returns h :
  Critic.init h = (h ++ Critic_cells, Returned (Critic_at (length h))).
Proof.
  unfold Critic.init.
  erewrite bind_Returned by apply Critic_init_submodules_returns.
  erewrite bind_Returned by apply init_loop_writes.
  unfold ret. f_equal.
  cbn [Critic.modules Critic.conv_block_modules Critic_at conv_block_at
       Critic.block1 Critic.block2 Critic.block3 Critic.block4 Critic.block5
       Critic.output conv_block.conv app omap list_omap Critic.as_Conv2d
       fold_left Conv2d_at Conv2d.weight].
  pose proof (alter_appended (push_write (normal_ 0%Q 0.02%Q)) 0 h) as E0.
  cbn [Nat.add] in E0. rewrite E0, !alter_appended. reflexivity.
Qed.

(** ** Computations that leave the heap alone *)

Lemma leaves_heap_ret {A} (a : A) : leaves_heap (ret a).
Proof. intros h. reflexivity. Qed.

Lemma leaves_heap_raise {A} (e : exn) : leaves_heap (@raise A e).
Proof. intros h. reflexivity. Qed.

Lemma leaves_heap_bind {A B} (m : M A) (k : A -> M B) :
  leaves_heap m -> (forall a, leaves_heap (k a)) -> leaves_heap (bind m k).
Proof.
  intros Hm Hk h. unfold bind. specialize (Hm h).
  destruct (m h) as [h' [a | e]]; cbn in Hm; subst h'.
  - apply Hk.
  - reflexivity.
Qed.

Lemma Conv2d_forward_leaves_heap c x : leaves_heap (Conv2d.forward c x).
Proof.
  intros h. unfold Conv2d.forward.
  destruct (split_nchw (shape x)) as [[[[n ch] hh] w]|]; [|reflexivity].
  destruct (negb _); [reflexivity|]. destruct (_ || _); reflexivity.
Qed.

Lemma ConvTranspose2d_forward_leaves_heap c x :
  leaves_heap (ConvTranspose2d.forward c x).
Proof.
  intros h. unfold ConvTranspose2d.forward.
  destruct (split_nchw (shape x)) as [[[[n ch] hh] w]|]; [|reflexivity].
  destruct (negb _); reflexivity.
Qed.

Lemma InstanceNorm2d_forward_leaves_heap m x :
  leaves_heap (InstanceNorm2d.forward m x).
Proof.
  intros h. unfold InstanceNorm2d.forward.
  destruct (split_nchw (shape x)) as [[[[n ch] hh] w]|]; [|reflexivity].
  destruct (_ =? _); reflexivity.
Qed.

Lemma MaxPool2d_forward_leaves_heap m x : leaves_heap (MaxPool2d.forward m x).
Proof.
  intros h. unfold MaxPool2d.forward.
  destruct (split_nchw (shape x)) as [[[[n ch] hh] w]|]; [|reflexivity].
  cbv zeta. destruct (_ || _); [reflexivity|]. destruct (_ || _); reflexivity.
Qed.

Lemma ReLU_forward_leaves_heap m x : leaves_heap (ReLU.forward m x).
Proof. intros h. reflexivity. Qed.

Lemma LeakyReLU_forward_leaves_heap m x : leaves_heap (LeakyReLU.forward m x).
Proof. intros h. reflexivity. Qed.

Lemma cat_leaves_heap ts dim : leaves_heap (cat ts dim).
Proof.
  intros h. unfold cat. destruct ts as [|t ts]; [reflexivity|].
  destruct (List.filter _ _) as [|first rest]; [reflexivity|].
  destruct (_ <=? _)%nat; [reflexivity|].
  destruct (check_cat_shapes _ _ _); reflexivity.
Qed.

Lemma BatchNorm2d_forward_eval_leaves_heap bn x :
  BatchNorm2d.training bn = false -> leaves_heap (BatchNorm2d.forward bn x).
Proof.
  intros Ht h. unfold BatchNorm2d.forward. rewrite Ht.
  destruct (negb (_ =? _)%nat); [reflexivity|].
  unfold bind, ret, raise. cbn [andb].
  destruct (negb (_ =? _)); reflexivity.
Qed.

Lemma conv_block_forward_leaves_heap b x : leaves_heap (conv_block.forward b x).
Proof.
  unfold conv_block.forward. destruct (conv_block.norm b);
    repeat first [ apply Conv2d_forward_leaves_heap
                 | apply InstanceNorm2d_forward_leaves_heap
                 | apply LeakyReLU_forward_leaves_heap
                 | apply leaves_heap_bind; [|intros ?] ].
Qed.

Lemma Critic_forward_leaves_heap c x : leaves_heap (Critic.forward c x).
Proof.
  unfold Critic.forward.
  repeat first [ apply conv_block_forward_leaves_heap
               | apply Conv2d_forward_leaves_heap
               | apply leaves_heap_ret
               | apply leaves_heap_bind; [|intros ?] ].
Qed.

Lemma layer_forward_eval_leaves_heap l x :
  leaves_heap (layer_forward (layer_train false l) x).
Proof.
  destruct l; cbn [layer_train layer_forward].
  - apply Conv2d_forward_leaves_heap.
  - apply ConvTranspose2d_forward_leaves_heap.
  - apply BatchNorm2d_forward_eval_leaves_heap. reflexivity.
  - apply InstanceNorm2d_forward_leaves_heap.
  - apply ReLU_forward_leaves_heap.
  - apply LeakyReLU_forward_leaves_heap.
  - apply MaxPool2d_forward_leaves_heap.
Qed.

Lemma Sequential_forward_eval_leaves_heap s x :
  leaves_heap (Sequential.forward (Sequential.train false s) x).
Proof.
  revert x. induction s as [|l s IH]; intros x; cbn.
  - apply leaves_heap_ret.
  - apply leaves_heap_bind; [apply layer_forward_eval_leaves_heap | apply IH].
Qed.

Lemma double_conv_block_forward_eval_leaves_heap d x :
  leaves_heap (double_conv_block.forward (double_conv_block.train false d) x).
Proof. apply Sequential_forward_eval_leaves_heap. Qed.

Lemma encoder_block_forward_eval_leaves_heap e x :
  leaves_heap (encoder_block.forward (encoder_block.train false e) x).
Proof.
  unfold encoder_block.forward. cbn [encoder_block.train encoder_block.conv
    encoder_block.maxpool].
  repeat first [ apply double_conv_block_forward_eval_leaves_heap
               | apply MaxPool2d_forward_leaves_heap
               | apply leaves_heap_ret
               | apply leaves_heap_bind; [|intros ?] ].
Qed.

Lemma decoder_block_forward_eval_leaves_heap d x skip :
  leaves_heap (decoder_block.forward (decoder_block.train false d) x skip).
Proof.
  unfold decoder_block.forward. cbn [decoder_block.train decoder_block.conv
    decoder_block.up].
  repeat first [ apply double_conv_block_forward_eval_leaves_heap
               | apply ConvTranspose2d_forward_leaves_heap
               | apply cat_leaves_heap
               | apply leaves_heap_ret
               | apply leaves_heap_bind; [|intros ?] ].
Qed.

Lemma Generator_forward_eval_leaves_heap g x :
  leaves_heap (Generator.forward (Generator.eval g) x).
Proof.
  unfold Generator.forward, Generator.eval.
  cbn [Generator.train Generator.e1 Generator.e2 Generator.e3 Generator.e4
       Generator.b Generator.d1 Generator.d2 Generator.d3 Generator.d4
       Generator.outputs].
  repeat first [ apply encoder_block_forward_eval_leaves_heap
               | apply decoder_block_forward_eval_leaves_heap
               | apply double_conv_block_forward_eval_leaves_heap
               | apply Conv2d_forward_leaves_heap
               | apply leaves_heap_ret
               | apply leaves_heap_bind; [|intros [? ?]; cbv beta iota]
               | apply leaves_heap_bind; [|intros ?] ].
Qed.

(** ** Computations that write to buffers only *)

Lemma leaves_heap_keeps_parameters {A} K (m : M A) :
  leaves_heap m -> keeps_parameters K m.
Proof. intros Hm h HK. rewrite Hm. auto. Qed.

Lemma keeps_parameters_bind {A B} K (m : M A) (k : A -> M B) :
  keeps_parameters K m -> (forall a, keeps_parameters K (k a)) ->
  keeps_parameters K (bind m k).
Proof.
  intros Hm Hk h HK. unfold bind. destruct (Hm h HK) as [HK' HP].
  destruct (m h) as [h' [a | e]]; cbn [fst] in *.
  - destruct (Hk a h' HK') as [HK'' HP']. split; congruence.
  - auto.
Qed.

Lemma kinds_alter_push_write w l (h : heap) :
  kinds (alter (push_write w) l h) = kinds h.
Proof.
  revert l. induction h as [|c h IH]; intros [|l]; cbn; try reflexivity.
  unfold kinds in IH. now rewrite IH.
Qed.

Lemma parameters_of_alter_buffer w l (h : heap) :
  kinds h !! l = Some nn_Buffer ->
  parameters_of (alter (push_write w) l h) = parameters_of h.
Proof.
  revert l. induction h as [|c h IH]; intros [|l]; cbn; try discriminate.
  - intros [= Hc]. unfold is_parameter, push_write. cbn. now rewrite Hc.
  - intros Hl. unfold parameters_of in IH. now rewrite IH.
Qed.

Lemma write_keeps_parameters K l w :
  K !! l = Some nn_Buffer -> keeps_parameters K (write_ l w).
Proof.
  intros Hl h HK. unfold write_. cbn [fst]. subst K. split.
  - apply kinds_alter_push_write.
  - now apply parameters_of_alter_buffer.
Qed.

Lemma BatchNorm2d_forward_keeps_parameters K bn x :
  buffers_in_place K bn -> keeps_parameters K (BatchNorm2d.forward bn x).
Proof.
  intros (Hm & Hv & Hn). unfold BatchNorm2d.forward.
  destruct (negb (_ =? _)%nat);
    [apply leaves_heap_keeps_parameters, leaves_heap_raise|].
  apply keeps_parameters_bind.
  { destruct (BatchNorm2d.training bn).
    - now apply write_keeps_parameters.
    - apply leaves_heap_keeps_parameters, leaves_heap_ret. }
  intros _.
  destruct (_ && _);
    [apply leaves_heap_keeps_parameters, leaves_heap_raise|].
  destruct (negb (_ =? _));
    [apply leaves_heap_keeps_parameters, leaves_heap_raise|].
  apply keeps_parameters_bind.
  { destruct (BatchNorm2d.training bn).
    - apply keeps_parameters_bind; [|intros _];
        now apply write_keeps_parameters.
    - apply leaves_heap_keeps_parameters, leaves_heap_ret. }
  intros _. apply leaves_heap_keeps_parameters, leaves_heap_ret.
Qed.

Lemma layer_forward_keeps_parameters K l x :
  layer_buffers_in_place K l -> keeps_parameters K (layer_forward l x).
Proof.
  destruct l; cbn [layer_buffers_in_place layer_forward]; intros Hl.
  - apply leaves_heap_keeps_parameters, Conv2d_forward_leaves_heap.
  - apply leaves_heap_keeps_parameters, ConvTranspose2d_forward_leaves_heap.
  - now apply BatchNorm2d_forward_keeps_parameters.
  - apply leaves_heap_keeps_parameters, InstanceNorm2d_forward_leaves_heap.
  - apply leaves_heap_keeps_parameters, ReLU_forward_leaves_heap.
  - apply leaves_heap_keeps_parameters, LeakyReLU_forward_leaves_heap.
  - apply leaves_heap_keeps_parameters, MaxPool2d_forward_leaves_heap.
Qed.

Lemma Sequential_forward_keeps_parameters K s x :
  Forall (layer_buffers_in_place K) s ->
  keeps_parameters K (Sequential.forward s x).
Proof.
  intros Hs. revert x. induction Hs as [|l s Hl Hs IH]; intros x; cbn.
  - apply leaves_heap_keeps_parameters, leaves_heap_ret.
  - apply keeps_parameters_bind;
      [now apply layer_forward_keeps_parameters | apply IH].
Qed.

Lemma laid_out_app K l a b :
  laid_out K l (a ++ b) ->
  laid_out K l a /\ laid_out K (length a + l)%nat b.
Proof.
  unfold laid_out, kinds. intros H. split; intros k c Hk.
  - apply H. rewrite map_app. apply lookup_app_l_Some. exact Hk.
  - replace (k + (length a + l))%nat with ((length a + k) + l)%nat by lia.
    apply H. rewrite map_app.
    rewrite lookup_app_r by (rewrite length_map; lia).
    rewrite length_map.
    replace (length a + k - length a)%nat with k by lia. exact Hk.
Qed.

Lemma double_conv_block_buffers_in_place K ic oc mode l :
  laid_out K l (double_conv_block_cells ic oc) ->
  Forall (layer_buffers_in_place K)
    (double_conv_block.sequence (double_conv_block_at ic oc mode l)).
Proof.
  intros H. unfold double_conv_block_at. cbn [double_conv_block.sequence].
  repeat constructor; cbn [BatchNorm2d_at BatchNorm2d.running_mean
    BatchNorm2d.running_var BatchNorm2d.num_batches_tracked].
  - apply (H 3%nat). reflexivity.
  - apply (H 4%nat). reflexivity.
  - apply (H 5%nat). reflexivity.
  - apply (H 9%nat). reflexivity.
  - apply (H 10%nat). reflexivity.
  - apply (H 11%nat). reflexivity.
Qed.

Lemma double_conv_block_forward_keeps_parameters K ic oc mode l x :
  laid_out K l (double_conv_block_cells ic oc) ->
  keeps_parameters K
    (double_conv_block.forward (double_conv_block_at ic oc mode l) x).
Proof.
  intros H. apply Sequential_forward_keeps_parameters.
  now apply double_conv_block_buffers_in_place.
Qed.

Lemma encoder_block_forward_keeps_parameters K ic oc mode l x :
  laid_out K l (double_conv_block_cells ic oc) ->
  keeps_parameters K (encoder_block.forward (encoder_block_at ic oc mode l) x).
Proof.
  intros H. unfold encoder_block.forward, encoder_block_at.
  cbn [encoder_block.conv encoder_block.maxpool].
  apply keeps_parameters_bind;
    [now apply double_conv_block_forward_keeps_parameters | intros out].
  apply keeps_parameters_bind; [|intros p].
  - apply leaves_heap_keeps_parameters, MaxPool2d_forward_leaves_heap.
  - apply leaves_heap_keeps_parameters, leaves_heap_ret.
Qed.

Lemma decoder_block_forward_keeps_parameters K ic oc mode l x skip :
  laid_out K l (decoder_block_cells ic oc) ->
  keeps_parameters K
    (decoder_block.forward (decoder_block_at ic oc mode l) x skip).
Proof.
  intros H. apply laid_out_app in H as [_ H].
  unfold decoder_block.forward, decoder_block_at.
  cbn [decoder_block.conv decoder_block.up].
  apply keeps_parameters_bind; [|intros out].
  { apply leaves_heap_keeps_parameters, ConvTranspose2d_forward_leaves_heap. }
  apply keeps_parameters_bind; [|intros out'].
  { apply leaves_heap_keeps_parameters, cat_leaves_heap. }
  apply keeps_parameters_bind; [|intros out''].
  { apply double_conv_block_forward_keeps_parameters. exact H. }
  apply leaves_heap_keeps_parameters, leaves_heap_ret.
Qed.

Lemma Generator_forward_keeps_parameters K mode l x :
  laid_out K l Generator_cells ->
  keeps_parameters K (Generator.forward (Generator_at mode l) x).
Proof.
  intros H. unfold Generator_cells in H.
  apply laid_out_app in H as [He1 H].
  apply laid_out_app in H as [He2 H].
  apply laid_out_app in H as [He3 H].
  apply laid_out_app in H as [He4 H].
  apply laid_out_app in H as [Hb H].
  apply laid_out_app in H as [Hd1 H].
  apply laid_out_app in H as [Hd2 H].
  apply laid_out_app in H as [Hd3 H].
  apply laid_out_app in H as [Hd4 _].
  unfold Generator.forward, Generator_at.
  cbn [Generator.e1 Generator.e2 Generator.e3 Generator.e4 Generator.b
       Generator.d1 Generator.d2 Generator.d3 Generator.d4 Generator.outputs].
  apply keeps_parameters_bind;
    [apply encoder_block_forward_keeps_parameters; exact He1
    |intros [s1 p1]; cbv beta iota].
  apply keeps_parameters_bind;
    [apply encoder_block_forward_keeps_parameters; exact He2
    |intros [s2 p2]; cbv beta iota].
  apply keeps_parameters_bind;
    [apply encoder_block_forward_keeps_parameters; exact He3
    |intros [s3 p3]; cbv beta iota].
  apply keeps_parameters_bind;
    [apply encoder_block_forward_keeps_parameters; exact He4
    |intros [s4 p4]; cbv beta iota].
  apply keeps_parameters_bind;
    [apply double_conv_block_forward_keeps_parameters; exact Hb | intros b].
  apply keeps_parameters_bind;
    [apply decoder_block_forward_keeps_parameters; exact Hd1 | intros d1].
  apply keeps_parameters_bind;
    [apply decoder_block_forward_keeps_parameters; exact Hd2 | intros d2].
  apply keeps_parameters_bind;
    [apply decoder_block_forward_keeps_parameters; exact Hd3 | intros d3].
  apply keeps_parameters_bind;
    [apply decoder_block_forward_keeps_parameters; exact Hd4 | intros d4].
  apply keeps_parameters_bind; [|intros out].
  - apply leaves_heap_keeps_parameters, Conv2d_forward_leaves_heap.
  - apply leaves_heap_keeps_parameters, leaves_heap_ret.
Qed.

(** A heap that extends the one left by a constructor, cell kinds unchanged,
    still has the constructed cells in place. *)
Lemma prefix_laid_out (h0 h : heap) cells :
  kinds (h0 ++ cells) `prefix_of` kinds h ->
  laid_out (kinds h) (length h0) cells.
Proof.
  intros [more E] k c Hk. rewrite E. unfold kinds in *.
  rewrite map_app, <- app_assoc.
  rewrite lookup_app_r by (rewrite length_map; lia).
  rewrite length_map.
  replace (k + length h0 - length h0)%nat with k by lia.
  now apply lookup_app_l_Some.
Qed.

(** ** Batch counters *)

Lemma int_of_writes_add ws acc :
  int_of_writes (ws ++ [add_ 1]) acc = Z.succ (int_of_writes ws acc).
Proof.
  revert acc. induction ws as [|w ws IH]; intros acc; [cbn; lia|].
  destruct w; cbn; apply IH.
Qed.

Lemma int_of_writes_momentum ws v acc :
  int_of_writes (ws ++ [momentum_update_ v]) acc = int_of_writes ws acc.
Proof.
  revert acc. induction ws as [|w ws IH]; intros acc; [reflexivity|].
  destruct w; cbn; apply IH.
Qed.

Lemma int_values_alter_add l (h : heap) :
  int_values (alter (push_write (add_ 1)) l h) = alter Z.succ l (int_values h).
Proof.
  revert l. induction h as [|c h IH]; intros [|l]; cbn; try reflexivity.
  - unfold int_value, push_write. cbn. now rewrite int_of_writes_add.
  - unfold int_values in IH. now rewrite IH.
Qed.

Lemma int_values_alter_momentum v l (h : heap) :
  int_values (alter (push_write (momentum_update_ v)) l h) = int_values h.
Proof.
  revert l. induction h as [|c h IH]; intros [|l]; cbn; try reflexivity.
  - unfold int_value, push_write. cbn. now rewrite int_of_writes_momentum.
  - unfold int_values in IH. now rewrite IH.
Qed.

Lemma bump_app L1 L2 xs : bump (L1 ++ L2) xs = bump L2 (bump L1 xs).
Proof. apply fold_left_app. Qed.

Lemma lookup_bump_other L xs l : l ∉ L -> bump L xs !! l = xs !! l.
Proof.
  revert xs. induction L as [|a L IH]; intros xs Hl; [reflexivity|].
  cbn. rewrite not_elem_of_cons in Hl. destruct Hl as [Hne Hl].
  change (bump L (alter Z.succ a xs) !! l = xs !! l).
  rewrite IH by exact Hl. now apply list_lookup_alter_ne.
Qed.

Lemma lookup_bump L xs l :
  NoDup L -> l ∈ L -> bump L xs !! l = Z.succ <$> xs !! l.
Proof.
  revert xs. induction L as [|a L IH]; intros xs Hnd Hl.
  - now apply elem_of_nil in Hl.
  - apply NoDup_cons in Hnd as [Ha Hnd].
    change (bump L (alter Z.succ a xs) !! l = Z.succ <$> xs !! l).
    apply elem_of_cons in Hl as [-> | Hl].
    + rewrite lookup_bump_other by exact Ha. apply list_lookup_alter_eq.
    + rewrite IH by assumption.
      rewrite list_lookup_alter_ne; [reflexivity|].
      intros ->. contradiction.
Qed.

Lemma leaves_heap_returns_bump {A} (m : M A) :
  leaves_heap m -> returns_bump [] m.
Proof.
  intros Hm h h' a E. specialize (Hm h). rewrite E in Hm. cbn in Hm.
  now subst h'.
Qed.

Lemma returns_bump_bind {A B} L1 L2 (m : M A) (k : A -> M B) :
  returns_bump L1 m -> (forall a, returns_bump L2 (k a)) ->
  returns_bump (L1 ++ L2) (bind m k).
Proof.
  intros Hm Hk h h' b E. apply bind_inv in E as (a & h'' & Em & Ek).
  rewrite bump_app, <- (Hm _ _ _ Em). exact (Hk _ _ _ _ Ek).
Qed.

Lemma BatchNorm2d_forward_returns_bump bn x :
  returns_bump (layer_counters (L_BatchNorm2d bn)) (BatchNorm2d.forward bn x).
Proof.
  intros h h' y. unfold BatchNorm2d.forward, layer_counters.
  destruct (negb (_ =? _)%nat); [discriminate|].
  unfold bind, write_, ret, raise.
  destruct (BatchNorm2d.training bn); cbn [andb].
  - destruct (_ =? 1); [discriminate|].
    destruct (negb (_ =? _)); [discriminate|].
    intros [= <- _]. cbn [bump fold_left].
    now rewrite !int_values_alter_momentum, int_values_alter_add.
  - destruct (negb (_ =? _)); [discriminate|].
    intros [= <- _]. reflexivity.
Qed.

Lemma layer_forward_returns_bump l x :
  returns_bump (layer_counters l) (layer_forward l x).
Proof.
  destruct l; cbn [layer_forward];
    try (apply leaves_heap_returns_bump;
         first [ apply Conv2d_forward_leaves_heap
               | apply ConvTranspose2d_forward_leaves_heap
               | apply InstanceNorm2d_forward_leaves_heap
               | apply ReLU_forward_leaves_heap
               | apply LeakyReLU_forward_leaves_heap
               | apply MaxPool2d_forward_leaves_heap ]).
  apply BatchNorm2d_forward_returns_bump.
Qed.

Lemma Sequential_forward_returns_bump s x :
  returns_bump (concat (map layer_counters s)) (Sequential.forward s x).
Proof.
  revert x. induction s as [|l s IH]; intros x; cbn [Sequential.forward map concat].
  - apply leaves_heap_returns_bump, leaves_heap_ret.
  - apply returns_bump_bind; [apply layer_forward_returns_bump | apply IH].
Qed.

(** The batch counters of a block in training mode. *)
Lemma double_conv_block_counters ic oc l :
  concat (map layer_counters
            (double_conv_block.sequence (double_conv_block_at ic oc true l)))
  = map BatchNorm2d.num_batches_tracked
      (double_conv_block_norms (double_conv_block_at ic oc true l)).
Proof. reflexivity. Qed.

Lemma double_conv_block_forward_returns_bump ic oc l x :
  returns_bump
    (map BatchNorm2d.num_batches_tracked
       (double_conv_block_norms (double_conv_block_at ic oc true l)))
    (double_conv_block.forward (double_conv_block_at ic oc true l) x).
Proof.
  rewrite <- double_conv_block_counters.
  apply Sequential_forward_returns_bump.
Qed.

Lemma encoder_block_forward_returns_bump ic oc l x :
  returns_bump
    (map BatchNorm2d.num_batches_tracked
       (double_conv_block_norms (double_conv_block_at ic oc true l)))
    (encoder_block.forward (encoder_block_at ic oc true l) x).
Proof.
  unfold encoder_block.forward, encoder_block_at.
  cbn [encoder_block.conv encoder_block.maxpool].
  rewrite <- (app_nil_r (map _ _)).
  apply returns_bump_bind;
    [apply double_conv_block_forward_returns_bump | intros out].
  change (@nil nat) with (@nil nat ++ @nil nat).
  apply returns_bump_bind; [|intros p].
  - apply leaves_heap_returns_bump, MaxPool2d_forward_leaves_heap.
  - apply leaves_heap_returns_bump, leaves_heap_ret.
Qed.

Lemma decoder_block_forward_returns_bump ic oc l x skip :
  returns_bump
    (map BatchNorm2d.num_batches_tracked
       (double_conv_block_norms
          (double_conv_block_at (2 * oc) oc true (2 + l)%nat)))
    (decoder_block.forward (decoder_block_at ic oc true l) x skip).
Proof.
  unfold decoder_block.forward, decoder_block_at.
  cbn [decoder_block.conv decoder_block.up].
  change (map BatchNorm2d.num_batches_tracked
            (double_conv_block_norms
               (double_conv_block_at (2 * oc) oc true (2 + l)%nat)))
    with ([] ++ [] ++
          map BatchNorm2d.num_batches_tracked
            (double_conv_block_norms
               (double_conv_block_at (2 * oc) oc true (2 + l)%nat))).
  apply returns_bump_bind; [|intros out].
  { apply leaves_heap_returns_bump, ConvTranspose2d_forward_leaves_heap. }
  apply returns_bump_bind; [|intros out'].
  { apply leaves_heap_returns_bump, cat_leaves_heap. }
  rewrite <- (app_nil_r (map _ _)).
  apply returns_bump_bind; [|intros out''].
  { apply double_conv_block_forward_returns_bump. }
  apply leaves_heap_returns_bump, leaves_heap_ret.
Qed.

Lemma Generator_forward_returns_bump l x :
  returns_bump
    (map BatchNorm2d.num_batches_tracked (Generator_norms (Generator_at true l)))
    (Generator.forward (Generator_at true l) x).
Proof.
  unfold Generator_norms, Generator_double_conv_blocks.
  cbn [map concat]. rewrite !map_app. rewrite app_nil_r.
  unfold Generator.forward, Generator_at.
  cbn [Generator.e1 Generator.e2 Generator.e3 Generator.e4 Generator.b
       Generator.d1 Generator.d2 Generator.d3 Generator.d4 Generator.outputs
       encoder_block_at encoder_block.conv decoder_block_at
       decoder_block.conv].
  apply returns_bump_bind;
    [apply (encoder_block_forward_returns_bump 1 64 l)
    |intros [s1 p1]; cbv beta iota].
  apply returns_bump_bind;
    [apply (encoder_block_forward_returns_bump 64 128 (12 + l))
    |intros [s2 p2]; cbv beta iota].
  apply returns_bump_bind;
    [apply (encoder_block_forward_returns_bump 128 256 (24 + l))
    |intros [s3 p3]; cbv beta iota].
  apply returns_bump_bind;
    [apply (encoder_block_forward_returns_bump 256 512 (36 + l))
    |intros [s4 p4]; cbv beta iota].
  apply returns_bump_bind;
    [apply (double_conv_block_forward_returns_bump 512 1024 (48 + l))
    |intros b].
  apply returns_bump_bind;
    [apply (decoder_block_forward_returns_bump 1024 512 (60 + l)) | intros d1].
  apply returns_bump_bind;
    [apply (decoder_block_forward_returns_bump 512 256 (74 + l)) | intros d2].
  apply returns_bump_bind;
    [apply (decoder_block_forward_returns_bump 256 128 (88 + l)) | intros d3].
  rewrite <- (app_nil_r (map _ _)).
  apply returns_bump_bind;
    [apply (decoder_block_forward_returns_bump 128 64 (102 + l)) | intros d4].
  change (@nil nat) with (@nil nat ++ @nil nat).
  apply returns_bump_bind; [|intros out].
  - apply leaves_heap_returns_bump, Conv2d_forward_leaves_heap.
  - apply leaves_heap_returns_bump, leaves_heap_ret.
Qed.

Lemma Generator_counters_NoDup mode l :
  NoDup (map BatchNorm2d.num_batches_tracked
           (Generator_norms (Generator_at mode l))).
Proof.
  cbv [Generator_norms Generator_double_conv_blocks Generator_at
       double_conv_block_norms double_conv_block_at encoder_block_at
       decoder_block_at encoder_block.conv decoder_block.conv
       Generator.e1 Generator.e2 Generator.e3 Generator.e4 Generator.b
       Generator.d1 Generator.d2 Generator.d3 Generator.d4
       double_conv_block.sequence omap list_omap as_L_BatchNorm2d
       map concat app BatchNorm2d_at BatchNorm2d.num_batches_tracked].
  repeat (apply NoDup_cons_2;
          [rewrite ?not_elem_of_cons; repeat split;
             first [lia | apply not_elem_of_nil]|]).
  apply NoDup_nil_2.
Qed.

Lemma Generator_train_at mode m l :
  Generator.train mode (Generator_at m l) = Generator_at mode l.
Proof. reflexivity. Qed.

Lemma double_conv_block_train_at ic oc mode m l :
  double_conv_block.train mode (double_conv_block_at ic oc m l)
  = double_conv_block_at ic oc mode l.
Proof. reflexivity. Qed.

Lemma decoder_block_train_at ic oc mode m l :
  decoder_block.train mode (decoder_block_at ic oc m l)
  = decoder_block_at ic oc mode l.
Proof. reflexivity. Qed.

(** * The generator *)

(** A freshly constructed generator is in training mode, and the batch
    normalization of its bottleneck refuses a single sample of 16 by 16
    pixels: after four halvings it holds one value per channel. *)
Lemma Generator_forward_raises_on_single_16x16_sample :
  snd (fresh_Generator_call [1; 1; 16; 16])
  = Raised (ValueError "Expected more than 1 value per channel when training").
Proof. vm_compute. reflexivity. Qed.

(** An empty image has sizes divisible by 16 too; the first convolution
    refuses it. *)
Lemma Generator_forward_raises_on_empty_image :
  snd (fresh_Generator_call [1; 1; 0; 0])
  = Raised (RuntimeError "Kernel size can't be greater than actual input size").
Proof. vm_compute. reflexivity. Qed.

(** C1, amended.  For a generator built by the constructor and put in either
    mode, every batch size [N >= 1] and all [H, W >= 16] divisible by 16,
    [forward] on an input of shape [(N, 1, H, W)] returns a tensor of shape
    [(N, 2, H, W)], provided that in training mode the bottleneck sees more
    than one value per channel, that is [N * (H/16) * (W/16) <> 1]. *)
Theorem Generator_forward_shape h0 h1 g mode N H W v hp :
  Generator.init h0 = (h1, Returned g) ->
  1 <= N -> 16 <= H -> 16 <= W -> H mod 16 = 0 -> W mod 16 = 0 ->
  (mode = true -> N * (H / 16) * (W / 16) <> 1) ->
  exists hp' out,
    Generator.forward (Generator.train mode g) (mkTensor [N; 1; H; W] v) hp
    = (hp', Returned out)
    /\ shape out = [N; 2; H; W].
Proof.
  intros Hinit HN HH HW HHm HWm Hmode.
  apply Generator_init_inv in Hinit as [-> ->].
  rewrite Generator_train_at.
  assert (EH : H = 2 * (2 * (2 * (2 * (H / 16)))))
    by (rewrite (Z.div_mod H 16) at 1 by lia; lia).
  assert (EW : W = 2 * (2 * (2 * (2 * (W / 16)))))
    by (rewrite (Z.div_mod W 16) at 1 by lia; lia).
  assert (Ha : 1 <= H / 16) by (apply Z.div_le_lower_bound; lia).
  assert (Hb : 1 <= W / 16) by (apply Z.div_le_lower_bound; lia).
  destruct (Generator_forward_at mode (length h0) N (H / 16) (W / 16) v hp)
    as (hp' & e & E); try assumption.
  { intros Hm. rewrite Z.mul_assoc. auto. }
  rewrite <- EH, <- EW in E.
  exists hp', (mkTensor [N; 2; H; W] e). auto.
Qed.

Lemma Generator_forward_shape_witness :
  exists hp' out,
    Generator.forward (Generator.train true (Generator_at true 0))
      (mkTensor [1; 1; 32; 16] (Input "x")) Generator_cells
    = (hp', Returned out)
    /\ shape out = [1; 2; 32; 16].
Proof.
  apply (Generator_forward_shape [] Generator_cells (Generator_at true 0) true
           1 32 16 (Input "x") Generator_cells).
  - reflexivity.
  - lia.
  - lia.
  - lia.
  - reflexivity.
  - reflexivity.
  - intros _. vm_compute. discriminate.
Defined.

(** In evaluation mode the single 16 by 16 sample is accepted. *)
Lemma Generator_forward_eval_single_16x16_sample :
  exists hp' out,
    Generator.forward (Generator.eval (Generator_at true 0))
      (mkTensor [1; 1; 16; 16] (Input "x")) Generator_cells
    = (hp', Returned out)
    /\ shape out = [1; 2; 16; 16].
Proof.
  apply (Generator_forward_shape [] Generator_cells (Generator_at true 0) false
           1 16 16 (Input "x") Generator_cells);
    try reflexivity; try lia; discriminate.
Qed.

(** * The critic *)

(** Five halvings take 64 to 2, which the final 4 by 4 convolution
    refuses. *)
Lemma Critic_forward_raises_on_64x64 :
  snd (fresh_Critic_call [1; 3; 64; 64])
  = Raised (RuntimeError "Kernel size can't be greater than actual input size").
Proof. vm_compute. reflexivity. Qed.

(** So does every size below 128. *)
Lemma Critic_forward_raises_on_127x127 :
  snd (fresh_Critic_call [1; 3; 127; 127])
  = Raised (RuntimeError "Kernel size can't be greater than actual input size").
Proof. vm_compute. reflexivity. Qed.

(** C2, amended.  For a critic built by the constructor, every batch size
    [N >= 1] and all [H, W >= 128], [forward] on an input of shape
    [(N, 3, H, W)] returns, without touching the heap, a 4-dimensional
    tensor whose channel dimension is 1; its shape is
    [(N, 1, H/32 - 3, W/32 - 3)]. *)
Theorem Critic_forward_shape h0 h1 c N H W v hp :
  Critic.init h0 = (h1, Returned c) ->
  1 <= N -> 128 <= H -> 128 <= W ->
  exists out,
    Critic.forward c (mkTensor [N; 3; H; W] v) hp = (hp, Returned out)
    /\ length (shape out) = 4%nat
    /\ nth 1 (shape out) 0 = 1
    /\ shape out = [N; 1; H / 32 - 3; W / 32 - 3].
Proof.
  intros Hinit HN HH HW.
  rewrite Critic_init_returns in Hinit. injection Hinit as <- <-.
  destruct (Critic_forward_at (length h0) N H W v hp HH HW) as [e E].
  eexists. split; [exact E|]. cbn. auto.
Qed.

Lemma Critic_forward_shape_witness :
  exists out,
    Critic.forward (Critic_at 0) (mkTensor [2; 3; 128; 200] (Input "x"))
      Critic_cells
    = (Critic_cells, Returned out)
    /\ length (shape out) = 4%nat
    /\ nth 1 (shape out) 0 = 1
    /\ shape out = [2; 1; 128 / 32 - 3; 200 / 32 - 3].
Proof.
  apply (Critic_forward_shape [] Critic_cells (Critic_at 0) 2 128 200
           (Input "x") Critic_cells).
  - reflexivity.
  - lia.
  - lia.
  - lia.
Defined.

(** On a 256 by 256 image the critic does not return a 30 by 30 grid. *)
Lemma Critic_forward_256_not_30x30 :
  returned_shape (snd (fresh_Critic_call [1; 3; 256; 256]))
  <> Some [1; 1; 30; 30].
Proof. vm_compute. discriminate. Qed.

(** C3, amended.  A critic built by the constructor maps an input of shape
    [(1, 3, 256, 256)] to an output of shape [(1, 1, 5, 5)]: five halvings
    take 256 to 8, and the unpadded 4 by 4 convolution takes 8 to 5. *)
Theorem Critic_forward_256_shape h0 h1 c v hp :
  Critic.init h0 = (h1, Returned c) ->
  exists out,
    Critic.forward c (mkTensor [1; 3; 256; 256] v) hp = (hp, Returned out)
    /\ shape out = [1; 1; 5; 5].
Proof.
  intros Hinit.
  rewrite Critic_init_returns in Hinit. injection Hinit as <- <-.
  destruct (Critic_forward_at (length h0) 1 256 256 v hp) as [e E]; try lia.
  eexists. split; [exact E|]. reflexivity.
Qed.

Lemma Critic_forward_256_shape_witness :
  exists out,
    Critic.forward (Critic_at 0) (mkTensor [1; 3; 256; 256] (Input "x"))
      Critic_cells
    = (Critic_cells, Returned out)
    /\ shape out = [1; 1; 5; 5].
Proof.
  apply (Critic_forward_256_shape [] Critic_cells (Critic_at 0) (Input "x")
           Critic_cells).
  reflexivity.
Defined.

(** C4.  The constructor of the critic returns, in any heap.  Its
    initialization loop runs on the critic whose submodules have all been
    built and whose six convolution weights are allocated; the traversal
    reaches the convolution nested in each of the five blocks and the final
    convolution; their weights are six distinct tensors; and when the
    constructor is done each of them is a parameter that has received exactly
    one [normal_] write, with mean 0 and standard deviation 0.02, as its last
    write.  The tensors that were in the heap before are untouched. *)
Theorem Critic_init_normal_weights (h0 : heap) :
  exists hs h1 c,
    Critic.init_submodules h0 = (hs, Returned c)
    /\ Critic.init_loop (Critic.modules c) hs = (h1, Returned tt)
    /\ Critic.init h0 = (h1, Returned c)
    /\ omap Critic.as_Conv2d (Critic.modules c)
       = [conv_block.conv (Critic.block1 c); conv_block.conv (Critic.block2 c);
          conv_block.conv (Critic.block3 c); conv_block.conv (Critic.block4 c);
          conv_block.conv (Critic.block5 c); Critic.output c]
    /\ NoDup (map Conv2d.weight (omap Critic.as_Conv2d (Critic.modules c)))
    /\ Forall
         (fun cv =>
            is_Some (hs !! Conv2d.weight cv)
            /\ exists cl,
                h1 !! Conv2d.weight cv = Some cl
                /\ c_kind cl = nn_Parameter
                /\ normal_writes cl = [(0%Q, 0.02%Q)]
                /\ last (c_writes cl) = Some (normal_ 0%Q 0.02%Q))
         (omap Critic.as_Conv2d (Critic.modules c))
    /\ (forall l cl, h0 !! l = Some cl -> h1 !! l = Some cl).
Proof.
  eexists _, _, (Critic_at (length h0)).
  split; [apply Critic_init_submodules_returns|].
  assert (Eloop :
    Critic.init_loop (Critic.modules (Critic_at (length h0)))
      (h0 ++ [mkCell nn_Parameter [32; 3; 4; 4] [kaiming_uniform_];
              mkCell nn_Parameter [64; 32; 4; 4] [kaiming_uniform_];
              mkCell nn_Parameter [128; 64; 4; 4] [kaiming_uniform_];
              mkCell nn_Parameter [256; 128; 4; 4] [kaiming_uniform_];
              mkCell nn_Parameter [512; 256; 4; 4] [kaiming_uniform_];
              mkCell nn_Parameter [1; 512; 4; 4] [kaiming_uniform_]])
    = (h0 ++ Critic_cells, Returned tt)).
  { pose proof (Critic_init_returns h0) as E. unfold Critic.init in E.
    erewrite bind_Returned in E by apply Critic_init_submodules_returns.
    unfold bind in E.
    destruct (Critic.init_loop _ _) as [h' [[] | e]]; [|discriminate].
    unfold ret in E. now injection E as ->. }
  split; [exact Eloop|].
  split; [apply Critic_init_returns|].
  split; [reflexivity|].
  split.
  { cbn. repeat constructor; rewrite ?list_elem_of_In; cbn; lia. }
  split.
  { assert (Hk : forall k cv,
              Conv2d.weight cv = (k + length h0)%nat -> (k < 6)%nat ->
              is_Some
                ((h0 ++ [mkCell nn_Parameter [32; 3; 4; 4] [kaiming_uniform_];
                         mkCell nn_Parameter [64; 32; 4; 4] [kaiming_uniform_];
                         mkCell nn_Parameter [128; 64; 4; 4] [kaiming_uniform_];
                         mkCell nn_Parameter [256; 128; 4; 4] [kaiming_uniform_];
                         mkCell nn_Parameter [512; 256; 4; 4] [kaiming_uniform_];
                         mkCell nn_Parameter [1; 512; 4; 4] [kaiming_uniform_]])
                   !! Conv2d.weight cv)
              /\ exists cl,
                  (h0 ++ Critic_cells) !! Conv2d.weight cv = Some cl
                  /\ c_kind cl = nn_Parameter
                  /\ normal_writes cl = [(0%Q, 0.02%Q)]
                  /\ last (c_writes cl) = Some (normal_ 0%Q 0.02%Q)).
    { intros k cv -> Hk. rewrite !lookup_appended.
      do 6 (destruct k as [|k]; [cbn; eauto 10|]). lia. }
    cbn [Critic.modules Critic.conv_block_modules Critic_at conv_block_at
         Critic.block1 Critic.block2 Critic.block3 Critic.block4
         Critic.block5 Critic.output conv_block.conv app omap list_omap
         Critic.as_Conv2d].
    repeat constructor;
      first [ solve [apply (Hk 0%nat); [reflexivity | lia]]
            | solve [apply (Hk 1%nat); [reflexivity | lia]]
            | solve [apply (Hk 2%nat); [reflexivity | lia]]
            | solve [apply (Hk 3%nat); [reflexivity | lia]]
            | solve [apply (Hk 4%nat); [reflexivity | lia]]
            | solve [apply (Hk 5%nat); [reflexivity | lia]] ]. }
  intros l cl Hl. now apply lookup_app_l_Some.
Qed.

(** * Effects of a forward call *)

(** A forward call of a freshly constructed generator, which is in training
    mode, changes stored state: the batch counter of its first batch
    normalization goes from 0 to 1. *)
Lemma Generator_forward_training_counts_batches :
  exists h1 g h2 out bn,
    Generator.init [] = (h1, Returned g)
    /\ Generator.forward g (mkTensor [2; 1; 16; 16] (Input "x")) h1
       = (h2, Returned out)
    /\ double_conv_block_norms (encoder_block.conv (Generator.e1 g)) !! 0%nat
       = Some bn
    /\ batches_tracked bn h1 = Some 0
    /\ batches_tracked bn h2 = Some 1
    /\ h2 <> h1.
Proof.
  do 5 eexists.
  split; [apply Generator_init_returns|].
  split; [vm_compute; reflexivity|].
  split; [reflexivity|].
  split; [reflexivity|].
  split; [reflexivity|].
  vm_compute. discriminate.
Qed.

(** C5, amended.  A forward call of the critic, and a forward call of the
    generator in evaluation mode, write to no stored tensor, whatever the
    input and whether the call returns or raises.  A forward call of a
    constructed generator in either mode changes no learned parameter, in
    every heap that extends the one left by the constructor with the kinds
    of its cells unchanged: what training mode writes are buffers.  And it
    does write them: every forward call in training mode that returns has
    incremented the batch counter of each of the eighteen batch
    normalizations of the generator by one. *)
Theorem forward_effects :
  (forall c x h, fst (Critic.forward c x h) = h)
  /\ (forall g x h, fst (Generator.forward (Generator.eval g) x h) = h)
  /\ (forall h0 h1 g mode x h,
        Generator.init h0 = (h1, Returned g) ->
        kinds h1 `prefix_of` kinds h ->
        kinds (fst (Generator.forward (Generator.train mode g) x h)) = kinds h
        /\ parameters_of (fst (Generator.forward (Generator.train mode g) x h))
           = parameters_of h)
  /\ (forall h0 h1 g x h h' out,
        Generator.init h0 = (h1, Returned g) ->
        Generator.forward (Generator.train true g) x h = (h', Returned out) ->
        length (Generator_norms g) = 18%nat
        /\ Forall
             (fun bn =>
                batches_tracked bn h' = Z.succ <$> batches_tracked bn h)
             (Generator_norms g)).
Proof.
  split; [exact Critic_forward_leaves_heap|].
  split; [exact Generator_forward_eval_leaves_heap|].
  split.
  - intros h0 h1 g mode x h Hinit Hpre.
    apply Generator_init_inv in Hinit as [-> ->].
    rewrite Generator_train_at.
    apply Generator_forward_keeps_parameters; [|reflexivity].
    now apply prefix_laid_out.
  - intros h0 h1 g x h h' out Hinit Hf.
    apply Generator_init_inv in Hinit as [-> ->].
    rewrite Generator_train_at in Hf.
    split; [reflexivity|].
    apply Generator_forward_returns_bump in Hf.
    apply Forall_forall. intros bn Hbn.
    unfold batches_tracked.
    rewrite <- (list_lookup_fmap int_value h'), <- (list_lookup_fmap int_value h).
    change (int_value <$> h') with (int_values h').
    change (int_value <$> h) with (int_values h).
    rewrite Hf. apply lookup_bump.
    + apply Generator_counters_NoDup.
    + now apply list_elem_of_fmap_2.
Qed.

Lemma forward_effects_witness :
  kinds (fst (Generator.forward (Generator.train true (Generator_at true 0))
                (mkTensor [2; 1; 16; 16] (Input "x")) Generator_cells))
  = kinds Generator_cells
  /\ parameters_of
       (fst (Generator.forward (Generator.train true (Generator_at true 0))
               (mkTensor [2; 1; 16; 16] (Input "x")) Generator_cells))
     = parameters_of Generator_cells.
Proof.
  apply (proj1 (proj2 (proj2 forward_effects)) [] Generator_cells
           (Generator_at true 0) true (mkTensor [2; 1; 16; 16] (Input "x"))
           Generator_cells).
  - reflexivity.
  - exists []. vm_compute. reflexivity.
Defined.

(** * The blocks of the generator *)

Lemma Conv2d_3x3_forward_raises ic oc b l n ch h w v hp :
  ch = ic -> h < 1 \/ w < 1 ->
  Conv2d.forward (Conv2d_at ic oc 3 1 1 b l) (mkTensor [n; ch; h; w] v) hp =
  (hp, Raised
         (RuntimeError "Kernel size can't be greater than actual input size")).
Proof.
  intros -> Hhw. unfold Conv2d.forward, Conv2d_at.
  cbn [shape split_nchw value Conv2d.in_channels Conv2d.kernel_size
       Conv2d.padding fst snd].
  rewrite Z.eqb_refl. cbn [negb].
  replace ((h + 2 * 1 <? 3) || (w + 2 * 1 <? 3)) with true; [reflexivity|].
  symmetry. apply orb_true_iff.
  destruct Hhw; [left | right]; apply Z.ltb_lt; lia.
Qed.

Lemma BatchNorm2d_forward_single_value (bn : BatchNorm2d.t) n c h w v hp :
  BatchNorm2d.training bn = true -> n * (h * w) = 1 ->
  BatchNorm2d.forward bn (mkTensor [n; c; h; w] v) hp =
  (alter (push_write (add_ 1)) (BatchNorm2d.num_batches_tracked bn) hp,
   Raised (ValueError "Expected more than 1 value per channel when training")).
Proof.
  intros Ht Hn.
  unfold BatchNorm2d.forward, bind, write_, ret, raise.
  cbn [shape value length Nat.eqb negb nth BatchNorm2d.values_per_channel
       prod_Z fold_right].
  rewrite Ht, Z.mul_1_r, Hn. reflexivity.
Qed.

(** Which inputs of shape [(N, in_channels, H, W)] a block accepts: the
    sizes must be positive and, in training mode, the batch must hold more
    than one value per channel. *)
Lemma double_conv_block_forward_at_returns_only ic oc mode l n h w v hp hp' out :
  double_conv_block.forward (double_conv_block_at ic oc mode l)
    (mkTensor [n; ic; h; w] v) hp = (hp', Returned out) ->
  1 <= h /\ 1 <= w /\ (mode = true -> n * (h * w) <> 1).
Proof.
  intros Hr.
  assert (Hhw : 1 <= h /\ 1 <= w).
  { destruct (Z_lt_le_dec h 1) as [Hh|Hh]; [|destruct (Z_lt_le_dec w 1) as [Hw|Hw]];
      [exfalso | exfalso | auto].
    all: unfold double_conv_block.forward, double_conv_block_at in Hr;
      cbn [double_conv_block.sequence Sequential.forward layer_forward] in Hr;
      erewrite bind_Raised in Hr
        by (apply Conv2d_3x3_forward_raises; [reflexivity | auto]);
      discriminate. }
  destruct Hhw as [Hh Hw]. repeat split; auto.
  intros -> Hn.
  unfold double_conv_block.forward, double_conv_block_at in Hr.
  cbn [double_conv_block.sequence Sequential.forward layer_forward] in Hr.
  erewrite bind_Returned in Hr by (apply Conv2d_3x3_forward; auto).
  erewrite bind_Raised in Hr
    by (apply BatchNorm2d_forward_single_value; [reflexivity | exact Hn]).
  discriminate.
Qed.

(** C7.  For a [double_conv_block] built with [(in_channels, out_channels)]
    and put in either mode, and an input of shape [(N, in_channels, H, W)]:
    the input is valid, that is [forward] returns, exactly when [H] and [W]
    are positive and, in training mode, the batch holds more than one value
    per channel; and on every valid input, with [H] and [W] odd or even, the
    output has shape [(N, out_channels, H, W)].  Both convolutions of the
    block are 3 by 3 with stride 1 and padding 1, which keeps [H] and
    [W]. *)
Theorem double_conv_block_forward_shape ic oc h0 h1 d mode N H W v hp :
  double_conv_block.init ic oc h0 = (h1, Returned d) ->
  1 <= ic -> 1 <= oc -> 1 <= N ->
  let r := double_conv_block.forward (double_conv_block.train mode d)
             (mkTensor [N; ic; H; W] v) hp in
  (1 <= H -> 1 <= W -> (mode = true -> N * (H * W) <> 1) ->
   exists hp' out, r = (hp', Returned out) /\ shape out = [N; oc; H; W])
  /\ (forall hp' out,
        r = (hp', Returned out) ->
        shape out = [N; oc; H; W]
        /\ 1 <= H /\ 1 <= W /\ (mode = true -> N * (H * W) <> 1))
  /\ length (double_conv_block_convs d) = 2%nat
  /\ Forall
       (fun c =>
          Conv2d.kernel_size c = (3, 3)
          /\ Conv2d.stride c = (1, 1)
          /\ Conv2d.padding c = (1, 1)
          /\ (forall s, Conv2d.out_size s (fst (Conv2d.kernel_size c))
                          (fst (Conv2d.stride c)) (fst (Conv2d.padding c)) = s)
          /\ (forall s, Conv2d.out_size s (snd (Conv2d.kernel_size c))
                          (snd (Conv2d.stride c)) (snd (Conv2d.padding c)) = s))
       (double_conv_block_convs d).
Proof.
  intros Hinit Hic Hoc HN r.
  apply double_conv_block_init_inv in Hinit as [-> ->].
  subst r. rewrite double_conv_block_train_at.
  assert (Hvalid :
    1 <= H -> 1 <= W -> (mode = true -> N * (H * W) <> 1) ->
    exists hp' out,
      double_conv_block.forward (double_conv_block_at ic oc mode (length h0))
        (mkTensor [N; ic; H; W] v) hp = (hp', Returned out)
      /\ shape out = [N; oc; H; W]).
  { intros HH HW Hmode.
    destruct (double_conv_block_forward_at ic oc mode (length h0) N ic H W v hp)
      as (hp' & e & E); auto.
    exists hp', (mkTensor [N; oc; H; W] e). auto. }
  split; [exact Hvalid|]. split.
  - intros hp' out Hr.
    destruct (double_conv_block_forward_at_returns_only _ _ _ _ _ _ _ _ _ _ _ Hr)
      as (HH & HW & Hmode).
    destruct (Hvalid HH HW Hmode) as (hp'' & out' & Hr' & Hs).
    rewrite Hr in Hr'. injection Hr' as _ <-. auto.
  - split; [reflexivity|].
    repeat constructor; cbn; intros s; apply conv3x3_same_size.
Qed.

Lemma double_conv_block_forward_shape_witness :
  exists hp' out,
    double_conv_block.forward
      (double_conv_block.train true (double_conv_block_at 3 8 true 0))
      (mkTensor [1; 3; 5; 4] (Input "x")) (double_conv_block_cells 3 8)
    = (hp', Returned out)
    /\ shape out = [1; 8; 5; 4].
Proof.
  apply (double_conv_block_forward_shape 3 8 [] (double_conv_block_cells 3 8)
           (double_conv_block_at 3 8 true 0) true 1 5 4 (Input "x")
           (double_conv_block_cells 3 8)).
  - reflexivity.
  - lia.
  - lia.
  - lia.
  - lia.
  - lia.
  - intros _. lia.
Defined.

(** In training mode a single sample of one pixel is not a valid input of
    the block. *)
Lemma double_conv_block_forward_raises_on_single_value :
  snd (double_conv_block.forward (double_conv_block_at 3 8 true 0)
         (mkTensor [1; 3; 1; 1] (Input "x")) (double_conv_block_cells 3 8))
  = Raised (ValueError "Expected more than 1 value per channel when training").
Proof. vm_compute. reflexivity. Qed.

(** C6.  For a [decoder_block] built with [(in_channels, out_channels)] and
    put in either mode, [x] of shape [(N, in_channels, H, W)] and [skip] of
    shape [(N, out_channels, 2H, 2W)]: the block's [up] is a 2 by 2, stride 2
    transposed convolution from [in_channels] to [out_channels] and gives
    [u] of shape [(N, out_channels, 2H, 2W)]; the concatenation of [u] and
    [skip] along dimension 1 gives [c] with [2 * out_channels] channels; the
    block's [conv] was built as [double_conv_block(2 * out_channels,
    out_channels)]; and [forward] returns what [conv] returns on [c], a
    tensor of shape [(N, out_channels, 2H, 2W)]. *)
Theorem decoder_block_forward_spec ic oc h0 h1 d mode N H W vx vs hp :
  decoder_block.init ic oc h0 = (h1, Returned d) ->
  1 <= ic -> 1 <= oc -> 1 <= N -> 1 <= H -> 1 <= W ->
  let x := mkTensor [N; ic; H; W] vx in
  let skip := mkTensor [N; oc; 2 * H; 2 * W] vs in
  let up := decoder_block.up (decoder_block.train mode d) in
  let conv := decoder_block.conv (decoder_block.train mode d) in
  exists u c hp' out,
    ConvTranspose2d.in_channels up = ic
    /\ ConvTranspose2d.out_channels up = oc
    /\ ConvTranspose2d.kernel_size up = (2, 2)
    /\ ConvTranspose2d.stride up = (2, 2)
    /\ ConvTranspose2d.forward up x hp = (hp, Returned u)
    /\ shape u = [N; oc; 2 * H; 2 * W]
    /\ cat [u; skip] 1 hp = (hp, Returned c)
    /\ shape c = [N; 2 * oc; 2 * H; 2 * W]
    /\ (exists ha hb,
          double_conv_block.init (2 * oc) oc ha
          = (hb, Returned (decoder_block.conv d)))
    /\ double_conv_block.forward conv c hp = (hp', Returned out)
    /\ decoder_block.forward (decoder_block.train mode d) x skip hp
       = (hp', Returned out)
    /\ shape out = [N; oc; 2 * H; 2 * W].
Proof.
  intros Hinit Hic Hoc HN HH HW x skip up conv.
  apply decoder_block_init_inv in Hinit as [-> ->].
  subst x skip up conv. rewrite decoder_block_train_at.
  cbn [decoder_block_at decoder_block.up decoder_block.conv].
  destruct (double_conv_block_forward_at (2 * oc) oc mode (2 + length h0)%nat
              N (oc + oc) (2 * H) (2 * W)
              (torch_cat
                 [F_conv_transpose2d vx (length h0) (Some (S (length h0)))
                    (2, 2) (0, 0); vs] 1) hp)
    as (hp' & e & E); [lia | lia | lia | nia |].
  eexists _, (mkTensor [N; oc + oc; 2 * H; 2 * W] _), hp', _.
  repeat split.
  - apply ConvTranspose2d_2x2_forward. reflexivity.
  - reflexivity.
  - apply cat_two_batches.
  - cbn [shape]. repeat f_equal. lia.
  - exists (h0 ++ ConvTranspose2d_cells ic oc 2 true), 
      ((h0 ++ ConvTranspose2d_cells ic oc 2 true)
         ++ double_conv_block_cells (2 * oc) oc).
    rewrite double_conv_block_init_returns by lia.
    repeat f_equal. rewrite length_app. cbn. lia.
  - exact E.
  - unfold decoder_block.forward.
    cbn [decoder_block.up decoder_block.conv].
    erewrite bind_Returned
      by (apply ConvTranspose2d_2x2_forward; reflexivity).
    erewrite bind_Returned by apply cat_two_batches.
    erewrite bind_Returned by exact E.
    reflexivity.
  - reflexivity.
Qed.

Lemma decoder_block_forward_spec_witness :
  let d := decoder_block_at 1024 512 true 0 in
  let x := mkTensor [1; 1024; 2; 2] (Input "x") in
  let skip := mkTensor [1; 512; 2 * 2; 2 * 2] (Input "skip") in
  let up := decoder_block.up (decoder_block.train true d) in
  let conv := decoder_block.conv (decoder_block.train true d) in
  exists u c hp' out,
    ConvTranspose2d.in_channels up = 1024
    /\ ConvTranspose2d.out_channels up = 512
    /\ ConvTranspose2d.kernel_size up = (2, 2)
    /\ ConvTranspose2d.stride up = (2, 2)
    /\ ConvTranspose2d.forward up x (decoder_block_cells 1024 512)
       = (decoder_block_cells 1024 512, Returned u)
    /\ shape u = [1; 512; 2 * 2; 2 * 2]
    /\ cat [u; skip] 1 (decoder_block_cells 1024 512)
       = (decoder_block_cells 1024 512, Returned c)
    /\ shape c = [1; 2 * 512; 2 * 2; 2 * 2]
    /\ (exists ha hb,
          double_conv_block.init (2 * 512) 512 ha
          = (hb, Returned (decoder_block.conv d)))
    /\ double_conv_block.forward conv c (decoder_block_cells 1024 512)
       = (hp', Returned out)
    /\ decoder_block.forward (decoder_block.train true d) x skip
         (decoder_block_cells 1024 512)
       = (hp', Returned out)
    /\ shape out = [1; 512; 2 * 2; 2 * 2].
Proof.
  apply (decoder_block_forward_spec 1024 512 [] (decoder_block_cells 1024 512)
           (decoder_block_at 1024 512 true 0) true 1 2 2 (Input "x")
           (Input "skip") (decoder_block_cells 1024 512)).
  - reflexivity.
  - lia.
  - lia.
  - lia.
  - lia.
  - lia.
Defined.

(** C10.  In [decoder_block.forward], for every block and every pair of
    inputs: if the transposed convolution raises, so does [forward]; if it
    returns [u], then [forward] is the block's [conv] applied to the
    concatenation of the list [[u; skip]] along dimension 1, in that order.
    The contents of the concatenation are [torch.cat] of the contents of
    [u] then those of [skip]; its first [C_u] channels are the channels of
    [u] and the following [C_skip] channels those of [skip], where [C_u] and
    [C_skip] are the channel counts of [u] and [skip]. *)
Theorem decoder_block_cat_order (d : decoder_block.t) (x skip : Tensor)
    (hp : heap) :
  (forall hp' e,
     ConvTranspose2d.forward (decoder_block.up d) x hp = (hp', Raised e) ->
     decoder_block.forward d x skip hp = (hp', Raised e))
  /\ (forall hp' u,
        ConvTranspose2d.forward (decoder_block.up d) x hp = (hp', Returned u) ->
        decoder_block.forward d x skip hp
        = bind (cat [u; skip] 1)
            (double_conv_block.forward (decoder_block.conv d)) hp'
        /\ (forall hp'' c,
              cat [u; skip] 1 hp' = (hp'', Returned c) ->
              value c = torch_cat [value u; value skip] 1)
        /\ (forall ch,
              0 <= ch < nth 1 (shape u) 0 ->
              cat_channel_source [u; skip] ch = Some (0%nat, ch))
        /\ (forall ch,
              0 <= nth 1 (shape u) 0 ->
              nth 1 (shape u) 0 <= ch
                < nth 1 (shape u) 0 + nth 1 (shape skip) 0 ->
              cat_channel_source [u; skip] ch
              = Some (1%nat, ch - nth 1 (shape u) 0))).
Proof.
  split.
  - intros hp' e E. unfold decoder_block.forward.
    now apply bind_Raised.
  - intros hp' u E. repeat split.
    + unfold decoder_block.forward.
      erewrite bind_Returned by exact E.
      unfold bind. destruct (cat [u; skip] 1 hp') as [h1 [c | e]];
        [|reflexivity].
      destruct (double_conv_block.forward _ c h1) as [h2 [out | e]];
        reflexivity.
    + intros hp'' c. unfold cat.
      destruct (List.filter _ _) as [|first rest].
      * intros [= _ <-]. reflexivity.
      * destruct (_ <=? _)%nat; [discriminate|].
        destruct (check_cat_shapes _ _ _); [discriminate|].
        intros [= _ <-]. reflexivity.
    + intros ch Hch. cbn [cat_channel_source].
      now decide_tests.
    + intros ch Hu Hch. cbn [cat_channel_source].
      replace ((0 <=? ch) && (ch <? nth 1 (shape u) 0)) with false
        by (symmetry; apply andb_false_iff; right; apply Z.ltb_ge; lia).
      now decide_tests.
Qed.

Lemma decoder_block_cat_order_witness :
  cat_channel_source
    [mkTensor [1; 512; 4; 4]
       (F_conv_transpose2d (Input "x") 0 (Some 1%nat) (2, 2) (0, 0));
     mkTensor [1; 512; 4; 4] (Input "skip")] 700
  = Some (1%nat, 700 - 512).
Proof.
  destruct (decoder_block_cat_order (decoder_block_at 1024 512 true 0)
              (mkTensor [1; 1024; 2; 2] (Input "x"))
              (mkTensor [1; 512; 4; 4] (Input "skip"))
              (decoder_block_cells 1024 512)) as [_ H].
  destruct (H (decoder_block_cells 1024 512)
              (mkTensor [1; 512; 4; 4]
                 (F_conv_transpose2d (Input "x") 0 (Some 1%nat) (2, 2) (0, 0))))
    as (_ & _ & _ & Hskip).
  - reflexivity.
  - apply Hskip; cbn; lia.
Defined.

(** * The block of the critic *)

Lemma Conv2d_forward_value c x h h' y :
  Conv2d.forward c x h = (h', Returned y) ->
  h' = h
  /\ value y = F_conv2d (value x) (Conv2d.weight c) (Conv2d.bias c)
                 (Conv2d.stride c) (Conv2d.padding c).
Proof.
  unfold Conv2d.forward.
  destruct (split_nchw (shape x)) as [[[[n ch] hh] w]|]; [|discriminate].
  destruct (negb _); [discriminate|]. destruct (_ || _); [discriminate|].
  intros [= <- <-]. auto.
Qed.

(** C8.  For every [conv_block] with [norm = False], every input and every
    heap, [forward] is the strided convolution followed by the leaky
    activation, the block with the normalization step removed: same
    exception when the convolution raises, same tensor when it returns.  The
    result does not depend on the instance-normalization layer the block
    holds; when [forward] returns, the heap is unchanged, the contents of
    the output are [leaky_relu(conv2d(input))], and they apply instance
    normalization nowhere the input does not. *)
Theorem conv_block_without_norm (self : conv_block.t) (inputs : Tensor)
    (h : heap) :
  conv_block.norm self = false ->
  conv_block.forward self inputs h
  = conv_then_leaky_relu (conv_block.conv self) (conv_block.lrelu self)
      inputs h
  /\ (forall n,
        conv_block.forward
          (conv_block.mk (conv_block.conv self) n (conv_block.lrelu self)
             (conv_block.norm self)) inputs h
        = conv_block.forward self inputs h)
  /\ (forall h' out,
        conv_block.forward self inputs h = (h', Returned out) ->
        h' = h
        /\ value out
           = F_leaky_relu
               (F_conv2d (value inputs)
                  (Conv2d.weight (conv_block.conv self))
                  (Conv2d.bias (conv_block.conv self))
                  (Conv2d.stride (conv_block.conv self))
                  (Conv2d.padding (conv_block.conv self)))
               (LeakyReLU.negative_slope (conv_block.lrelu self))
        /\ uses_instance_norm (value out) = uses_instance_norm (value inputs)).
Proof.
  intros Hnorm.
  assert (E : conv_block.forward self inputs h
              = conv_then_leaky_relu (conv_block.conv self)
                  (conv_block.lrelu self) inputs h).
  { unfold conv_block.forward. rewrite Hnorm. reflexivity. }
  split; [exact E|]. split.
  - intros n. unfold conv_block.forward.
    cbn [conv_block.norm conv_block.conv conv_block.lrelu].
    rewrite Hnorm. reflexivity.
  - intros h' out. rewrite E. unfold conv_then_leaky_relu. intros Hf.
    apply bind_inv in Hf as (y & h'' & Hc & Hl).
    apply Conv2d_forward_value in Hc as [-> Hy].
    unfold LeakyReLU.forward, ret in Hl. injection Hl as <- <-.
    cbn [value]. rewrite Hy. auto.
Qed.

Lemma conv_block_without_norm_witness :
  conv_block.forward (conv_block_at 3 32 false 0)
    (mkTensor [1; 3; 256; 256] (Input "x")) Critic_cells
  = conv_then_leaky_relu (Conv2d_at 3 32 4 2 1 false 0) (LeakyReLU.mk 0.2%Q)
      (mkTensor [1; 3; 256; 256] (Input "x")) Critic_cells.
Proof.
  apply (conv_block_without_norm (conv_block_at 3 32 false 0)
           (mkTensor [1; 3; 256; 256] (Input "x")) Critic_cells).
  reflexivity.
Defined.

(** * Bias parameters *)

(** C9.  In a generator built by the constructor, the final 1 by 1
    convolution and the 2 by 2 transposed convolution of each of the four
    decoder stages have a bias, stored as a parameter of the heap, while the
    two 3 by 3 convolutions of each of the nine [double_conv_block]s have
    none.  The same holds of every [decoder_block] and every
    [double_conv_block], whatever channel counts they are built with.  In a
    critic built by the constructor, none of the six convolutions (one 4 by
    4, stride 2 convolution in each of the five blocks, and the final 4 by 4
    convolution) has a bias. *)
Theorem bias_parameters :
  (forall h0 h1 g,
     Generator.init h0 = (h1, Returned g) ->
     Conv2d.kernel_size (Generator.outputs g) = (1, 1)
     /\ (exists l,
           Conv2d.bias (Generator.outputs g) = Some l
           /\ h1 !! l = Some (mkCell nn_Parameter [2] [uniform_]))
     /\ Forall
          (fun d =>
             ConvTranspose2d.kernel_size (decoder_block.up d) = (2, 2)
             /\ exists l cl,
                 ConvTranspose2d.bias (decoder_block.up d) = Some l
                 /\ h1 !! l = Some cl
                 /\ c_kind cl = nn_Parameter
                 /\ c_shape cl
                    = [ConvTranspose2d.out_channels (decoder_block.up d)])
          (Generator_decoder_blocks g)
     /\ Forall
          (fun d =>
             length (double_conv_block_convs d) = 2%nat
             /\ Forall
                  (fun c =>
                     Conv2d.kernel_size c = (3, 3) /\ Conv2d.bias c = None)
                  (double_conv_block_convs d))
          (Generator_double_conv_blocks g))
  /\ (forall ic oc h0 h1 d,
        decoder_block.init ic oc h0 = (h1, Returned d) ->
        ConvTranspose2d.kernel_size (decoder_block.up d) = (2, 2)
        /\ exists l,
            ConvTranspose2d.bias (decoder_block.up d) = Some l
            /\ h1 !! l = Some (mkCell nn_Parameter [oc] [uniform_]))
  /\ (forall ic oc h0 h1 d,
        double_conv_block.init ic oc h0 = (h1, Returned d) ->
        length (double_conv_block_convs d) = 2%nat
        /\ Forall
             (fun c => Conv2d.kernel_size c = (3, 3) /\ Conv2d.bias c = None)
             (double_conv_block_convs d))
  /\ (forall h0 h1 c,
        Critic.init h0 = (h1, Returned c) ->
        length (omap Critic.as_Conv2d (Critic.modules c)) = 6%nat
        /\ Forall
             (fun cv =>
                Conv2d.kernel_size cv = (4, 4) /\ Conv2d.bias cv = None)
             (omap Critic.as_Conv2d (Critic.modules c))).
Proof.
  split; [|split; [|split]].
  - intros h0 h1 g Hinit. apply Generator_init_inv in Hinit as [-> ->].
    split; [reflexivity|]. split; [|split].
    + exists (S (116 + length h0)). split; [reflexivity|].
      change (S (116 + length h0)) with (117 + length h0)%nat.
      now rewrite lookup_appended.
    + unfold Generator_decoder_blocks, Generator_at.
      cbn [Generator.d1 Generator.d2 Generator.d3 Generator.d4].
      repeat constructor; cbn [decoder_block_at decoder_block.up
        ConvTranspose2d_at ConvTranspose2d.bias ConvTranspose2d.out_channels];
        eexists _, _; (split; [reflexivity|]).
      * change (S (60 + length h0)) with (61 + length h0)%nat.
        rewrite lookup_appended. cbn. auto.
      * change (S (74 + length h0)) with (75 + length h0)%nat.
        rewrite lookup_appended. cbn. auto.
      * change (S (88 + length h0)) with (89 + length h0)%nat.
        rewrite lookup_appended. cbn. auto.
      * change (S (102 + length h0)) with (103 + length h0)%nat.
        rewrite lookup_appended. cbn. auto.
    + unfold Generator_double_conv_blocks, Generator_at.
      repeat constructor.
  - intros ic oc h0 h1 d Hinit.
    apply decoder_block_init_inv in Hinit as [-> ->].
    split; [reflexivity|].
    exists (S (length h0)). split; [reflexivity|].
    change (S (length h0)) with (1 + length h0)%nat.
    now rewrite lookup_appended.
  - intros ic oc h0 h1 d Hinit.
    apply double_conv_block_init_inv in Hinit as [-> ->].
    split; [reflexivity|]. repeat constructor.
  - intros h0 h1 c Hinit.
    rewrite Critic_init_returns in Hinit. injection Hinit as <- <-.
    split; [reflexivity|]. repeat constructor.
Qed.

Lemma bias_parameters_witness :
  (exists l,
     Conv2d.bias (Generator.outputs (Generator_at true 0)) = Some l
     /\ Generator_cells !! l = Some (mkCell nn_Parameter [2] [uniform_]))
  /\ (exists l,
        ConvTranspose2d.bias
          (decoder_block.up (decoder_block_at 1024 512 true 0)) = Some l
        /\ decoder_block_cells 1024 512 !! l
           = Some (mkCell nn_Parameter [512] [uniform_]))
  /\ Forall
       (fun c => Conv2d.kernel_size c = (3, 3) /\ Conv2d.bias c = None)
       (double_conv_block_convs (double_conv_block_at 3 8 true 0))
  /\ Forall
       (fun cv => Conv2d.kernel_size cv = (4, 4) /\ Conv2d.bias cv = None)
       (omap Critic.as_Conv2d (Critic.modules (Critic_at 0))).
Proof.
  destruct bias_parameters as (Hg & Hd & Hb & Hc).
  split; [|split; [|split]].
  - apply (Hg [] Generator_cells (Generator_at true 0)). reflexivity.
  - apply (Hd 1024 512 [] (decoder_block_cells 1024 512)
             (decoder_block_at 1024 512 true 0)).
    reflexivity.
  - apply (Hb 3 8 [] (double_conv_block_cells 3 8)
             (double_conv_block_at 3 8 true 0)).
    reflexivity.
  - apply (Hc [] Critic_cells (Critic_at 0)). reflexivity.
Defined.

(** * Further properties of the blocks *)

(** ** What a returning layer says about its argument *)

Lemma split_nchw_batch sh n c h w :
  split_nchw sh = Some (Some n, c, h, w) -> sh = [n; c; h; w].
Proof.
  destruct sh as [|a [|b [|d [|e [|f r]]]]]; cbn; try discriminate;
    intros [= <- <- <- <-]; reflexivity.
Qed.

Lemma Conv2d_forward_returns_inv c x hp hp' y :
  Conv2d.forward c x hp = (hp', Returned y) ->
  exists n ch h w,
    split_nchw (shape x) = Some (n, ch, h, w)
    /\ ch = Conv2d.in_channels c
    /\ fst (Conv2d.kernel_size c) <= h + 2 * fst (Conv2d.padding c)
    /\ snd (Conv2d.kernel_size c) <= w + 2 * snd (Conv2d.padding c)
    /\ shape y
       = join_nchw n (Conv2d.out_channels c)
           (Conv2d.out_size h (fst (Conv2d.kernel_size c))
              (fst (Conv2d.stride c)) (fst (Conv2d.padding c)))
           (Conv2d.out_size w (snd (Conv2d.kernel_size c))
              (snd (Conv2d.stride c)) (snd (Conv2d.padding c))).
Proof.
  unfold Conv2d.forward.
  destruct (split_nchw (shape x)) as [[[[n ch] h] w]|]; [|discriminate].
  destruct (Z.eqb_spec ch (Conv2d.in_channels c)); cbn [negb];
    [|discriminate].
  destruct (Z.ltb_spec (h + 2 * fst (Conv2d.padding c))
              (fst (Conv2d.kernel_size c))); cbn [orb]; [discriminate|].
  destruct (Z.ltb_spec (w + 2 * snd (Conv2d.padding c))
              (snd (Conv2d.kernel_size c))); [discriminate|].
  intros [= _ <-]. exists n, ch, h, w. cbn [shape]. auto.
Qed.

Lemma BatchNorm2d_forward_returns_inv bn x hp hp' y :
  BatchNorm2d.forward bn x hp = (hp', Returned y) ->
  length (shape x) = 4%nat
  /\ shape y = shape x
  /\ (BatchNorm2d.training bn = true ->
      BatchNorm2d.values_per_channel (shape x) <> 1).
Proof.
  unfold BatchNorm2d.forward.
  destruct (Nat.eqb_spec (length (shape x)) 4); cbn [negb]; [|discriminate].
  unfold bind, write_, ret, raise.
  destruct (BatchNorm2d.training bn); cbn [andb].
  - destruct (Z.eqb_spec (BatchNorm2d.values_per_channel (shape x)) 1);
      [discriminate|].
    destruct (negb _); [discriminate|]. intros [= _ <-]. auto.
  - destruct (negb _); [discriminate|]. intros [= _ <-].
    repeat split; auto.
Qed.

Lemma MaxPool2d_2x2_forward_floor n c h w v hp :
  1 <= c -> 2 <= h -> 2 <= w ->
  MaxPool2d.forward (MaxPool2d.mk (2, 2) (2, 2) (0, 0))
    (mkTensor [n; c; h; w] v) hp =
  (hp, Returned (mkTensor [n; c; h / 2; w / 2] (F_max_pool2d v (2, 2) (2, 2)))).
Proof.
  intros Hc Hh Hw.
  assert (1 <= h / 2) by (apply half_lower_bound; lia).
  assert (1 <= w / 2) by (apply half_lower_bound; lia).
  rewrite MaxPool2d_forward_batch; cbn [MaxPool2d.kernel_size MaxPool2d.stride
    MaxPool2d.padding fst snd]; rewrite ?pool2x2_halves; try lia.
  reflexivity.
Qed.

Lemma half_positive_inv h : 1 <= h / 2 -> 2 <= h.
Proof.
  intros Hh. destruct (Z_lt_le_dec h 2) as [Hlt|]; [|assumption].
  assert (h / 2 < 1) by (apply Z.div_lt_upper_bound; lia). lia.
Qed.

Lemma MaxPool2d_2x2_forward_returns_inv n c h w v hp hp' p :
  MaxPool2d.forward (MaxPool2d.mk (2, 2) (2, 2) (0, 0))
    (mkTensor [n; c; h; w] v) hp = (hp', Returned p) ->
  2 <= h /\ 2 <= w.
Proof.
  unfold MaxPool2d.forward.
  cbn [shape split_nchw value MaxPool2d.kernel_size MaxPool2d.stride
       MaxPool2d.padding fst snd]. cbv zeta.
  destruct (_ || _); [discriminate|].
  rewrite !pool2x2_halves.
  destruct (Z.ltb_spec (h / 2) 1); cbn [orb]; [discriminate|].
  destruct (Z.ltb_spec (w / 2) 1); [discriminate|].
  intros _. split; apply half_positive_inv; assumption.
Qed.

(** A [double_conv_block] that returns was given a batch with the block's
    input channels. *)
Lemma double_conv_block_returns_inv ic oc mode l x hp hp' out :
  double_conv_block.forward (double_conv_block_at ic oc mode l) x hp
  = (hp', Returned out) ->
  exists n h w,
    shape x = [n; ic; h; w]
    /\ 1 <= h /\ 1 <= w
    /\ (mode = true -> n * (h * w) <> 1)
    /\ shape out = [n; oc; h; w].
Proof.
  intros Hr. pose proof Hr as Hr0.
  unfold double_conv_block.forward, double_conv_block_at in Hr.
  cbn [double_conv_block.sequence Sequential.forward layer_forward] in Hr.
  apply bind_inv in Hr as (y & h1 & Hc & Hr).
  apply bind_inv in Hr as (z & h2 & Hb & _).
  apply Conv2d_forward_returns_inv in Hc
    as (n & ch & h & w & Hs & Hch & _ & _ & Hy).
  apply BatchNorm2d_forward_returns_inv in Hb as (H4 & _ & _).
  rewrite Hy in H4. destruct n as [n|]; [|discriminate].
  apply split_nchw_batch in Hs. cbn in Hch. subst ch.
  exists n, h, w. destruct x as [sh v]. cbn [shape] in Hs. subst sh.
  destruct (double_conv_block_forward_at_returns_only _ _ _ _ _ _ _ _ _ _ _ Hr0)
    as (Hh & Hw & Hm).
  destruct (double_conv_block_forward_at ic oc mode l n ic h w v hp)
    as (hp'' & e & E); auto.
  rewrite Hr0 in E. injection E as _ ->. cbn [shape]. auto.
Qed.

(** ** The encoder stage *)

Lemma encoder_block_forward_floor ic oc mode l n h w v hp :
  1 <= oc -> 1 <= n -> 2 <= h -> 2 <= w ->
  exists hp' es,
    encoder_block.forward (encoder_block_at ic oc mode l)
      (mkTensor [n; ic; h; w] v) hp =
    (hp', Returned (mkTensor [n; oc; h; w] es,
                    mkTensor [n; oc; h / 2; w / 2]
                      (F_max_pool2d es (2, 2) (2, 2)))).
Proof.
  intros Hoc Hn Hh Hw.
  destruct (double_conv_block_forward_at ic oc mode l n ic h w v hp)
    as (hp' & es & E); [reflexivity | lia | lia | nia |].
  exists hp', es.
  unfold encoder_block.forward, encoder_block_at.
  cbn [encoder_block.conv encoder_block.maxpool].
  erewrite bind_Returned by exact E.
  erewrite bind_Returned by (apply MaxPool2d_2x2_forward_floor; lia).
  reflexivity.
Qed.

Lemma encoder_block_returns_inv ic oc mode l x hp hp' s p :
  encoder_block.forward (encoder_block_at ic oc mode l) x hp
  = (hp', Returned (s, p)) ->
  exists n h w,
    shape x = [n; ic; h; w]
    /\ 2 <= h /\ 2 <= w
    /\ shape s = [n; oc; h; w]
    /\ shape p = [n; oc; h / 2; w / 2]
    /\ value p = F_max_pool2d (value s) (2, 2) (2, 2).
Proof.
  unfold encoder_block.forward, encoder_block_at.
  cbn [encoder_block.conv encoder_block.maxpool]. intros Hr.
  apply bind_inv in Hr as (out & h1 & Hd & Hr).
  apply bind_inv in Hr as (q & h2 & Hp & Hr).
  apply ret_inv in Hr as [_ [= <- <-]].
  apply double_conv_block_returns_inv in Hd
    as (n & h & w & Hx & _ & _ & _ & Hs).
  exists n, h, w. destruct s as [ss sv]. cbn [shape] in Hs. subst ss.
  pose proof (MaxPool2d_2x2_forward_returns_inv _ _ _ _ _ _ _ _ Hp) as [Hh Hw].
  split; [exact Hx|]. split; [exact Hh|]. split; [exact Hw|].
  split; [reflexivity|].
  unfold MaxPool2d.forward in Hp.
  cbn [shape split_nchw value MaxPool2d.kernel_size MaxPool2d.stride
       MaxPool2d.padding fst snd] in Hp. cbv zeta in Hp.
  destruct (_ || _); [discriminate|].
  destruct (_ || _); [discriminate|].
  injection Hp as _ <-. cbn [shape value]. rewrite !pool2x2_halves. auto.
Qed.

(** X3.  For an [encoder_block] built with [(in_channels, out_channels)], in
    either mode, and an input of shape [(N, in_channels, H, W)] with
    [N >= 1]: [forward] returns exactly when [H >= 2] and [W >= 2]; it then
    returns the pair [(skip, downsampled)] where [skip] has shape
    [(N, out_channels, H, W)], [downsampled] has shape
    [(N, out_channels, H / 2, W / 2)] with the divisions rounded down (the
    last row or column of an odd size is dropped), and [downsampled] is the
    2 by 2, stride 2 max-pooling of [skip] itself. *)
Theorem encoder_block_forward_spec ic oc h0 h1 e mode N H W v hp :
  encoder_block.init ic oc h0 = (h1, Returned e) ->
  1 <= ic -> 1 <= oc -> 1 <= N ->
  let r := encoder_block.forward (encoder_block.train mode e)
             (mkTensor [N; ic; H; W] v) hp in
  (2 <= H -> 2 <= W -> exists hp' s p, r = (hp', Returned (s, p)))
  /\ (forall hp' s p,
        r = (hp', Returned (s, p)) ->
        2 <= H /\ 2 <= W
        /\ shape s = [N; oc; H; W]
        /\ shape p = [N; oc; H / 2; W / 2]
        /\ value p = F_max_pool2d (value s) (2, 2) (2, 2)).
Proof.
  intros Hinit Hic Hoc HN r.
  apply encoder_block_init_inv in Hinit as [-> ->].
  subst r. change (encoder_block.train mode (encoder_block_at ic oc true (length h0)))
    with (encoder_block_at ic oc mode (length h0)).
  split.
  - intros HH HW.
    destruct (encoder_block_forward_floor ic oc mode (length h0) N H W v hp)
      as (hp' & es & E); auto.
    eauto.
  - intros hp' s p Hr.
    apply encoder_block_returns_inv in Hr
      as (n & h & w & Hx & Hh & Hw & Hs & Hp & Hv).
    cbn [shape] in Hx. injection Hx as <- <- <-. auto.
Qed.

Lemma encoder_block_forward_spec_witness :
  exists hp' s p,
    encoder_block.forward
      (encoder_block.train true (encoder_block_at 64 128 true 0))
      (mkTensor [1; 64; 7; 32] (Input "x")) (double_conv_block_cells 64 128)
    = (hp', Returned (s, p)).
Proof.
  apply (encoder_block_forward_spec 64 128 [] (double_conv_block_cells 64 128)
           (encoder_block_at 64 128 true 0) true 1 7 32 (Input "x")
           (double_conv_block_cells 64 128)).
  - reflexivity.
  - lia.
  - lia.
  - lia.
  - lia.
  - lia.
Defined.

(** A single row cannot be pooled. *)
Lemma encoder_block_forward_raises_on_one_row :
  snd (encoder_block.forward (encoder_block_at 64 128 false 0)
         (mkTensor [1; 64; 1; 32] (Input "x")) (double_conv_block_cells 64 128))
  = Raised (RuntimeError "Output size is too small").
Proof. vm_compute. reflexivity. Qed.

(** ** The decoder stage *)

Lemma cat_two_batches_cases n1 c1 h1 w1 v1 n2 c2 h2 w2 v2 hp :
  cat [mkTensor [n1; c1; h1; w1] v1; mkTensor [n2; c2; h2; w2] v2] 1 hp =
  if (n1 =? n2) && (h1 =? h2) && (w1 =? w2)
  then (hp, Returned (mkTensor [n1; c1 + c2; h1; w1] (torch_cat [v1; v2] 1)))
  else (hp, Raised (RuntimeError
                      "Sizes of tensors must match except in the cat dimension")).
Proof.
  unfold cat, check_cat_shapes, check_cat_shape_except_dim,
    sizes_match_except, cat_dim_size.
  cbn. destruct (n1 =? n2), (h1 =? h2), (w1 =? w2); cbn;
    rewrite ?Z.add_0_r; reflexivity.
Qed.

Lemma decoder_block_returns_inv ic oc mode l n cx h w vx ns cs hs ws vs hp hp' out :
  decoder_block.forward (decoder_block_at ic oc mode l)
    (mkTensor [n; cx; h; w] vx) (mkTensor [ns; cs; hs; ws] vs) hp
  = (hp', Returned out) ->
  cx = ic /\ ns = n /\ cs = oc /\ hs = 2 * h /\ ws = 2 * w
  /\ 1 <= h /\ 1 <= w
  /\ shape out = [n; oc; 2 * h; 2 * w].
Proof.
  unfold decoder_block.forward, decoder_block_at.
  cbn [decoder_block.up decoder_block.conv]. intros Hr.
  destruct (Z.eq_dec cx ic) as [->|Hne].
  2:{ unfold ConvTranspose2d.forward, ConvTranspose2d_at in Hr.
      cbn [shape split_nchw ConvTranspose2d.in_channels] in Hr.
      rewrite (proj2 (Z.eqb_neq cx ic)) in Hr by exact Hne.
      discriminate. }
  erewrite bind_Returned in Hr
    by (apply ConvTranspose2d_2x2_forward; reflexivity).
  apply bind_inv in Hr as (c & h1 & Hc & Hr).
  apply bind_inv in Hr as (o & h2 & Hd & Hr).
  apply ret_inv in Hr as [_ <-].
  rewrite cat_two_batches_cases in Hc.
  destruct (Z.eqb_spec n ns); cbn [andb] in Hc; [|discriminate].
  destruct (Z.eqb_spec (2 * h) hs); cbn [andb] in Hc; [|discriminate].
  destruct (Z.eqb_spec (2 * w) ws); [|discriminate].
  injection Hc as <- <-.
  apply double_conv_block_returns_inv in Hd
    as (n' & h' & w' & Hx & Hh & Hw & _ & Ho).
  cbn [shape] in Hx. injection Hx as <- Hcs <- <-.
  rewrite Ho. repeat split; auto; lia.
Qed.

Lemma decoder_block_forward_mismatch ic oc mode l n h w vx ns cs hs ws vs hp :
  ns <> n \/ hs <> 2 * h \/ ws <> 2 * w ->
  decoder_block.forward (decoder_block_at ic oc mode l)
    (mkTensor [n; ic; h; w] vx) (mkTensor [ns; cs; hs; ws] vs) hp
  = (hp, Raised (RuntimeError
                   "Sizes of tensors must match except in the cat dimension")).
Proof.
  intros Hne. unfold decoder_block.forward, decoder_block_at.
  cbn [decoder_block.up decoder_block.conv].
  erewrite bind_Returned
    by (apply ConvTranspose2d_2x2_forward; reflexivity).
  apply bind_Raised. rewrite cat_two_batches_cases.
  replace ((n =? ns) && (2 * h =? hs) && (2 * w =? ws)) with false;
    [reflexivity|].
  symmetry. apply andb_false_iff.
  destruct Hne as [Hn | [Hh | Hw]].
  - left. apply andb_false_iff. left. apply Z.eqb_neq. auto.
  - left. apply andb_false_iff. right. apply Z.eqb_neq. auto.
  - right. apply Z.eqb_neq. auto.
Qed.



(** ** The inputs the generator accepts *)

Lemma sixteen_times a x :
  x = 2 * (2 * (2 * (2 * a))) -> 1 <= a ->
  16 <= x /\ x mod 16 = 0 /\ x / 16 = a.
Proof.
  intros -> Ha. replace (2 * (2 * (2 * (2 * a)))) with (a * 16) by lia.
  rewrite Z_mod_mult, Z.div_mul by lia. repeat split; lia.
Qed.

Lemma Generator_returns_inv mode l x hp hp' out :
  Generator.forward (Generator_at mode l) x hp = (hp', Returned out) ->
  exists N H W,
    shape x = [N; 1; H; W]
    /\ 16 <= H /\ 16 <= W /\ H mod 16 = 0 /\ W mod 16 = 0
    /\ (mode = true -> N * (H / 16) * (W / 16) <> 1)
    /\ shape out = [N; 2; H; W].
Proof.
  unfold Generator.forward, Generator_at.
  cbn [Generator.e1 Generator.e2 Generator.e3 Generator.e4 Generator.b
       Generator.d1 Generator.d2 Generator.d3 Generator.d4 Generator.outputs].
  intros Hr.
  apply bind_inv in Hr as ([s1 p1] & g1 & E1 & Hr). cbv beta iota in Hr.
  apply bind_inv in Hr as ([s2 p2] & g2 & E2 & Hr). cbv beta iota in Hr.
  apply bind_inv in Hr as ([s3 p3] & g3 & E3 & Hr). cbv beta iota in Hr.
  apply bind_inv in Hr as ([s4 p4] & g4 & E4 & Hr). cbv beta iota in Hr.
  apply bind_inv in Hr as (vb & g5 & E5 & Hr).
  apply bind_inv in Hr as (o1 & g6 & E6 & Hr).
  apply bind_inv in Hr as (o2 & g7 & E7 & Hr).
  apply bind_inv in Hr as (o3 & g8 & E8 & Hr).
  apply bind_inv in Hr as (o4 & g9 & E9 & Hr).
  apply bind_inv in Hr as (o5 & g10 & E10 & Hr).
  apply ret_inv in Hr as [_ <-].
  apply encoder_block_returns_inv in E1
    as (N & H & W & Hx & _ & _ & Hs1 & Hp1 & _).
  apply encoder_block_returns_inv in E2
    as (n2 & H1 & W1 & Hp1' & _ & _ & Hs2 & Hp2 & _).
  rewrite Hp1 in Hp1'. injection Hp1' as <- EH1 EW1.
  apply encoder_block_returns_inv in E3
    as (n3 & H2 & W2 & Hp2' & _ & _ & Hs3 & Hp3 & _).
  rewrite Hp2 in Hp2'. injection Hp2' as <- EH2 EW2.
  apply encoder_block_returns_inv in E4
    as (n4 & H3 & W3 & Hp3' & _ & _ & Hs4 & Hp4 & _).
  rewrite Hp3 in Hp3'. injection Hp3' as <- EH3 EW3.
  apply double_conv_block_returns_inv in E5
    as (n5 & a & b & Hp4' & Ha & Hb & Hm & Hvb).
  rewrite Hp4 in Hp4'. injection Hp4' as <- EH4 EW4.
  destruct vb as [sb vb], s4 as [ss4 sv4], s3 as [ss3 sv3],
    s2 as [ss2 sv2], s1 as [ss1 sv1].
  cbn [shape] in Hvb, Hs4, Hs3, Hs2, Hs1. subst sb ss4 ss3 ss2 ss1.
  apply decoder_block_returns_inv in E6
    as (_ & _ & _ & D1h & D1w & _ & _ & Ho1).
  destruct o1 as [so1 vo1]. cbn [shape] in Ho1. subst so1.
  apply decoder_block_returns_inv in E7
    as (_ & _ & _ & D2h & D2w & _ & _ & Ho2).
  destruct o2 as [so2 vo2]. cbn [shape] in Ho2. subst so2.
  apply decoder_block_returns_inv in E8
    as (_ & _ & _ & D3h & D3w & _ & _ & Ho3).
  destruct o3 as [so3 vo3]. cbn [shape] in Ho3. subst so3.
  apply decoder_block_returns_inv in E9
    as (_ & _ & _ & D4h & D4w & _ & _ & Ho4).
  destruct o4 as [so4 vo4]. cbn [shape] in Ho4. subst so4.
  rewrite Conv2d_1x1_forward in E10 by (try reflexivity; lia).
  injection E10 as _ <-. cbn [shape].
  assert (EH : H = 2 * (2 * (2 * (2 * a)))) by lia.
  assert (EW : W = 2 * (2 * (2 * (2 * b)))) by lia.
  destruct (sixteen_times a H EH Ha) as (HH & HHm & HHd).
  destruct (sixteen_times b W EW Hb) as (HW & HWm & HWd).
  exists N, H, W. repeat split; auto.
  - rewrite HHd, HWd, <- Z.mul_assoc. exact Hm.
  - now rewrite <- EH, <- EW.
Qed.

(** X1.  A generator built by the constructor, in either mode, returns from
    [forward] only on an input of shape [(N, 1, H, W)] where [H] and [W] are
    multiples of 16, at least 16, and, in training mode,
    [N * (H/16) * (W/16) <> 1]; the output then has shape [(N, 2, H, W)].
    Every other input is refused with an exception: the generator never
    returns a tensor of another size. *)
Theorem Generator_forward_returns_only h0 h1 g mode x hp hp' out :
  Generator.init h0 = (h1, Returned g) ->
  Generator.forward (Generator.train mode g) x hp = (hp', Returned out) ->
  exists N H W,
    shape x = [N; 1; H; W]
    /\ 16 <= H /\ 16 <= W /\ H mod 16 = 0 /\ W mod 16 = 0
    /\ (mode = true -> N * (H / 16) * (W / 16) <> 1)
    /\ shape out = [N; 2; H; W].
Proof.
  intros Hinit Hr.
  apply Generator_init_inv in Hinit as [-> ->].
  rewrite Generator_train_at in Hr.
  now apply Generator_returns_inv in Hr.
Qed.

Lemma Generator_forward_returns_only_witness :
  exists N H W,
    shape (mkTensor [2; 1; 16; 32] (Input "x")) = [N; 1; H; W]
    /\ 16 <= H /\ 16 <= W /\ H mod 16 = 0 /\ W mod 16 = 0
    /\ (false = true -> N * (H / 16) * (W / 16) <> 1)
    /\ shape
         (match
            snd (Generator.forward (Generator.train false (Generator_at true 0))
                   (mkTensor [2; 1; 16; 32] (Input "x")) Generator_cells)
          with
          | Returned out => out
          | Raised _ => mkTensor [] (Input "x")
          end)
       = [N; 2; H; W].
Proof.
  destruct (Generator.forward (Generator.train false (Generator_at true 0))
              (mkTensor [2; 1; 16; 32] (Input "x")) Generator_cells)
    as [hp' [out | e]] eqn:E.
  - apply (Generator_forward_returns_only [] Generator_cells
             (Generator_at true 0) false
             (mkTensor [2; 1; 16; 32] (Input "x")) Generator_cells hp' out).
    + reflexivity.
    + exact E.
  - exfalso. vm_compute in E. discriminate.
Defined.

Lemma decoder_block_forward_cases ic oc mode l n h w vx hs ws vs hp :
  1 <= n -> 1 <= h -> 1 <= w ->
  (hs = 2 * h /\ ws = 2 * w
   /\ exists hp' e,
       decoder_block.forward (decoder_block_at ic oc mode l)
         (mkTensor [n; ic; h; w] vx) (mkTensor [n; oc; hs; ws] vs) hp
       = (hp', Returned (mkTensor [n; oc; hs; ws] e)))
  \/ ((hs <> 2 * h \/ ws <> 2 * w)
      /\ decoder_block.forward (decoder_block_at ic oc mode l)
           (mkTensor [n; ic; h; w] vx) (mkTensor [n; oc; hs; ws] vs) hp
         = (hp, Raised
                  (RuntimeError
                     "Sizes of tensors must match except in the cat dimension"))).
Proof.
  intros Hn Hh Hw.
  destruct (Z.eq_dec hs (2 * h)) as [->|Hhs];
    [destruct (Z.eq_dec ws (2 * w)) as [->|Hws]|].
  - left. repeat split.
    now apply decoder_block_forward_at.
  - right. split; [auto|]. apply decoder_block_forward_mismatch. auto.
  - right. split; [auto|]. apply decoder_block_forward_mismatch. auto.
Qed.

Lemma not_sixteen_times x :
  x = 2 * (x / 2) -> x / 2 = 2 * (x / 2 / 2) ->
  x / 2 / 2 = 2 * (x / 2 / 2 / 2) ->
  x / 2 / 2 / 2 = 2 * (x / 2 / 2 / 2 / 2) ->
  x mod 16 = 0.
Proof.
  intros E1 E2 E3 E4.
  replace x with ((x / 2 / 2 / 2 / 2) * 16) by lia.
  apply Z_mod_mult.
Qed.

Lemma Generator_forward_not_multiple mode l n h w v hp :
  1 <= n -> 16 <= h -> 16 <= w ->
  h mod 16 <> 0 \/ w mod 16 <> 0 ->
  (mode = true -> n * (h / 16) * (w / 16) <> 1) ->
  exists hp',
    Generator.forward (Generator_at mode l) (mkTensor [n; 1; h; w] v) hp
    = (hp', Raised
              (RuntimeError
                 "Sizes of tensors must match except in the cat dimension")).
Proof.
  intros Hn Hh Hw Hnm Hmode.
  assert (B1 : 8 <= h / 2 /\ 8 <= w / 2)
    by (split; apply half_lower_bound; lia).
  assert (B2 : 4 <= h / 2 / 2 /\ 4 <= w / 2 / 2)
    by (split; apply half_lower_bound; lia).
  assert (B3 : 2 <= h / 2 / 2 / 2 /\ 2 <= w / 2 / 2 / 2)
    by (split; apply half_lower_bound; lia).
  assert (B4 : 1 <= h / 2 / 2 / 2 / 2 /\ 1 <= w / 2 / 2 / 2 / 2)
    by (split; apply half_lower_bound; lia).
  assert (E16 : forall x, x / 2 / 2 / 2 / 2 = x / 16)
    by (intros x; rewrite !Z.div_div by lia; reflexivity).
  unfold Generator.forward, Generator_at.
  cbn [Generator.e1 Generator.e2 Generator.e3 Generator.e4 Generator.b
       Generator.d1 Generator.d2 Generator.d3 Generator.d4 Generator.outputs].
  edestruct (encoder_block_forward_floor 1 64 mode l n h w v hp)
    as (g1 & s1 & E1); [lia..|].
  erewrite bind_Returned by exact E1. clear E1. cbv beta iota.
  edestruct (encoder_block_forward_floor 64 128 mode (12 + l)%nat n
               (h / 2) (w / 2)) as (g2 & s2 & E2); [lia..|].
  erewrite bind_Returned by exact E2. clear E2. cbv beta iota.
  edestruct (encoder_block_forward_floor 128 256 mode (24 + l)%nat n
               (h / 2 / 2) (w / 2 / 2)) as (g3 & s3 & E3); [lia..|].
  erewrite bind_Returned by exact E3. clear E3. cbv beta iota.
  edestruct (encoder_block_forward_floor 256 512 mode (36 + l)%nat n
               (h / 2 / 2 / 2) (w / 2 / 2 / 2)) as (g4 & s4 & E4); [lia..|].
  erewrite bind_Returned by exact E4. clear E4. cbv beta iota.
  edestruct (double_conv_block_forward_at 512 1024 mode (48 + l)%nat n 512
               (h / 2 / 2 / 2 / 2) (w / 2 / 2 / 2 / 2))
    as (g5 & vb & E5); [reflexivity | lia | lia | |].
  { intros Hm. rewrite !E16, Z.mul_assoc. auto. }
  erewrite bind_Returned by exact E5. clear E5.
  edestruct (decoder_block_forward_cases 1024 512 mode (60 + l)%nat n
               (h / 2 / 2 / 2 / 2) (w / 2 / 2 / 2 / 2) vb
               (h / 2 / 2 / 2) (w / 2 / 2 / 2) s4 g5)
    as [(D1h & D1w & g6 & v1 & E6) | [_ E6]]; [lia..| |];
    [|erewrite bind_Raised by exact E6; eauto].
  erewrite bind_Returned by exact E6. clear E6.
  edestruct (decoder_block_forward_cases 512 256 mode (74 + l)%nat n
               (h / 2 / 2 / 2) (w / 2 / 2 / 2) v1
               (h / 2 / 2) (w / 2 / 2) s3 g6)
    as [(D2h & D2w & g7 & v2 & E7) | [_ E7]]; [lia..| |];
    [|erewrite bind_Raised by exact E7; eauto].
  erewrite bind_Returned by exact E7. clear E7.
  edestruct (decoder_block_forward_cases 256 128 mode (88 + l)%nat n
               (h / 2 / 2) (w / 2 / 2) v2 (h / 2) (w / 2) s2 g7)
    as [(D3h & D3w & g8 & v3 & E8) | [_ E8]]; [lia..| |];
    [|erewrite bind_Raised by exact E8; eauto].
  erewrite bind_Returned by exact E8. clear E8.
  edestruct (decoder_block_forward_cases 128 64 mode (102 + l)%nat n
               (h / 2) (w / 2) v3 h w s1 g8)
    as [(D4h & D4w & g9 & v4 & E9) | [_ E9]]; [lia..| |];
    [|erewrite bind_Raised by exact E9; eauto].
  exfalso. destruct Hnm as [Hnm | Hnm]; apply Hnm;
    now apply not_sixteen_times.
Qed.

(** X2.  For a generator built by the constructor, [N >= 1] and [H, W >= 16]
    of which one is not a multiple of 16 (and, in training mode, provided
    the bottleneck holds more than one value per channel), [forward] on an
    input of shape [(N, 1, H, W)] raises the [RuntimeError] of a
    concatenation whose upsampled and skip tensors differ in size; in
    evaluation mode the heap is as before. *)
Theorem Generator_forward_rejects_non_multiple_of_16 h0 h1 g mode N H W v hp :
  Generator.init h0 = (h1, Returned g) ->
  1 <= N -> 16 <= H -> 16 <= W ->
  H mod 16 <> 0 \/ W mod 16 <> 0 ->
  (mode = true -> N * (H / 16) * (W / 16) <> 1) ->
  exists hp',
    Generator.forward (Generator.train mode g) (mkTensor [N; 1; H; W] v) hp
    = (hp', Raised
              (RuntimeError
                 "Sizes of tensors must match except in the cat dimension"))
    /\ (mode = false -> hp' = hp).
Proof.
  intros Hinit HN HH HW Hnm Hmode.
  apply Generator_init_inv in Hinit as [-> ->].
  destruct (Generator_forward_not_multiple mode (length h0) N H W v hp)
    as [hp' E]; auto.
  exists hp'. rewrite Generator_train_at. split; [exact E|].
  intros ->.
  pose proof (Generator_forward_eval_leaves_heap (Generator_at true (length h0))
                (mkTensor [N; 1; H; W] v) hp) as Hl.
  unfold Generator.eval in Hl. rewrite Generator_train_at, E in Hl.
  exact Hl.
Qed.

Lemma Generator_forward_rejects_non_multiple_of_16_witness :
  exists hp',
    Generator.forward (Generator.train false (Generator_at true 0))
      (mkTensor [1; 1; 18; 16] (Input "x")) Generator_cells
    = (hp', Raised
              (RuntimeError
                 "Sizes of tensors must match except in the cat dimension"))
    /\ (false = false -> hp' = Generator_cells).
Proof.
  apply (Generator_forward_rejects_non_multiple_of_16 [] Generator_cells
           (Generator_at true 0) false 1 18 16 (Input "x") Generator_cells).
  - reflexivity.
  - lia.
  - lia.
  - lia.
  - left. vm_compute. discriminate.
  - discriminate.
Defined.

(** ** The block of the critic and the inputs the critic accepts *)

Lemma InstanceNorm2d_forward_returns_inv m n c h w v hp hp' y :
  InstanceNorm2d.forward m (mkTensor [n; c; h; w] v) hp = (hp', Returned y) ->
  h * w <> 1 /\ shape y = [n; c; h; w].
Proof.
  unfold InstanceNorm2d.forward. cbn [shape split_nchw value].
  destruct (Z.eqb_spec (h * w) 1); [discriminate|].
  intros [= _ <-]. auto.
Qed.


Lemma conv_block_returns_inv ic oc norm l n c h w v hp hp' out :
  conv_block.forward (conv_block_at ic oc norm l) (mkTensor [n; c; h; w] v) hp
  = (hp', Returned out) ->
  c = ic /\ 2 <= h /\ 2 <= w
  /\ (norm = true -> (h / 2) * (w / 2) <> 1)
  /\ shape out = [n; oc; h / 2; w / 2]
  /\ hp' = hp.
Proof.
  intros Hr.
  assert (Hhp : hp' = hp).
  { pose proof (conv_block_forward_leaves_heap (conv_block_at ic oc norm l)
                  (mkTensor [n; c; h; w] v) hp) as Hl.
    rewrite Hr in Hl. exact Hl. }
  unfold conv_block.forward, conv_block_at in Hr.
  cbn [conv_block.norm conv_block.conv conv_block.ins_norm conv_block.lrelu]
    in Hr.
  assert (Hc : exists y hy rest,
             Conv2d.forward (Conv2d_at ic oc 4 2 1 false l)
               (mkTensor [n; c; h; w] v) hp = (hy, Returned y)
             /\ (rest : M Tensor) hy = (hp', Returned out)
             /\ rest = (if norm
                        then bind (InstanceNorm2d.forward (InstanceNorm2d.mk oc) y)
                               (LeakyReLU.forward (LeakyReLU.mk 0.2%Q))
                        else LeakyReLU.forward (LeakyReLU.mk 0.2%Q) y)).
  { destruct norm; apply bind_inv in Hr as (y & hy & Hy & Hr); eauto 10. }
  destruct Hc as (y & hy & rest & Hy & Hrest & ->).
  apply Conv2d_forward_returns_inv in Hy
    as (n' & ch & h' & w' & Hs & Hch & Hkh & Hkw & Hsy).
  cbn [shape split_nchw] in Hs. injection Hs as <- <- <- <-.
  cbn in Hch, Hkh, Hkw. cbn [Conv2d_at Conv2d.out_channels Conv2d.kernel_size
    Conv2d.stride Conv2d.padding fst snd join_nchw] in Hsy.
  rewrite !conv4x4_stride2_halves in Hsy.
  destruct y as [sy vy]. cbn [shape] in Hsy. subst sy.
  split; [exact Hch|]. split; [lia|]. split; [lia|].
  destruct norm.
  - apply bind_inv in Hrest as (z & hz & Hz & Hl).
    apply InstanceNorm2d_forward_returns_inv in Hz as [Hne Hsz].
    unfold LeakyReLU.forward, ret in Hl. injection Hl as _ <-.
    cbn [shape]. auto.
  - unfold LeakyReLU.forward, ret in Hrest. injection Hrest as _ <-.
    cbn [shape]. repeat split; auto.
Qed.



(** The same 3 by 2 map is refused when [norm] is set. *)
Lemma conv_block_with_norm_raises_on_single_element :
  conv_block.forward (conv_block_at 3 32 true 0)
    (mkTensor [1; 3; 3; 2] (Input "x")) Critic_cells
  = (Critic_cells,
     Raised (ValueError "Expected more than 1 spatial element when training")).
Proof. vm_compute. reflexivity. Qed.

Lemma Critic_returns_inv l n c h w v hp hp' out :
  Critic.forward (Critic_at l) (mkTensor [n; c; h; w] v) hp
  = (hp', Returned out) ->
  c = 3 /\ 128 <= h /\ 128 <= w
  /\ shape out = [n; 1; h / 32 - 3; w / 32 - 3].
Proof.
  unfold Critic.forward, Critic_at.
  cbn [Critic.block1 Critic.block2 Critic.block3 Critic.block4 Critic.block5
       Critic.output].
  intros Hr.
  apply bind_inv in Hr as ([s1 v1] & g1 & E1 & Hr).
  apply conv_block_returns_inv in E1 as (Hc & _ & _ & _ & S1 & _).
  cbn [shape] in S1. subst s1.
  apply bind_inv in Hr as ([s2 v2] & g2 & E2 & Hr).
  apply conv_block_returns_inv in E2 as (_ & _ & _ & _ & S2 & _).
  cbn [shape] in S2. subst s2.
  apply bind_inv in Hr as ([s3 v3] & g3 & E3 & Hr).
  apply conv_block_returns_inv in E3 as (_ & _ & _ & _ & S3 & _).
  cbn [shape] in S3. subst s3.
  apply bind_inv in Hr as ([s4 v4] & g4 & E4 & Hr).
  apply conv_block_returns_inv in E4 as (_ & _ & _ & _ & S4 & _).
  cbn [shape] in S4. subst s4.
  apply bind_inv in Hr as ([s5 v5] & g5 & E5 & Hr).
  apply conv_block_returns_inv in E5 as (_ & _ & _ & _ & S5 & _).
  cbn [shape] in S5. subst s5.
  apply bind_inv in Hr as (o & g6 & E6 & Hr).
  apply ret_inv in Hr as [_ <-].
  apply Conv2d_forward_returns_inv in E6
    as (n' & ch & h' & w' & Hs & _ & Hkh & Hkw & Ho).
  cbn [shape split_nchw] in Hs. injection Hs as <- <- <- <-.
  cbn in Hkh, Hkw.
  cbn [Conv2d_at Conv2d.out_channels Conv2d.kernel_size Conv2d.stride
       Conv2d.padding fst snd join_nchw] in Ho.
  rewrite !conv4x4_unpadded in Ho.
  assert (E32 : forall x, x / 2 / 2 / 2 / 2 / 2 = x / 32)
    by (intros x; rewrite !Z.div_div by lia; reflexivity).
  rewrite !E32 in *.
  assert (Hge : forall x, 4 <= x / 32 -> 128 <= x).
  { intros x Hx. destruct (Z_lt_le_dec x 128) as [Hlt|]; [|assumption].
    assert (x / 32 < 4) by (apply Z.div_lt_upper_bound; lia). lia. }
  repeat split; auto; apply Hge; lia.
Qed.

(** X6.  A critic built by the constructor returns from [forward] on an
    input of shape [(N, C, H, W)] exactly when [C = 3], [H >= 128] and
    [W >= 128]; the output then has shape [(N, 1, H/32 - 3, W/32 - 3)] and
    the heap is unchanged.  Smaller images are refused with an exception. *)
Theorem Critic_forward_returns_iff h0 h1 c N C H W v hp :
  Critic.init h0 = (h1, Returned c) ->
  let r := Critic.forward c (mkTensor [N; C; H; W] v) hp in
  ((exists hp' out, r = (hp', Returned out))
   <-> C = 3 /\ 128 <= H /\ 128 <= W)
  /\ (forall hp' out,
        r = (hp', Returned out) ->
        shape out = [N; 1; H / 32 - 3; W / 32 - 3] /\ hp' = hp).
Proof.
  intros Hinit r.
  rewrite Critic_init_returns in Hinit. injection Hinit as <- <-. subst r.
  split; [split|].
  - intros (hp' & out & Hr). apply Critic_returns_inv in Hr. tauto.
  - intros (-> & HH & HW).
    destruct (Critic_forward_at (length h0) N H W v hp HH HW) as [e E].
    eauto.
  - intros hp' out Hr. split.
    + apply Critic_returns_inv in Hr. tauto.
    + pose proof (Critic_forward_leaves_heap (Critic_at (length h0))
                    (mkTensor [N; C; H; W] v) hp) as Hl.
      rewrite Hr in Hl. exact Hl.
Qed.

Lemma Critic_forward_returns_iff_witness :
  (exists hp' out,
     Critic.forward (Critic_at 0) (mkTensor [1; 3; 130; 128] (Input "x"))
       Critic_cells = (hp', Returned out))
  <-> 3 = 3 /\ 128 <= 130 /\ 128 <= 128.
Proof.
  apply (Critic_forward_returns_iff [] Critic_cells (Critic_at 0) 1 3 130 128
           (Input "x") Critic_cells).
  reflexivity.
Defined.

(** ** Stored tensors are never reshaped, moved or re-created by a call *)



















(** ** What the constructor of the generator allocates *)

Lemma stored_appended (h0 cells : heap) i l k sh c :
  l = (i + length h0)%nat -> cells !! i = Some c ->
  c_kind c = k -> c_shape c = sh ->
  stored (h0 ++ cells) l k sh.
Proof.
  intros -> Hc Hk Hs. exists c. rewrite lookup_appended. auto.
Qed.

(** Looks for the cell of a location among the first cells that a
    constructor appended. *)
Ltac find_stored i fuel :=
  lazymatch fuel with
  | O => fail "no cell found"
  | S ?fuel' =>
      first [ solve [eapply (stored_appended _ _ i);
                     [reflexivity | reflexivity | reflexivity | reflexivity]]
            | find_stored (S i) fuel' ]
  end.

(** X7.  In any heap, the constructor of the generator returns; it leaves
    the cells that were there untouched and appends 118 new ones, 64
    parameters and 54 buffers.  The stored tensors of the layers of the new
    generator are exactly these 118 cells, in the order of the constructor's
    statements, so that no two layers share a tensor; and each is stored
    with the kind and the shape that the configuration of its layer calls
    for (a convolution weight has shape [(out, in, k, k)], a transposed
    convolution weight [(in, out, k, k)], a bias or a normalization tensor
    one entry per channel). *)
Theorem Generator_init_allocates (h0 : heap) :
  exists g,
    Generator.init h0 = (h0 ++ Generator_cells, Returned g)
    /\ length Generator_cells = 118%nat
    /\ length (List.filter is_parameter Generator_cells) = 64%nat
    /\ Generator_locs g = seq (length h0) 118
    /\ NoDup (Generator_locs g)
    /\ Forall (layer_stored (h0 ++ Generator_cells)) (Generator_layers g).
Proof.
  exists (Generator_at true (length h0)).
  split; [apply Generator_init_returns|].
  split; [reflexivity|]. split; [reflexivity|].
  assert (Hlocs : Generator_locs (Generator_at true (length h0))
                  = seq (length h0) 118) by reflexivity.
  split; [exact Hlocs|]. split; [rewrite Hlocs; apply NoDup_seq|].
  unfold Generator_layers, Generator_at.
  cbn [Generator.e1 Generator.e2 Generator.e3 Generator.e4 Generator.b
       Generator.d1 Generator.d2 Generator.d3 Generator.d4 Generator.outputs
       encoder_block_at encoder_block.conv decoder_block_at decoder_block.conv
       decoder_block.up double_conv_block_at double_conv_block.sequence app].
  repeat (apply Forall_cons; split;
          [cbn [layer_stored]; try exact I;
           repeat match goal with
             | |- _ /\ _ => split
             | |- forall b, _ = Some b -> _ => intros ? [= <-]
             | |- forall b, None = Some b -> _ => intros ? [=]
             end;
           find_stored 0%nat 118%nat|]).
  apply Forall_nil. exact I.
Qed.

(** ** Batch counters after a call that raises *)

Lemma leaves_heap_raises_bump_prefix {A} (m : M A) :
  leaves_heap m -> raises_bump_prefix [] m.
Proof.
  intros Hm h h' e E. specialize (Hm h). rewrite E in Hm. cbn in Hm.
  subst h'. exists []. split; reflexivity.
Qed.

Lemma raises_bump_prefix_bind {A B} L1 L2 (m : M A) (k : A -> M B) :
  returns_bump L1 m -> raises_bump_prefix L1 m ->
  (forall a, raises_bump_prefix L2 (k a)) ->
  raises_bump_prefix (L1 ++ L2) (bind m k).
Proof.
  intros Hret Hm Hk h h' e. unfold bind.
  destruct (m h) as [h1 [a | e1]] eqn:Em.
  - intros Ek. destruct (Hk _ _ _ _ Ek) as (L' & Hpre & Hv).
    exists (L1 ++ L'). split; [now apply prefix_app|].
    rewrite bump_app, <- (Hret _ _ _ Em). exact Hv.
  - intros [= <- <-]. destruct (Hm _ _ _ Em) as (L' & Hpre & Hv).
    exists L'. split; [now apply prefix_app_r | exact Hv].
Qed.

Lemma BatchNorm2d_forward_raises_bump_prefix bn x :
  raises_bump_prefix (layer_counters (L_BatchNorm2d bn))
    (BatchNorm2d.forward bn x).
Proof.
  intros h h' e. unfold BatchNorm2d.forward, layer_counters.
  destruct (negb (_ =? _)%nat).
  { intros [= <- _]. exists []. split; [apply prefix_nil | reflexivity]. }
  unfold bind, write_, ret, raise.
  destruct (BatchNorm2d.training bn); cbn [andb].
  - assert (Hone : int_values
                     (alter (push_write (add_ 1))
                        (BatchNorm2d.num_batches_tracked bn) h)
                   = bump [BatchNorm2d.num_batches_tracked bn] (int_values h))
      by apply int_values_alter_add.
    destruct (_ =? 1).
    { intros [= <- _]. eexists. split; [reflexivity | exact Hone]. }
    destruct (negb (_ =? _)); [|discriminate].
    intros [= <- _]. eexists. split; [reflexivity | exact Hone].
  - destruct (negb (_ =? _)); [|discriminate].
    intros [= <- _]. exists []. split; reflexivity.
Qed.

Lemma layer_forward_raises_bump_prefix l x :
  raises_bump_prefix (layer_counters l) (layer_forward l x).
Proof.
  destruct l; cbn [layer_forward];
    try (apply leaves_heap_raises_bump_prefix;
         first [ apply Conv2d_forward_leaves_heap
               | apply ConvTranspose2d_forward_leaves_heap
               | apply InstanceNorm2d_forward_leaves_heap
               | apply ReLU_forward_leaves_heap
               | apply LeakyReLU_forward_leaves_heap
               | apply MaxPool2d_forward_leaves_heap ]).
  apply BatchNorm2d_forward_raises_bump_prefix.
Qed.

Lemma Sequential_forward_raises_bump_prefix s x :
  raises_bump_prefix (concat (map layer_counters s)) (Sequential.forward s x).
Proof.
  revert x. induction s as [|l s IH]; intros x;
    cbn [Sequential.forward map concat].
  - apply leaves_heap_raises_bump_prefix, leaves_heap_ret.
  - apply raises_bump_prefix_bind;
      [apply layer_forward_returns_bump
      |apply layer_forward_raises_bump_prefix
      |apply IH].
Qed.

Lemma double_conv_block_forward_raises_bump_prefix ic oc l x :
  raises_bump_prefix
    (map BatchNorm2d.num_batches_tracked
       (double_conv_block_norms (double_conv_block_at ic oc true l)))
    (double_conv_block.forward (double_conv_block_at ic oc true l) x).
Proof.
  rewrite <- double_conv_block_counters.
  apply Sequential_forward_raises_bump_prefix.
Qed.

Lemma encoder_block_forward_raises_bump_prefix ic oc l x :
  raises_bump_prefix
    (map BatchNorm2d.num_batches_tracked
       (double_conv_block_norms (double_conv_block_at ic oc true l)))
    (encoder_block.forward (encoder_block_at ic oc true l) x).
Proof.
  unfold encoder_block.forward, encoder_block_at.
  cbn [encoder_block.conv encoder_block.maxpool].
  rewrite <- (app_nil_r (map _ _)).
  apply raises_bump_prefix_bind;
    [apply double_conv_block_forward_returns_bump
    |apply double_conv_block_forward_raises_bump_prefix
    |intros out].
  change (@nil nat) with (@nil nat ++ @nil nat).
  apply raises_bump_prefix_bind; [| |intros p].
  - apply leaves_heap_returns_bump, MaxPool2d_forward_leaves_heap.
  - apply leaves_heap_raises_bump_prefix, MaxPool2d_forward_leaves_heap.
  - apply leaves_heap_raises_bump_prefix, leaves_heap_ret.
Qed.

Lemma decoder_block_forward_raises_bump_prefix ic oc l x skip :
  raises_bump_prefix
    (map BatchNorm2d.num_batches_tracked
       (double_conv_block_norms
          (double_conv_block_at (2 * oc) oc true (2 + l)%nat)))
    (decoder_block.forward (decoder_block_at ic oc true l) x skip).
Proof.
  unfold decoder_block.forward, decoder_block_at.
  cbn [decoder_block.conv decoder_block.up].
  change (map BatchNorm2d.num_batches_tracked
            (double_conv_block_norms
               (double_conv_block_at (2 * oc) oc true (2 + l)%nat)))
    with ([] ++ [] ++
          map BatchNorm2d.num_batches_tracked
            (double_conv_block_norms
               (double_conv_block_at (2 * oc) oc true (2 + l)%nat))).
  apply raises_bump_prefix_bind; [| |intros out].
  { apply leaves_heap_returns_bump, ConvTranspose2d_forward_leaves_heap. }
  { apply leaves_heap_raises_bump_prefix, ConvTranspose2d_forward_leaves_heap. }
  apply raises_bump_prefix_bind; [| |intros out'].
  { apply leaves_heap_returns_bump, cat_leaves_heap. }
  { apply leaves_heap_raises_bump_prefix, cat_leaves_heap. }
  rewrite <- (app_nil_r (map _ _)).
  apply raises_bump_prefix_bind; [| |intros out''].
  { apply double_conv_block_forward_returns_bump. }
  { apply double_conv_block_forward_raises_bump_prefix. }
  apply leaves_heap_raises_bump_prefix, leaves_heap_ret.
Qed.

Lemma Generator_forward_raises_bump_prefix l x :
  raises_bump_prefix
    (map BatchNorm2d.num_batches_tracked (Generator_norms (Generator_at true l)))
    (Generator.forward (Generator_at true l) x).
Proof.
  unfold Generator_norms, Generator_double_conv_blocks.
  cbn [map concat]. rewrite !map_app. rewrite app_nil_r.
  unfold Generator.forward, Generator_at.
  cbn [Generator.e1 Generator.e2 Generator.e3 Generator.e4 Generator.b
       Generator.d1 Generator.d2 Generator.d3 Generator.d4 Generator.outputs
       encoder_block_at encoder_block.conv decoder_block_at
       decoder_block.conv].
  apply raises_bump_prefix_bind;
    [apply (encoder_block_forward_returns_bump 1 64 l)
    |apply (encoder_block_forward_raises_bump_prefix 1 64 l)
    |intros [s1 p1]; cbv beta iota].
  apply raises_bump_prefix_bind;
    [apply (encoder_block_forward_returns_bump 64 128 (12 + l))
    |apply (encoder_block_forward_raises_bump_prefix 64 128 (12 + l))
    |intros [s2 p2]; cbv beta iota].
  apply raises_bump_prefix_bind;
    [apply (encoder_block_forward_returns_bump 128 256 (24 + l))
    |apply (encoder_block_forward_raises_bump_prefix 128 256 (24 + l))
    |intros [s3 p3]; cbv beta iota].
  apply raises_bump_prefix_bind;
    [apply (encoder_block_forward_returns_bump 256 512 (36 + l))
    |apply (encoder_block_forward_raises_bump_prefix 256 512 (36 + l))
    |intros [s4 p4]; cbv beta iota].
  apply raises_bump_prefix_bind;
    [apply (double_conv_block_forward_returns_bump 512 1024 (48 + l))
    |apply (double_conv_block_forward_raises_bump_prefix 512 1024 (48 + l))
    |intros b].
  apply raises_bump_prefix_bind;
    [apply (decoder_block_forward_returns_bump 1024 512 (60 + l))
    |apply (decoder_block_forward_raises_bump_prefix 1024 512 (60 + l))
    |intros d1].
  apply raises_bump_prefix_bind;
    [apply (decoder_block_forward_returns_bump 512 256 (74 + l))
    |apply (decoder_block_forward_raises_bump_prefix 512 256 (74 + l))
    |intros d2].
  apply raises_bump_prefix_bind;
    [apply (decoder_block_forward_returns_bump 256 128 (88 + l))
    |apply (decoder_block_forward_raises_bump_prefix 256 128 (88 + l))
    |intros d3].
  rewrite <- (app_nil_r (map _ _)).
  apply raises_bump_prefix_bind;
    [apply (decoder_block_forward_returns_bump 128 64 (102 + l))
    |apply (decoder_block_forward_raises_bump_prefix 128 64 (102 + l))
    |intros d4].
  change (@nil nat) with (@nil nat ++ @nil nat).
  apply raises_bump_prefix_bind; [| |intros out].
  - apply leaves_heap_returns_bump, Conv2d_forward_leaves_heap.
  - apply leaves_heap_raises_bump_prefix, Conv2d_forward_leaves_heap.
  - apply leaves_heap_raises_bump_prefix, leaves_heap_ret.
Qed.

(** X10.  When a forward call of a constructed generator in training mode
    raises, the batch-normalization layers that ran before the failure keep
    their update: there is [k <= 18] such that the batch counters of the
    first [k] batch normalizations, in the order in which [forward] calls
    them, have been incremented by one, and those of the others are
    unchanged.  A call that raises in training mode is thus not undone. *)
Theorem Generator_forward_counts_up_to_failure h0 h1 g x h h' e :
  Generator.init h0 = (h1, Returned g) ->
  Generator.forward (Generator.train true g) x h = (h', Raised e) ->
  exists k,
    (k <= 18)%nat
    /\ forall i bn,
        Generator_norms g !! i = Some bn ->
        batches_tracked bn h'
        = if (i <? k)%nat
          then Z.succ <$> batches_tracked bn h
          else batches_tracked bn h.
Proof.
  intros Hinit Hf.
  apply Generator_init_inv in Hinit as [-> ->].
  rewrite Generator_train_at in Hf.
  apply Generator_forward_raises_bump_prefix in Hf as (L' & [t Ht] & Hv).
  pose proof (Generator_counters_NoDup true (length h0)) as Hnd.
  assert (Hlen : length (map BatchNorm2d.num_batches_tracked
                           (Generator_norms (Generator_at true (length h0))))
                 = 18%nat) by reflexivity.
  rewrite Ht in Hnd, Hlen. apply NoDup_app in Hnd as (Hnd' & Hdisj & _).
  exists (length L'). split; [rewrite length_app in Hlen; lia|].
  intros i bn Hi. unfold batches_tracked.
  rewrite <- (list_lookup_fmap int_value h'), <- (list_lookup_fmap int_value h).
  change (int_value <$> h') with (int_values h').
  change (int_value <$> h) with (int_values h).
  rewrite Hv.
  assert (Hloc : (L' ++ t) !! i = Some (BatchNorm2d.num_batches_tracked bn)).
  { rewrite <- Ht, list_lookup_fmap, Hi. reflexivity. }
  destruct (Nat.ltb_spec i (length L')) as [Hlt | Hge].
  - rewrite lookup_app_l in Hloc by exact Hlt.
    apply lookup_bump; [exact Hnd'|].
    eapply list_elem_of_lookup_2. exact Hloc.
  - rewrite lookup_app_r in Hloc by exact Hge.
    apply lookup_bump_other. intros Hin.
    apply (Hdisj _ Hin). eapply list_elem_of_lookup_2. exact Hloc.
Qed.

Lemma Generator_forward_counts_up_to_failure_witness :
  exists k,
    (k <= 18)%nat
    /\ forall i bn,
        Generator_norms (Generator_at true 0) !! i = Some bn ->
        batches_tracked bn
          (fst (Generator.forward (Generator.train true (Generator_at true 0))
                  (mkTensor [1; 1; 16; 16] (Input "x")) Generator_cells))
        = if (i <? k)%nat
          then Z.succ <$> batches_tracked bn Generator_cells
          else batches_tracked bn Generator_cells.
Proof.
  apply (Generator_forward_counts_up_to_failure [] Generator_cells
           (Generator_at true 0) (mkTensor [1; 1; 16; 16] (Input "x"))
           Generator_cells _
           (ValueError "Expected more than 1 value per channel when training")).
  - reflexivity.
  - vm_compute. reflexivity.
Defined.

(** ** The outputs are raw convolutions *)

(** X8.  Whenever [forward] of a generator or of a critic returns, whatever
    the object and the input, the contents of the output are the result of
    the final convolution ([outputs], resp. [output]) itself: no activation
    and no normalization is applied after it. *)
Theorem outputs_are_raw_convolutions :
  (forall g x h h' out,
     Generator.forward g x h = (h', Returned out) ->
     exists e,
       value out
       = F_conv2d e (Conv2d.weight (Generator.outputs g))
           (Conv2d.bias (Generator.outputs g))
           (Conv2d.stride (Generator.outputs g))
           (Conv2d.padding (Generator.outputs g)))
  /\ (forall c x h h' out,
        Critic.forward c x h = (h', Returned out) ->
        exists e,
          value out
          = F_conv2d e (Conv2d.weight (Critic.output c))
              (Conv2d.bias (Critic.output c))
              (Conv2d.stride (Critic.output c))
              (Conv2d.padding (Critic.output c))).
Proof.
  split.
  - intros g x h h' out. unfold Generator.forward. intros Hr.
    do 4 (apply bind_inv in Hr as ([? ?] & ? & _ & Hr); cbv beta iota in Hr).
    do 5 (apply bind_inv in Hr as (? & ? & _ & Hr)).
    apply bind_inv in Hr as (o & ho & Ho & Hr).
    apply ret_inv in Hr as [_ <-].
    apply Conv2d_forward_value in Ho as [_ Ho]. eauto.
  - intros c x h h' out. unfold Critic.forward. intros Hr.
    do 5 (apply bind_inv in Hr as (? & ? & _ & Hr)).
    apply bind_inv in Hr as (o & ho & Ho & Hr).
    apply ret_inv in Hr as [_ <-].
    apply Conv2d_forward_value in Ho as [_ Ho]. eauto.
Qed.

Lemma outputs_are_raw_convolutions_witness :
  exists e,
    value
      (match
         snd (Critic.forward (Critic_at 0)
                (mkTensor [1; 3; 128; 128] (Input "x")) Critic_cells)
       with
       | Returned out => out
       | Raised _ => mkTensor [] (Input "x")
       end)
    = F_conv2d e 5%nat None (1, 1) (0, 0).
Proof.
  destruct (Critic.forward (Critic_at 0)
              (mkTensor [1; 3; 128; 128] (Input "x")) Critic_cells)
    as [hp' [out | e]] eqn:E.
  - apply (proj2 outputs_are_raw_convolutions (Critic_at 0)
             (mkTensor [1; 3; 128; 128] (Input "x")) Critic_cells hp' out E).
  - exfalso. vm_compute in E. discriminate.
Defined.
